(** * Token lifecycle of the todo-app REST API

    A shallow embedding of the authentication core of the repository
    (pkg/jwt, pkg/hash, internal/domain, internal/repository,
    internal/service (AuthService), internal/middleware (Auth) and the
    login handler), and the properties of its specification.

    Conventions.
    - [time.Time] and [time.Duration] are integers counting nanoseconds
      (instants since the Unix epoch); Go's saturation at the ends of the
      representable range is not modelled.
    - [uuid.UUID] (16 bytes) is the natural number its bytes spell.
    - The process clock and the entropy source are oracles carried by the
      world: every [time.Now()] and every read of crypto/rand consumes the
      next reading, so two calls never have to agree.
    - The two PostgreSQL tables the core touches are lists of rows; every
      SQL statement is modelled by its effect on a reachable database, with
      the constraints of migrations/schema.sql.  Driver and connection
      faults are outside the model.
    - Functions of third-party libraries (HMAC, the JWT wire codec, bcrypt)
      are variables of the section that holds the model. *)

From Stdlib Require Import ZArith NArith List String Ascii Bool Lia.
From Stdlib Require Import DecimalString.
Import ListNotations.
Local Open Scope string_scope.
Local Open Scope Z_scope.

(** ** Time *)

Definition Time := Z.
Definition Duration := Z.

Definition Nanosecond : Duration := 1.
Definition Second : Duration := 1000000000.
Definition Minute : Duration := 60 * Second.
Definition Hour : Duration := 60 * Minute.

(** [t.Add(d)] *)
Definition Add (t : Time) (d : Duration) : Time := t + d.

(** [t.Before(u)] *)
Definition Before (t u : Time) : bool := t <? u.

(** [t.Truncate(d)] for a positive [d]: round down to a multiple of [d]. *)
Definition Truncate (t : Time) (d : Duration) : Time := (t / d) * d.

(** ** Identifiers *)

Definition UUID := N.

Definition hexDigit (n : N) : ascii :=
  match String.get (N.to_nat n) "0123456789abcdef" with
  | Some c => c
  | None => "0"%char
  end.

Fixpoint hexFixed (digits : nat) (n : N) (acc : string) : string :=
  match digits with
  | O => acc
  | S d => hexFixed d (n / 16)%N (String (hexDigit (n mod 16)%N) acc)
  end.

(** [u.String()]: the canonical 8-4-4-4-12 rendering. *)
Definition uuid_String (u : UUID) : string :=
  let h := hexFixed 32 u "" in
  substring 0 8 h ++ "-" ++ substring 8 4 h ++ "-" ++ substring 12 4 h
    ++ "-" ++ substring 16 4 h ++ "-" ++ substring 20 12 h.

(** ** Errors (internal/domain/errors.go)

    The sentinels are distinct values; [ErrorfW] is [fmt.Errorf] with a
    [%w] verb, [ErrorNew] an error without a cause, and [PqError] a
    PostgreSQL driver error with its SQLSTATE code. *)

Inductive error : Type :=
| ErrNotFound
| ErrAlreadyExists
| ErrUnauthorized
| ErrForbidden
| ErrInvalidCredentials
| ErrTokenExpired
| ErrTokenInvalid
| ErrValidation
| ErrInternal
| ErrorNew (msg : string)
| PqError (code : string)
| ErrorfW (msg : string) (cause : error).

Fixpoint error_eqb (a b : error) : bool :=
  match a, b with
  | ErrNotFound, ErrNotFound => true
  | ErrAlreadyExists, ErrAlreadyExists => true
  | ErrUnauthorized, ErrUnauthorized => true
  | ErrForbidden, ErrForbidden => true
  | ErrInvalidCredentials, ErrInvalidCredentials => true
  | ErrTokenExpired, ErrTokenExpired => true
  | ErrTokenInvalid, ErrTokenInvalid => true
  | ErrValidation, ErrValidation => true
  | ErrInternal, ErrInternal => true
  | ErrorNew m, ErrorNew m' => String.eqb m m'
  | PqError c, PqError c' => String.eqb c c'
  | ErrorfW m e, ErrorfW m' e' => String.eqb m m' && error_eqb e e'
  | _, _ => false
  end.

(** [errors.Is(err, target)] for a sentinel [target]: walk the chain. *)
Fixpoint errors_Is (err target : error) : bool :=
  error_eqb err target ||
  match err with
  | ErrorfW _ cause => errors_Is cause target
  | _ => false
  end.

(** The message of an error, [err.Error()]. *)
Fixpoint Error (e : error) : string :=
  match e with
  | ErrNotFound => "resource not found"
  | ErrAlreadyExists => "resource already exists"
  | ErrUnauthorized => "unauthorized"
  | ErrForbidden => "forbidden"
  | ErrInvalidCredentials => "invalid credentials"
  | ErrTokenExpired => "token expired"
  | ErrTokenInvalid => "token invalid"
  | ErrValidation => "validation error"
  | ErrInternal => "internal server error"
  | ErrorNew m => m
  | PqError c => "pq: " ++ c
  | ErrorfW m cause => m ++ ": " ++ Error cause
  end.

Inductive Result (A : Type) : Type :=
| Ok (a : A)
| Err (e : error).
Arguments Ok {A} a.
Arguments Err {A} e.

(** ** Domain entities (internal/domain/user.go) *)

Record User := {
  User_ID : UUID;
  User_Name : string;
  User_Email : string;
  User_Password : string;
  User_CreatedAt : Time;
  User_UpdatedAt : Time;
  User_DeletedAt : option Time
}.

Record RefreshToken := {
  RefreshToken_ID : UUID;
  RefreshToken_UserID : UUID;
  RefreshToken_Token : string;
  RefreshToken_DeviceID : string;
  RefreshToken_UserAgent : string;
  RefreshToken_ExpiresAt : Time;
  RefreshToken_CreatedAt : Time
}.

Record RegisterRequest := {
  RegisterRequest_Name : string;
  RegisterRequest_Email : string;
  RegisterRequest_Password : string
}.

Record LoginRequest := {
  LoginRequest_Email : string;
  LoginRequest_Password : string;
  LoginRequest_DeviceID : string
}.

Record RefreshTokenRequest := {
  RefreshTokenRequest_RefreshToken : string;
  RefreshTokenRequest_DeviceID : string
}.

Record AuthResponse := {
  AuthResponse_AccessToken : string;
  AuthResponse_RefreshToken : string;
  AuthResponse_User : User
}.

(** ** The world: tables, clock and entropy *)

Record World := {
  users : list User;
  refresh_tokens : list RefreshToken;
  clock : nat -> Time;
  ticks : nat;
  entropy : nat -> UUID;
  draws : nat
}.

Definition set_users (us : list User) (w : World) : World :=
  {| users := us; refresh_tokens := refresh_tokens w;
     clock := clock w; ticks := ticks w;
     entropy := entropy w; draws := draws w |}.

Definition set_refresh_tokens (rts : list RefreshToken) (w : World) : World :=
  {| users := users w; refresh_tokens := rts;
     clock := clock w; ticks := ticks w;
     entropy := entropy w; draws := draws w |}.

(** ** Computations: a state monad whose results may be Go errors.
    The world is returned on failure too: what a call wrote before it
    failed stays written. *)

Definition M (A : Type) : Type := World -> Result A * World.

Definition ret {A} (a : A) : M A := fun w => (Ok a, w).

Definition fail {A} (e : error) : M A := fun w => (Err e, w).

Definition bind {A B} (m : M A) (k : A -> M B) : M B :=
  fun w =>
    match m w with
    | (Ok a, w') => k a w'
    | (Err e, w') => (Err e, w')
    end.

(** [if err != nil { return nil, f(err) }] *)
Definition orReturn {A} (m : M A) (f : error -> error) : M A :=
  fun w =>
    match m w with
    | (Ok a, w') => (Ok a, w')
    | (Err e, w') => (Err (f e), w')
    end.

(** [_ = call()]: the call runs, its error is dropped. *)
Definition discard (m : M unit) : M unit :=
  fun w => (Ok tt, snd (m w)).

Definition lift {A} (r : Result A) : M A := fun w => (r, w).

Declare Scope go_scope.
Delimit Scope go_scope with go.
Notation "x <- m ;; k" := (bind m (fun x => k))
  (at level 61, m at next level, right associativity) : go_scope.
Notation "m ;;; k" := (bind m (fun _ => k))
  (at level 61, right associativity) : go_scope.
Local Open Scope go_scope.

(** [time.Now()] *)
Definition time_Now : M Time :=
  fun w =>
    (Ok (clock w (ticks w)),
     {| users := users w; refresh_tokens := refresh_tokens w;
        clock := clock w; ticks := S (ticks w);
        entropy := entropy w; draws := draws w |}).

(** One read of crypto/rand, as [uuid.New()] makes. *)
Definition uuid_New : M UUID :=
  fun w =>
    (Ok (entropy w (draws w)),
     {| users := users w; refresh_tokens := refresh_tokens w;
        clock := clock w; ticks := ticks w;
        entropy := entropy w; draws := S (draws w) |}).

(** ** Strings (the functions of package strings the middleware uses) *)

(** [strings.Cut(s, sep)] for a one-byte separator. *)
Fixpoint Cut (sep : ascii) (s : string) : option (string * string) :=
  match s with
  | EmptyString => None
  | String c rest =>
      if Ascii.eqb c sep then Some (EmptyString, rest)
      else match Cut sep rest with
           | Some (before, after) => Some (String c before, after)
           | None => None
           end
  end.

(** [strings.SplitN(s, sep, 2)] for a one-byte separator: at most two
    parts, cut at the first separator. *)
Definition SplitN2 (s : string) (sep : ascii) : list string :=
  match Cut sep s with
  | Some (before, after) => [before; after]
  | None => [s]
  end.

Definition toLower (c : ascii) : ascii :=
  let n := nat_of_ascii c in
  if (Nat.leb 65 n && Nat.leb n 90)%bool then ascii_of_nat (n + 32) else c.

Fixpoint ToLower (s : string) : string :=
  match s with
  | EmptyString => EmptyString
  | String c rest => String (toLower c) (ToLower rest)
  end.

(** [strings.EqualFold(s, t)] when [t] is made of the letters of
    ["bearer"]: none of them has a fold partner outside ASCII, so folding
    is the ASCII case map. *)
Definition EqualFold (s t : string) : bool :=
  String.eqb (ToLower s) (ToLower t).

(** ** Tokens (pkg/jwt/jwt.go and the types of golang-jwt it uses) *)

Definition TokenType := string.
Definition jwt_AccessToken : TokenType := "access".
Definition jwt_RefreshToken : TokenType := "refresh".

(** [Claims]: the two application fields and the registered claims the
    validator of the library looks at (exp, nbf, iat) and the token id;
    iss, sub and aud are never set nor checked here. *)
Record Claims := {
  Claims_UserID : UUID;
  Claims_TokenType : TokenType;
  Claims_ExpiresAt : option Time;
  Claims_NotBefore : option Time;
  Claims_IssuedAt : option Time;
  Claims_ID : string
}.

(** The signing method the header of a token names. *)
Inductive SigningMethod : Type :=
| HS256
| HS384
| HS512
| NonHMAC (alg : string).

(** The type assertion of the key function: is the method of the HMAC
    family? *)
Definition isHMAC (m : SigningMethod) : bool :=
  match m with
  | NonHMAC _ => false
  | _ => true
  end.

(** [jwt.Token]: [Token_SigningString] is the text the signature covers
    (the first two segments), [Token_Signature] the third segment. *)
Record Token := {
  Token_Method : SigningMethod;
  Token_Claims : Claims;
  Token_SigningString : string;
  Token_Signature : string;
  Token_Valid : bool
}.

Record Manager := {
  accessSecret : string;
  refreshSecret : string;
  accessTTL : Duration;
  refreshTTL : Duration
}.

(** [jwt.New] *)
Definition New (accessSecret refreshSecret : string)
    (accessTTL refreshTTL : Duration) : Manager :=
  {| accessSecret := accessSecret; refreshSecret := refreshSecret;
     accessTTL := accessTTL; refreshTTL := refreshTTL |}.

(** ** Responses (pkg/response/response.go) and the request context *)

(** [ErrorBody]; the details are the validation failures, field by
    field, and empty when the Go value is nil. *)
Record ErrorBody := {
  ErrorBody_Code : string;
  ErrorBody_Message : string;
  ErrorBody_Details : list (string * string)
}.

(** [Envelope]; the only payload the modelled handlers send is an
    [AuthResponse], and none of them sends pagination. *)
Record Envelope := {
  Envelope_Success : bool;
  Envelope_Data : option AuthResponse;
  Envelope_Error : option ErrorBody
}.

Record Response := {
  Response_Status : Z;
  Response_Body : Envelope
}.

Definition StatusOK : Z := 200.
Definition StatusUnauthorized : Z := 401.
Definition StatusUnprocessableEntity : Z := 422.
Definition StatusInternalServerError : Z := 500.

(** [gin.Context], as far as the gate and the login handler use it: the
    request headers ([""] for a header that is absent), the keys bound to
    the request, the response written so far and the abort flag. *)
Record Context := {
  Request_Header : string -> string;
  Keys : list (string * UUID);
  Written : option Response;
  Aborted : bool
}.

Definition GetHeader (c : Context) (key : string) : string :=
  Request_Header c key.

(** [c.JSON(status, body)] *)
Definition JSON (c : Context) (status : Z) (body : Envelope) : Context :=
  {| Request_Header := Request_Header c; Keys := Keys c;
     Written := Some {| Response_Status := status; Response_Body := body |};
     Aborted := Aborted c |}.

(** [c.Abort()] *)
Definition Abort (c : Context) : Context :=
  {| Request_Header := Request_Header c; Keys := Keys c;
     Written := Written c; Aborted := true |}.

(** [c.Set(key, value)] *)
Definition Set_ (c : Context) (key : string) (value : UUID) : Context :=
  {| Request_Header := Request_Header c; Keys := (key, value) :: Keys c;
     Written := Written c; Aborted := Aborted c |}.

(** [c.Get(key)] *)
Fixpoint lookupKey (key : string) (keys : list (string * UUID)) : option UUID :=
  match keys with
  | [] => None
  | (k, v) :: rest => if String.eqb k key then Some v else lookupKey key rest
  end.

Definition response_OK (c : Context) (data : AuthResponse) : Context :=
  JSON c StatusOK
    {| Envelope_Success := true; Envelope_Data := Some data;
       Envelope_Error := None |}.

Definition response_Unauthorized (c : Context) (msg : string) : Context :=
  JSON c StatusUnauthorized
    {| Envelope_Success := false; Envelope_Data := None;
       Envelope_Error :=
         Some {| ErrorBody_Code := "UNAUTHORIZED"; ErrorBody_Message := msg;
                 ErrorBody_Details := [] |} |}.

Definition response_UnprocessableEntity (c : Context)
    (details : list (string * string)) : Context :=
  JSON c StatusUnprocessableEntity
    {| Envelope_Success := false; Envelope_Data := None;
       Envelope_Error :=
         Some {| ErrorBody_Code := "VALIDATION_ERROR";
                 ErrorBody_Message := "request validation failed";
                 ErrorBody_Details := details |} |}.

Definition response_InternalError (c : Context) : Context :=
  JSON c StatusInternalServerError
    {| Envelope_Success := false; Envelope_Data := None;
       Envelope_Error :=
         Some {| ErrorBody_Code := "INTERNAL_ERROR";
                 ErrorBody_Message := "an internal server error occurred";
                 ErrorBody_Details := [] |} |}.

(** What [validator.BindAndValidate] hands to a handler: an unexpected
    fault, a list of validation failures, or the decoded request. *)
Inductive Bound (A : Type) : Type :=
| BindFault (err : error)
| BindInvalid (fields : list (string * string))
| BindOk (req : A).
Arguments BindFault {A} err.
Arguments BindInvalid {A} fields.
Arguments BindOk {A} req.

(** ** Services and handlers

    [AuthService]: its repositories are the tables of the world and its
    logger has no effect on them; what remains is the token manager.
    [AuthHandler] holds the service. *)

Record AuthService := {
  jwtManager : Manager
}.

Record AuthHandler := {
  authSvc : AuthService
}.

(** ** Table constraints (migrations/schema.sql) *)

(** A value does not fit a [VARCHAR(n)] column; lengths are counted in
    bytes, which is the character count for ASCII text. *)
Definition tooLong (n : nat) (s : string) : bool :=
  Nat.ltb n (String.length s).

Definition unique_violation : error := PqError "23505".
Definition foreign_key_violation : error := PqError "23503".
Definition string_data_right_truncation : error := PqError "22001".

(** [INSERT INTO users]: name, email and hash fit their columns, the id
    is a fresh primary key and the email is unique over all rows. *)
Definition insert_user (u : User) (w : World) : Result unit * World :=
  if (tooLong 100 (User_Name u) || tooLong 255 (User_Email u)
      || tooLong 255 (User_Password u))%bool
  then (Err string_data_right_truncation, w)
  else if existsb (fun r => N.eqb (User_ID r) (User_ID u)
                            || String.eqb (User_Email r) (User_Email u))%bool
                  (users w)
  then (Err unique_violation, w)
  else (Ok tt, set_users (users w ++ [u]) w).

(** [INSERT INTO refresh_tokens]: the device id fits its column, id and
    token are unique, and the user row exists. *)
Definition insert_refresh_token (t : RefreshToken) (w : World)
    : Result unit * World :=
  if tooLong 255 (RefreshToken_DeviceID t)
  then (Err string_data_right_truncation, w)
  else if existsb (fun r => N.eqb (RefreshToken_ID r) (RefreshToken_ID t)
                            || String.eqb (RefreshToken_Token r)
                                          (RefreshToken_Token t))%bool
                  (refresh_tokens w)
  then (Err unique_violation, w)
  else if negb (existsb (fun u => N.eqb (User_ID u) (RefreshToken_UserID t))
                        (users w))
  then (Err foreign_key_violation, w)
  else (Ok tt, set_refresh_tokens (refresh_tokens w ++ [t]) w).

Definition hasToken (token : string) (r : RefreshToken) : bool :=
  String.eqb (RefreshToken_Token r) token.

Definition ownedBy (userID : UUID) (r : RefreshToken) : bool :=
  N.eqb (RefreshToken_UserID r) userID.

(** ** Repositories (internal/repository) *)

(** [mapDBError] *)
Definition mapDBError (err : error) : error :=
  match err with
  | PqError code =>
      if String.eqb code "23505" then ErrAlreadyExists
      else if String.eqb code "23503" then ErrNotFound
      else err
  | _ => err
  end.

Definition userRepository_Create (user : User) : M unit :=
  orReturn (insert_user user)
           (fun err => ErrorfW "userRepository.Create" (mapDBError err)).

Definition live (u : User) : bool :=
  match User_DeletedAt u with
  | None => true
  | Some _ => false
  end.

Definition userRepository_FindByID (id : UUID) : M User :=
  fun w =>
    match find (fun u => N.eqb (User_ID u) id && live u)%bool (users w) with
    | Some u => (Ok u, w)
    | None => (Err ErrNotFound, w)
    end.

Definition userRepository_FindByEmail (email : string) : M User :=
  fun w =>
    match find (fun u => String.eqb (User_Email u) email && live u)%bool
               (users w) with
    | Some u => (Ok u, w)
    | None => (Err ErrNotFound, w)
    end.

Definition refreshTokenRepository_Create (token : RefreshToken) : M unit :=
  orReturn (insert_refresh_token token)
           (ErrorfW "refreshTokenRepository.Create").

Definition refreshTokenRepository_FindByToken (token : string)
    : M RefreshToken :=
  fun w =>
    match find (hasToken token) (refresh_tokens w) with
    | Some rt => (Ok rt, w)
    | None => (Err ErrNotFound, w)
    end.

Definition refreshTokenRepository_DeleteByToken (token : string) : M unit :=
  fun w =>
    (Ok tt,
     set_refresh_tokens
       (filter (fun r => negb (hasToken token r)) (refresh_tokens w)) w).

Definition refreshTokenRepository_DeleteByUserID (userID : UUID) : M unit :=
  fun w =>
    (Ok tt,
     set_refresh_tokens
       (filter (fun r => negb (ownedBy userID r)) (refresh_tokens w)) w).

(** ** More of the repositories *)

(** [checkRowsAffected], on the number of rows a write affected. *)
Definition checkRowsAffected (n : nat) : Result unit :=
  match n with
  | O => Err ErrNotFound
  | S _ => Ok tt
  end.

(** [userRepository.Delete]: a soft delete.  The live rows with the id get
    the reading of the clock that [NOW()] returns as their deletion time;
    no row leaves the table. *)
Definition userRepository_Delete (id : UUID) : M unit :=
  fun w =>
    let hit := fun u => (N.eqb (User_ID u) id && live u)%bool in
    let now := clock w (ticks w) in
    let mark := fun u =>
      if hit u
      then {| User_ID := User_ID u; User_Name := User_Name u;
              User_Email := User_Email u; User_Password := User_Password u;
              User_CreatedAt := User_CreatedAt u;
              User_UpdatedAt := User_UpdatedAt u;
              User_DeletedAt := Some now |}
      else u in
    (checkRowsAffected (List.length (filter hit (users w))),
     {| users := map mark (users w); refresh_tokens := refresh_tokens w;
        clock := clock w; ticks := S (ticks w);
        entropy := entropy w; draws := draws w |}).

(** [refreshTokenRepository.DeleteExpired]: the sweep.  [NOW()] is one
    more reading of the clock; the rows that expire before it go. *)
Definition refreshTokenRepository_DeleteExpired : M unit :=
  fun w =>
    let now := clock w (ticks w) in
    (Ok tt,
     {| users := users w;
        refresh_tokens :=
          filter (fun r => negb (RefreshToken_ExpiresAt r <? now))
                 (refresh_tokens w);
        clock := clock w; ticks := S (ticks w);
        entropy := entropy w; draws := draws w |}).

(** ** More of the responses *)

Definition StatusCreated : Z := 201.
Definition StatusConflict : Z := 409.

Definition response_Created (c : Context) (data : AuthResponse) : Context :=
  JSON c StatusCreated
    {| Envelope_Success := true; Envelope_Data := Some data;
       Envelope_Error := None |}.

Definition response_Conflict (c : Context) (msg : string) : Context :=
  JSON c StatusConflict
    {| Envelope_Success := false; Envelope_Data := None;
       Envelope_Error :=
         Some {| ErrorBody_Code := "CONFLICT"; ErrorBody_Message := msg;
                 ErrorBody_Details := [] |} |}.

(** ** Pagination (pkg/pagination and [response.OKPaginated])

    Go's [int] is the 64-bit signed integer; [int64] is its wrap-around. *)

Definition int64 (z : Z) : Z :=
  (z + 9223372036854775808) mod 18446744073709551616 - 9223372036854775808.

Definition isDigit (c : ascii) : bool :=
  (Nat.leb 48 (nat_of_ascii c) && Nat.leb (nat_of_ascii c) 57)%bool.

Fixpoint parseDigits (s : string) (acc : Z) : option Z :=
  match s with
  | EmptyString => Some acc
  | String c rest =>
      if isDigit c
      then parseDigits rest (acc * 10 + (Z.of_nat (nat_of_ascii c) - 48))
      else None
  end.

(** [strconv.Atoi]: an optional sign and at least one decimal digit, the
    value within the range of [int]; [None] stands for its error. *)
Definition Atoi (s : string) : option Z :=
  match s with
  | EmptyString => None
  | String c rest =>
      let neg := Ascii.eqb c "-" in
      let body := if (Ascii.eqb c "+" || neg)%bool then rest else s in
      match body with
      | EmptyString => None
      | _ =>
          match parseDigits body 0 with
          | None => None
          | Some un =>
              if neg
              then if un <=? 9223372036854775808 then Some (- un) else None
              else if un <? 9223372036854775808 then Some un else None
          end
      end
  end.

Definition DefaultPage : Z := 1.
Definition DefaultLimit : Z := 20.
Definition MaxLimit : Z := 100.

Record Params := {
  Params_Page : Z;
  Params_Limit : Z;
  Params_Offset : Z
}.

(** [parseInt] *)
Definition parseInt (s : string) (fallback : Z) : Z :=
  if String.eqb s EmptyString then fallback
  else match Atoi s with
       | Some v => v
       | None => fallback
       end.

(** [pagination.FromContext]; [query] is [c.Query] of the request. *)
Definition FromContext (query : string -> string) : Params :=
  let page := parseInt (query "page") DefaultPage in
  let limit := parseInt (query "limit") DefaultLimit in
  let page := if page <? 1 then DefaultPage else page in
  let limit := if ((limit <? 1) || (MaxLimit <? limit))%bool
               then DefaultLimit else limit in
  {| Params_Page := page; Params_Limit := limit;
     Params_Offset := int64 (int64 (page - 1) * limit) |}.

Record Meta := {
  Meta_Page : Z;
  Meta_Limit : Z;
  Meta_TotalItems : Z;
  Meta_TotalPages : Z
}.

(** [response.OKPaginated]: the pagination metadata of the envelope it
    sends; [None] stands for the run-time panic of a division by zero.
    The payload is opaque and the status is always 200. *)
Definition OKPaginated (page limit total : Z) : option Meta :=
  if limit =? 0 then None
  else
    let totalPages := int64 (Z.quot total limit) in
    let totalPages := if negb (Z.rem total limit =? 0)
                      then int64 (totalPages + 1) else totalPages in
    Some {| Meta_Page := page; Meta_Limit := limit;
            Meta_TotalItems := total; Meta_TotalPages := totalPages |}.

(** ** What the schema promises of the two tables *)

(** No two sessions share an id or a token. *)
Definition uniqueSessions (rts : list RefreshToken) : Prop :=
  NoDup (map RefreshToken_ID rts) /\ NoDup (map RefreshToken_Token rts).

(** No two users share an id or an email. *)
Definition uniqueUsers (us : list User) : Prop :=
  NoDup (map User_ID us) /\ NoDup (map User_Email us).

(** Every session belongs to a row of the user table. *)
Definition sessionsHaveUsers (us : list User) (rts : list RefreshToken)
    : Prop :=
  forall r, In r rts -> exists u, In u us /\ User_ID u = RefreshToken_UserID r.

(** ** A refresh call in progress

    [AuthService.RefreshTokens] reaches the clock and the store one
    statement at a time, with no transaction around them (there is none
    in the repository layer), and the server runs every request in a
    goroutine of its own: the statements of two calls may follow one
    another in any order.  A call in progress is at one of its statements,
    with the locals that are still used from there on. *)

Inductive RefreshCall : Type :=
| AtVerify
    (* claims, err := s.jwtManager.ParseRefreshToken(req.RefreshToken) *)
| AtLookup (claims : Claims)
    (* storedToken, err := s.refreshTokenRepo.FindByToken(ctx, ...) *)
| AtExpiry (claims : Claims) (storedToken : RefreshToken)
    (* if storedToken.ExpiresAt.Before(time.Now()) *)
| AtDiscard
    (* _ = s.refreshTokenRepo.DeleteByToken(ctx, ...); return ErrTokenExpired *)
| AtRotate (claims : Claims)
    (* if err := s.refreshTokenRepo.DeleteByToken(ctx, ...); err != nil *)
| AtFindUser (claims : Claims)
    (* user, err := s.userRepo.FindByID(ctx, claims.UserID) *)
| AtIssue (user : User)
    (* return s.buildAuthResponse(ctx, user, req.DeviceID) *)
| Returned (r : Result AuthResponse).

(** Which of two calls in progress runs its next statement. *)
Inductive Turn : Type := Former | Latter.

(** ** A small reference instance of the library functions

    The model below is parametric in the third-party functions.  This
    instance gives them a concrete, executable form (a dotted text format
    for tokens, a rolling checksum in place of the keyed hash and of
    bcrypt) so that the model can be run on concrete worlds. *)

Fixpoint Split (sep : ascii) (s : string) : list string :=
  match s with
  | EmptyString => [EmptyString]
  | String c rest =>
      if Ascii.eqb c sep then EmptyString :: Split sep rest
      else match Split sep rest with
           | x :: xs => String c x :: xs
           | [] => [String c EmptyString]
           end
  end.

Fixpoint refDigest (s : string) (h : N) : N :=
  match s with
  | EmptyString => h
  | String c rest => refDigest rest ((h * 31 + N_of_ascii c) mod 4294967296)%N
  end.

Definition refAlg (m : SigningMethod) : string :=
  match m with
  | HS256 => "HS256"
  | HS384 => "HS384"
  | HS512 => "HS512"
  | NonHMAC alg => alg
  end.

Definition refMethod (alg : string) : SigningMethod :=
  if String.eqb alg "HS256" then HS256
  else if String.eqb alg "HS384" then HS384
  else if String.eqb alg "HS512" then HS512
  else NonHMAC alg.

Definition refHmacSign (m : SigningMethod) (key text : string) : string :=
  hexFixed 8 (refDigest (refAlg m ++ "|" ++ key ++ "|" ++ text) 7) "".

Definition refDate (t : option Time) : string :=
  match t with
  | None => "-"
  | Some z => NilEmpty.string_of_int (Z.to_int (z / Second))
  end.

Definition refParseDate (s : string) : option (option Time) :=
  if String.eqb s "-" then Some None
  else match NilEmpty.int_of_string s with
       | Some i => Some (Some (Z.of_int i * Second))
       | None => None
       end.

Definition refParseN (s : string) : option N :=
  match NilEmpty.uint_of_string s with
  | Some u => Some (N.of_uint u)
  | None => None
  end.

Definition refSigningString (m : SigningMethod) (c : Claims) : string :=
  refAlg m ++ "." ++
  NilEmpty.string_of_uint (N.to_uint (Claims_UserID c)) ++ "," ++
  Claims_TokenType c ++ "," ++
  refDate (Claims_ExpiresAt c) ++ "," ++
  refDate (Claims_NotBefore c) ++ "," ++
  refDate (Claims_IssuedAt c) ++ "," ++
  Claims_ID c.

Definition refParseUnverified (tokenStr : string) : option Token :=
  match Split "." tokenStr with
  | [h; p; sg] =>
      match Split "," p with
      | [u; ty; e; n; i; j] =>
          match refParseN u, refParseDate e, refParseDate n, refParseDate i with
          | Some uid, Some exp, Some nbf, Some iat =>
              Some {| Token_Method := refMethod h;
                      Token_Claims :=
                        {| Claims_UserID := uid; Claims_TokenType := ty;
                           Claims_ExpiresAt := exp; Claims_NotBefore := nbf;
                           Claims_IssuedAt := iat; Claims_ID := j |};
                      Token_SigningString := h ++ "." ++ p;
                      Token_Signature := sg;
                      Token_Valid := false |}
          | _, _, _, _ => None
          end
      | _ => None
      end
  | _ => None
  end.

Definition refBcryptGenerateFromPassword (plain : string) (salt : UUID)
    : Result string :=
  if Nat.ltb 72 (String.length plain)
  then Err (ErrorNew "bcrypt: password length exceeds 72 bytes")
  else Ok ("$ref$" ++ hexFixed 8 salt "" ++ "$" ++
           hexFixed 8 (refDigest (hexFixed 8 salt "" ++ plain) 5) "").

Definition refBcryptCompareHashAndPassword (hashed plain : string)
    : Result unit :=
  let salt := substring 5 8 hashed in
  if String.eqb hashed
       ("$ref$" ++ salt ++ "$" ++ hexFixed 8 (refDigest (salt ++ plain) 5) "")
  then Ok tt
  else Err (ErrorNew
    "crypto/bcrypt: hashedPassword is not the hash of the given password").

(** ** Concrete worlds

    A registration at 1 700 000 000 s on a clock that advances a
    millisecond per reading, with entropy 1000, 1001, ..., and the worlds
    derived from it. *)

Definition refSigned (claims : Claims) (secret : string) : string :=
  refSigningString HS256 claims ++ "." ++
  refHmacSign HS256 secret (refSigningString HS256 claims).

Definition exStart : Time := 1700000000 * Second.

Definition exClock (n : nat) : Time := exStart + Z.of_nat n * 1000000.

Definition exEntropy (n : nat) : UUID := (1000 + N.of_nat n)%N.

Definition exManager : Manager :=
  New "access-secret" "refresh-secret" (15 * Minute) (7 * 24 * Hour).

Definition exService : AuthService := {| jwtManager := exManager |}.

Definition exHandler : AuthHandler := {| authSvc := exService |}.

Definition exEmpty : World :=
  {| users := []; refresh_tokens := [];
     clock := exClock; ticks := 0; entropy := exEntropy; draws := 0 |}.

Definition exRegister : RegisterRequest :=
  {| RegisterRequest_Name := "Ann"; RegisterRequest_Email := "a@x.com";
     RegisterRequest_Password := "longenough1" |}.

Definition exAnn : User :=
  {| User_ID := 1001%N; User_Name := "Ann"; User_Email := "a@x.com";
     User_Password := "$ref$000003e8$dbbb932a";
     User_CreatedAt := exClock 0; User_UpdatedAt := exClock 0;
     User_DeletedAt := None |}.

Definition exAccessClaims : Claims :=
  {| Claims_UserID := 1001%N; Claims_TokenType := jwt_AccessToken;
     Claims_ExpiresAt := Some (exStart + 15 * Minute);
     Claims_NotBefore := None; Claims_IssuedAt := Some exStart;
     Claims_ID := uuid_String 1002%N |}.

Definition exRefreshClaims : Claims :=
  {| Claims_UserID := 1001%N; Claims_TokenType := jwt_RefreshToken;
     Claims_ExpiresAt := Some (exStart + 7 * 24 * Hour);
     Claims_NotBefore := None; Claims_IssuedAt := Some exStart;
     Claims_ID := uuid_String 1003%N |}.

Definition exAccessToken : string := refSigned exAccessClaims "access-secret".

Definition exRefreshToken : string := refSigned exRefreshClaims "refresh-secret".

Definition exSession : RefreshToken :=
  {| RefreshToken_ID := 1004%N; RefreshToken_UserID := 1001%N;
     RefreshToken_Token := exRefreshToken;
     RefreshToken_DeviceID := "register-device";
     RefreshToken_UserAgent := EmptyString;
     RefreshToken_ExpiresAt := exClock 3 + 7 * 24 * Hour;
     RefreshToken_CreatedAt := exClock 4 |}.

(** The world the registration leaves. *)
Definition exRegistered : World :=
  {| users := [exAnn]; refresh_tokens := [exSession];
     clock := exClock; ticks := 5; entropy := exEntropy; draws := 5 |}.

Definition exRefresh : RefreshTokenRequest :=
  {| RefreshTokenRequest_RefreshToken := exRefreshToken;
     RefreshTokenRequest_DeviceID := "phone" |}.

(** The same token presented from a second device. *)
Definition exRefreshTablet : RefreshTokenRequest :=
  {| RefreshTokenRequest_RefreshToken := exRefreshToken;
     RefreshTokenRequest_DeviceID := "tablet" |}.

(** Two calls one after the other: the first runs its six statements,
    then the second runs its own. *)
Definition exInTurn : list Turn :=
  [Former; Former; Former; Former; Former; Former;
   Latter; Latter; Latter; Latter; Latter; Latter].

(** Two calls at once: both have verified the token and looked its record
    up before either deletes it; each then runs to its end. *)
Definition exOverlap : list Turn :=
  [Former; Former; Latter; Latter;
   Former; Former; Former; Former;
   Latter; Latter; Latter; Latter].

(** The account of Ann soft-deleted after her registration. *)
Definition exDeparted : World :=
  {| users :=
       [{| User_ID := 1001%N; User_Name := "Ann"; User_Email := "a@x.com";
           User_Password := "$ref$000003e8$dbbb932a";
           User_CreatedAt := exClock 0; User_UpdatedAt := exClock 0;
           User_DeletedAt := Some (exClock 5) |}];
     refresh_tokens := [exSession];
     clock := exClock; ticks := 5; entropy := exEntropy; draws := 5 |}.

(** A service whose refresh tokens live thirty days, the session it
    recorded for Ann, and the world eight days later. *)
Definition exLongManager : Manager :=
  New "access-secret" "refresh-secret" (15 * Minute) (30 * 24 * Hour).

Definition exLongService : AuthService := {| jwtManager := exLongManager |}.

Definition exLongClaims : Claims :=
  {| Claims_UserID := 1001%N; Claims_TokenType := jwt_RefreshToken;
     Claims_ExpiresAt := Some (exStart + 30 * 24 * Hour);
     Claims_NotBefore := None; Claims_IssuedAt := Some exStart;
     Claims_ID := uuid_String 1003%N |}.

Definition exLongToken : string := refSigned exLongClaims "refresh-secret".

Definition exLongSession : RefreshToken :=
  {| RefreshToken_ID := 1004%N; RefreshToken_UserID := 1001%N;
     RefreshToken_Token := exLongToken;
     RefreshToken_DeviceID := "register-device";
     RefreshToken_UserAgent := EmptyString;
     RefreshToken_ExpiresAt := exClock 3 + 7 * 24 * Hour;
     RefreshToken_CreatedAt := exClock 4 |}.

Definition exStale : World :=
  {| users := [exAnn]; refresh_tokens := [exLongSession];
     clock := fun n => exClock n + 8 * 24 * Hour; ticks := 5;
     entropy := exEntropy; draws := 5 |}.

Definition exLongRefresh : RefreshTokenRequest :=
  {| RefreshTokenRequest_RefreshToken := exLongToken;
     RefreshTokenRequest_DeviceID := "phone" |}.

(** A service configured with a refresh lifetime of one hour, and a world
    where Ann has an account, no session, and the clock stands still. *)
Definition exShortManager : Manager :=
  New "access-secret" "refresh-secret" (15 * Minute) (1 * Hour).

Definition exShortService : AuthService := {| jwtManager := exShortManager |}.

Definition exFrozen : World :=
  {| users := [exAnn]; refresh_tokens := [];
     clock := fun _ => exStart; ticks := 0; entropy := exEntropy; draws := 0 |}.

Definition exLogin : LoginRequest :=
  {| LoginRequest_Email := "a@x.com"; LoginRequest_Password := "longenough1";
     LoginRequest_DeviceID := "laptop" |}.

Definition exWrongPassword : LoginRequest :=
  {| LoginRequest_Email := "a@x.com"; LoginRequest_Password := "wrongpassword";
     LoginRequest_DeviceID := "laptop" |}.

Definition exNobody : LoginRequest :=
  {| LoginRequest_Email := "nobody@x.com"; LoginRequest_Password := "longenough1";
     LoginRequest_DeviceID := "laptop" |}.

(** A refresh request whose device id does not fit its column. *)
Fixpoint replicate (n : nat) (c : ascii) : string :=
  match n with
  | O => EmptyString
  | S k => String c (replicate k c)
  end.

Definition exOversized : RefreshTokenRequest :=
  {| RefreshTokenRequest_RefreshToken := exRefreshToken;
     RefreshTokenRequest_DeviceID := replicate 256 "d" |}.

(** A request carrying a bearer credential, and the rest of a chain that
    does nothing. *)
Definition exRequest (authorization : string) : Context :=
  {| Request_Header :=
       fun key => if String.eqb key "Authorization" then authorization
                  else EmptyString;
     Keys := []; Written := None; Aborted := false |}.

Definition exNext (c : Context) (w : World) : Context * World := (c, w).

(** An access-shaped token signed with the refresh secret. *)
Definition exForged : string := refSigned exAccessClaims "refresh-secret".

(** A token whose header names the method "none", with no signature. *)
Definition exUnsigned : string :=
  refSigningString (NonHMAC "none") exAccessClaims ++ ".".

Definition exLongHandler : AuthHandler := {| authSvc := exLongService |}.

(** * The model *)

Section TokenLifecycle.

#[local] Set Default Proof Using "Type".

(** ** Third-party functions *)

(** HMAC of the signing string under a key, for a method of the HMAC
    family, as the text of the signature segment. *)
Variable hmacSign : SigningMethod -> string -> string -> string.

(** [token.SigningString()]: the encoded header and claims, dot-joined. *)
Variable SigningString : SigningMethod -> Claims -> string.

(** [parser.ParseUnverified]: split the token text into its segments and
    decode header and claims; [None] for a malformed token or a method the
    library does not know. *)
Variable ParseUnverified : string -> option Token.

(** [bcrypt.GenerateFromPassword] at the default cost, with its salt. *)
Variable bcryptGenerateFromPassword : string -> UUID -> Result string.

(** [bcrypt.CompareHashAndPassword(hashed, plain)] *)
Variable bcryptCompareHashAndPassword : string -> string -> Result unit.

(** ** golang-jwt, on top of them *)

(** [jwt.NewNumericDate(t)]: a date with the precision of a second. *)
Definition NewNumericDate (t : Time) : Time := Truncate t Second.

(** [jwt.NewWithClaims(method, claims)] *)
Definition NewWithClaims (method : SigningMethod) (claims : Claims) : Token :=
  {| Token_Method := method; Token_Claims := claims;
     Token_SigningString := SigningString method claims;
     Token_Signature := EmptyString; Token_Valid := false |}.

(** [token.SignedString(key)] with a byte-slice key. *)
Definition SignedString (t : Token) (key : string) : Result string :=
  Ok (Token_SigningString t ++ "." ++
      hmacSign (Token_Method t) key (Token_SigningString t)).

(** [method.Verify(text, sig, key)] *)
Definition Verify (method : SigningMethod) (text sig key : string) : bool :=
  isHMAC method && String.eqb (hmacSign method key text) sig.

(** The validator of the library with its default options: [exp] and
    [nbf] are checked against one reading of the clock when present. *)
Definition Validate (claims : Claims) : M unit :=
  now <- time_Now ;;
  let expired :=
    match Claims_ExpiresAt claims with
    | Some exp => negb (Before now exp)
    | None => false
    end in
  let early :=
    match Claims_NotBefore claims with
    | Some nbf => Before now nbf
    | None => false
    end in
  if expired then fail (ErrorNew "token has invalid claims: token is expired")
  else if early
  then fail (ErrorNew "token has invalid claims: token is not valid yet")
  else ret tt.

(** [jwt.ParseWithClaims(tokenStr, claims, keyFunc)]: decode, ask the key
    function for the key, verify the signature, validate the claims. *)
Definition ParseWithClaims (tokenStr : string)
    (keyFunc : Token -> Result string) : M Token :=
  match ParseUnverified tokenStr with
  | None => fail (ErrorNew "token is malformed")
  | Some token =>
      match keyFunc token with
      | Err err => fail (ErrorfW "token is unverifiable" err)
      | Ok key =>
          if negb (Verify (Token_Method token) (Token_SigningString token)
                          (Token_Signature token) key)
          then fail (ErrorNew "token signature is invalid")
          else
            Validate (Token_Claims token) ;;;
            ret {| Token_Method := Token_Method token;
                   Token_Claims := Token_Claims token;
                   Token_SigningString := Token_SigningString token;
                   Token_Signature := Token_Signature token;
                   Token_Valid := true |}
      end
  end.

(** ** pkg/jwt *)

Definition generate (m : Manager) (userID : UUID) (tokenType : TokenType)
    (secret : string) (ttl : Duration) : M string :=
  now <- time_Now ;;
  id <- uuid_New ;;
  let claims :=
    {| Claims_UserID := userID;
       Claims_TokenType := tokenType;
       Claims_ExpiresAt := Some (NewNumericDate (Add now ttl));
       Claims_NotBefore := None;
       Claims_IssuedAt := Some (NewNumericDate now);
       Claims_ID := uuid_String id |} in
  let token := NewWithClaims HS256 claims in
  orReturn (lift (SignedString token secret)) (ErrorfW "sign token").

Definition GenerateAccessToken (m : Manager) (userID : UUID) : M string :=
  generate m userID jwt_AccessToken (accessSecret m) (accessTTL m).

Definition GenerateRefreshToken (m : Manager) (userID : UUID) : M string :=
  generate m userID jwt_RefreshToken (refreshSecret m) (refreshTTL m).

Definition parse (m : Manager) (tokenStr secret : string)
    (expectedType : TokenType) : M Claims :=
  token <- orReturn
             (ParseWithClaims tokenStr
                (fun t =>
                   if negb (isHMAC (Token_Method t))
                   then Err (ErrorNew "unexpected signing method")
                   else Ok secret))
             (ErrorfW "parse token") ;;
  let claims := Token_Claims token in
  if negb (Token_Valid token) then fail (ErrorNew "invalid token claims")
  else if negb (String.eqb (Claims_TokenType claims) expectedType)
  then fail (ErrorNew "invalid token type")
  else ret claims.

Definition ParseAccessToken (m : Manager) (tokenStr : string) : M Claims :=
  parse m tokenStr (accessSecret m) jwt_AccessToken.

Definition ParseRefreshToken (m : Manager) (tokenStr : string) : M Claims :=
  parse m tokenStr (refreshSecret m) jwt_RefreshToken.

(** ** pkg/hash *)

Definition hash_Password (plain : string) : M string :=
  salt <- uuid_New ;;
  orReturn (lift (bcryptGenerateFromPassword plain salt)) (ErrorfW "bcrypt").

Definition hash_CheckPassword (plain hashed : string) : Result unit :=
  bcryptCompareHashAndPassword hashed plain.

(** ** internal/service: AuthService *)

Definition buildAuthResponse (s : AuthService) (user : User)
    (deviceID : string) : M AuthResponse :=
  accessToken <- orReturn (GenerateAccessToken (jwtManager s) (User_ID user))
                          (ErrorfW "generate access token") ;;
  refreshTokenStr <- orReturn
                       (GenerateRefreshToken (jwtManager s) (User_ID user))
                       (ErrorfW "generate refresh token") ;;
  id <- uuid_New ;;
  expiresFrom <- time_Now ;;
  createdAt <- time_Now ;;
  let rt :=
    {| RefreshToken_ID := id;
       RefreshToken_UserID := User_ID user;
       RefreshToken_Token := refreshTokenStr;
       RefreshToken_DeviceID := deviceID;
       RefreshToken_UserAgent := EmptyString;
       RefreshToken_ExpiresAt := Add expiresFrom (7 * 24 * Hour);
       RefreshToken_CreatedAt := createdAt |} in
  orReturn (refreshTokenRepository_Create rt)
           (ErrorfW "store refresh token") ;;;
  ret {| AuthResponse_AccessToken := accessToken;
         AuthResponse_RefreshToken := refreshTokenStr;
         AuthResponse_User := user |}.

Definition Register (s : AuthService) (req : RegisterRequest)
    : M AuthResponse :=
  fun w =>
    match userRepository_FindByEmail (RegisterRequest_Email req) w with
    | (Ok existing, w1) => (Err ErrAlreadyExists, w1)
    | (Err err, w1) =>
        if negb (error_eqb err ErrNotFound)
        then (Err (ErrorfW "authService.Register FindByEmail" err), w1)
        else
          (passwordHash <- orReturn
                             (hash_Password (RegisterRequest_Password req))
                             (ErrorfW "authService.Register hash password") ;;
           now <- time_Now ;;
           id <- uuid_New ;;
           let user :=
             {| User_ID := id;
                User_Name := RegisterRequest_Name req;
                User_Email := RegisterRequest_Email req;
                User_Password := passwordHash;
                User_CreatedAt := now;
                User_UpdatedAt := now;
                User_DeletedAt := None |} in
           orReturn (userRepository_Create user)
                    (ErrorfW "authService.Register create user") ;;;
           buildAuthResponse s user "register-device") w1
    end.

Definition Login (s : AuthService) (req : LoginRequest) (userAgent : string)
    : M AuthResponse :=
  user <- orReturn (userRepository_FindByEmail (LoginRequest_Email req))
                   (fun err =>
                      if error_eqb err ErrNotFound then ErrInvalidCredentials
                      else ErrorfW "authService.Login FindByEmail" err) ;;
  match hash_CheckPassword (LoginRequest_Password req) (User_Password user) with
  | Err _ => fail ErrInvalidCredentials
  | Ok _ => buildAuthResponse s user (LoginRequest_DeviceID req)
  end.

Definition RefreshTokens (s : AuthService) (req : RefreshTokenRequest)
    : M AuthResponse :=
  claims <- orReturn (ParseRefreshToken (jwtManager s)
                        (RefreshTokenRequest_RefreshToken req))
                     (fun _ => ErrTokenInvalid) ;;
  storedToken <- orReturn (refreshTokenRepository_FindByToken
                             (RefreshTokenRequest_RefreshToken req))
                          (fun _ => ErrTokenInvalid) ;;
  now <- time_Now ;;
  if Before (RefreshToken_ExpiresAt storedToken) now
  then
    discard (refreshTokenRepository_DeleteByToken
               (RefreshTokenRequest_RefreshToken req)) ;;;
    fail ErrTokenExpired
  else
    orReturn (refreshTokenRepository_DeleteByToken
                (RefreshTokenRequest_RefreshToken req))
             (ErrorfW "authService.RefreshTokens delete old") ;;;
    user <- orReturn (userRepository_FindByID (Claims_UserID claims))
                     (ErrorfW "authService.RefreshTokens FindByID") ;;
    buildAuthResponse s user (RefreshTokenRequest_DeviceID req).

Definition Logout (s : AuthService) (userID : UUID) (refreshToken : string)
    (allDevices : bool) : M unit :=
  if allDevices then refreshTokenRepository_DeleteByUserID userID
  else refreshTokenRepository_DeleteByToken refreshToken.

(** ** internal/middleware: the request gate *)

Definition userIDKey : string := "user_id".

(** [Auth(jwtManager)]: the handler it returns, applied to a context;
    [next] is the rest of the chain, run by [c.Next()]. *)
Definition Auth (jwtManager : Manager)
    (next : Context -> World -> Context * World)
    (c : Context) (w : World) : Context * World :=
  let authHeader := GetHeader c "Authorization" in
  if String.eqb authHeader EmptyString
  then (Abort (response_Unauthorized c "missing authorization header"), w)
  else
    let parts := SplitN2 authHeader " " in
    match parts with
    | [scheme; credential] =>
        if negb (EqualFold scheme "bearer")
        then (Abort (response_Unauthorized c
                       "invalid authorization header format"), w)
        else
          match ParseAccessToken jwtManager credential w with
          | (Err _, w') =>
              (Abort (response_Unauthorized c
                        "invalid or expired access token"), w')
          | (Ok claims, w') =>
              next (Set_ c userIDKey (Claims_UserID claims)) w'
          end
    | _ =>
        (Abort (response_Unauthorized c
                  "invalid authorization header format"), w)
    end.

(** [CurrentUserID]: [None] stands for the panic of [MustGet]. *)
Definition CurrentUserID (c : Context) : option UUID :=
  lookupKey userIDKey (Keys c).

(** ** internal/handler: the login endpoint *)

Definition AuthHandler_Login (h : AuthHandler) (bound : Bound LoginRequest)
    (c : Context) (w : World) : Context * World :=
  match bound with
  | BindFault _ => (response_InternalError c, w)
  | BindInvalid errs => (response_UnprocessableEntity c errs, w)
  | BindOk req =>
      match Login (authSvc h) req (GetHeader c "User-Agent") w with
      | (Err err, w') =>
          if errors_Is err ErrInvalidCredentials
          then (response_Unauthorized c "invalid email or password", w')
          else (response_InternalError c, w')
      | (Ok authResp, w') => (response_OK c authResp, w')
      end
  end.

(** ** internal/handler: the register and refresh endpoints *)

Definition AuthHandler_Register (h : AuthHandler)
    (bound : Bound RegisterRequest) (c : Context) (w : World)
    : Context * World :=
  match bound with
  | BindFault _ => (response_InternalError c, w)
  | BindInvalid errs => (response_UnprocessableEntity c errs, w)
  | BindOk req =>
      match Register (authSvc h) req w with
      | (Err err, w') =>
          if errors_Is err ErrAlreadyExists
          then (response_Conflict c "email already registered", w')
          else (response_InternalError c, w')
      | (Ok authResp, w') => (response_Created c authResp, w')
      end
  end.

Definition AuthHandler_RefreshToken (h : AuthHandler)
    (bound : Bound RefreshTokenRequest) (c : Context) (w : World)
    : Context * World :=
  match bound with
  | BindFault _ => (response_InternalError c, w)
  | BindInvalid errs => (response_UnprocessableEntity c errs, w)
  | BindOk req =>
      match RefreshTokens (authSvc h) req w with
      | (Err err, w') =>
          if (errors_Is err ErrTokenInvalid || errors_Is err ErrTokenExpired)%bool
          then (response_Unauthorized c "invalid or expired refresh token", w')
          else (response_InternalError c, w')
      | (Ok authResp, w') => (response_OK c authResp, w')
      end
  end.

(** ** Refresh calls at once

    [RefreshTokens] statement by statement.  [proceed m k] runs one
    statement: on success the call moves to the statement [k] names, on
    an error it returns the error. *)

Definition proceed {A} (m : M A) (k : A -> RefreshCall)
    : World -> RefreshCall * World :=
  fun w =>
    match m w with
    | (Ok a, w') => (k a, w')
    | (Err e, w') => (Returned (Err e), w')
    end.

(** The next statement of a call in progress.  The issue sub-flow is one
    step: it reaches the store once, by the insert that ends it. *)
Definition RefreshTokens_step (s : AuthService) (req : RefreshTokenRequest)
    (call : RefreshCall) : World -> RefreshCall * World :=
  match call with
  | AtVerify =>
      proceed (orReturn (ParseRefreshToken (jwtManager s)
                           (RefreshTokenRequest_RefreshToken req))
                        (fun _ => ErrTokenInvalid))
              AtLookup
  | AtLookup claims =>
      proceed (orReturn (refreshTokenRepository_FindByToken
                           (RefreshTokenRequest_RefreshToken req))
                        (fun _ => ErrTokenInvalid))
              (AtExpiry claims)
  | AtExpiry claims storedToken =>
      proceed time_Now
              (fun now => if Before (RefreshToken_ExpiresAt storedToken) now
                          then AtDiscard else AtRotate claims)
  | AtDiscard =>
      proceed (discard (refreshTokenRepository_DeleteByToken
                          (RefreshTokenRequest_RefreshToken req)))
              (fun _ => Returned (Err ErrTokenExpired))
  | AtRotate claims =>
      proceed (orReturn (refreshTokenRepository_DeleteByToken
                           (RefreshTokenRequest_RefreshToken req))
                        (ErrorfW "authService.RefreshTokens delete old"))
              (fun _ => AtFindUser claims)
  | AtFindUser claims =>
      proceed (orReturn (userRepository_FindByID (Claims_UserID claims))
                        (ErrorfW "authService.RefreshTokens FindByID"))
              AtIssue
  | AtIssue user =>
      proceed (buildAuthResponse s user (RefreshTokenRequest_DeviceID req))
              (fun resp => Returned (Ok resp))
  | Returned r => fun w => (Returned r, w)
  end.

(** [n] statements of one call. *)
Fixpoint RefreshTokens_steps (n : nat) (s : AuthService)
    (req : RefreshTokenRequest) (call : RefreshCall) (w : World)
    : RefreshCall * World :=
  match n with
  | O => (call, w)
  | S n' =>
      let (call', w') := RefreshTokens_step s req call w in
      RefreshTokens_steps n' s req call' w'
  end.

(** Two calls on one store, their statements in the order of a schedule. *)
Fixpoint RefreshTokens_interleaved (s : AuthService)
    (req1 req2 : RefreshTokenRequest) (schedule : list Turn)
    (call1 call2 : RefreshCall) (w : World)
    : (RefreshCall * RefreshCall) * World :=
  match schedule with
  | [] => ((call1, call2), w)
  | Former :: rest =>
      let (call1', w') := RefreshTokens_step s req1 call1 w in
      RefreshTokens_interleaved s req1 req2 rest call1' call2 w'
  | Latter :: rest =>
      let (call2', w') := RefreshTokens_step s req2 call2 w in
      RefreshTokens_interleaved s req1 req2 rest call1 call2' w'
  end.

(** ** Histories

    The calls that change the tables, and the world a sequence of them
    leaves. *)

Inductive Call : Type :=
| CallRegister (req : RegisterRequest)
| CallLogin (req : LoginRequest) (userAgent : string)
| CallRefresh (req : RefreshTokenRequest)
| CallLogout (userID : UUID) (refreshToken : string) (allDevices : bool)
| CallSweep
| CallDeleteUser (id : UUID).

Definition step (s : AuthService) (call : Call) (w : World) : World :=
  match call with
  | CallRegister req => snd (Register s req w)
  | CallLogin req userAgent => snd (Login s req userAgent w)
  | CallRefresh req => snd (RefreshTokens s req w)
  | CallLogout userID refreshToken allDevices =>
      snd (Logout s userID refreshToken allDevices w)
  | CallSweep => snd (refreshTokenRepository_DeleteExpired w)
  | CallDeleteUser id => snd (userRepository_Delete id w)
  end.

Fixpoint run (s : AuthService) (calls : list Call) (w : World) : World :=
  match calls with
  | [] => w
  | call :: rest => run s rest (step s call w)
  end.

(** ** Vocabulary of the properties *)

(** The world after [t] readings of the clock and [d] reads of entropy. *)
Definition advance (t d : nat) (w : World) : World :=
  {| users := users w; refresh_tokens := refresh_tokens w;
     clock := clock w; ticks := t + ticks w;
     entropy := entropy w; draws := d + draws w |}.

(** The table without the rows of a token, and without those of a user. *)
Definition withoutToken (token : string) (rts : list RefreshToken)
    : list RefreshToken :=
  filter (fun r => negb (hasToken token r)) rts.

Definition withoutUser (userID : UUID) (rts : list RefreshToken)
    : list RefreshToken :=
  filter (fun r => negb (ownedBy userID r)) rts.

(** The claims [generate] stamps in world [w]. *)
Definition issuedClaims (userID : UUID) (tokenType : TokenType)
    (ttl : Duration) (w : World) : Claims :=
  {| Claims_UserID := userID;
     Claims_TokenType := tokenType;
     Claims_ExpiresAt := Some (NewNumericDate (Add (clock w (ticks w)) ttl));
     Claims_NotBefore := None;
     Claims_IssuedAt := Some (NewNumericDate (clock w (ticks w)));
     Claims_ID := uuid_String (entropy w (draws w)) |}.

(** The text of the HS256 token with these claims under a secret. *)
Definition signedText (claims : Claims) (secret : string) : string :=
  SigningString HS256 claims ++ "." ++
  hmacSign HS256 secret (SigningString HS256 claims).

(** The codec reads back the token with these claims under this secret:
    decoding its text yields the method, the claims, the signing string
    and the signature it was made of. *)
Definition readsBack (claims : Claims) (secret : string) : Prop :=
  exists token,
    ParseUnverified (signedText claims secret) = Some token /\
    Token_Method token = HS256 /\
    Token_Claims token = claims /\
    Token_SigningString token = SigningString HS256 claims /\
    Token_Signature token = hmacSign HS256 secret (SigningString HS256 claims).

(** The signature of a token text verifies under a secret. *)
Definition signatureVerifies (tokenStr secret : string) : Prop :=
  exists token,
    ParseUnverified tokenStr = Some token /\
    Verify (Token_Method token) (Token_SigningString token)
           (Token_Signature token) secret = true.

(** The gate turned the request away: it wrote a 401 with the code
    UNAUTHORIZED and aborted the chain. *)
Definition unauthorized (c c' : Context) : Prop :=
  exists msg,
    c' = Abort (response_Unauthorized c msg) /\
    Aborted c' = true /\
    Keys c' = Keys c /\
    Written c' =
      Some {| Response_Status := 401;
              Response_Body :=
                {| Envelope_Success := false; Envelope_Data := None;
                   Envelope_Error :=
                     Some {| ErrorBody_Code := "UNAUTHORIZED";
                             ErrorBody_Message := msg;
                             ErrorBody_Details := [] |} |} |}.

(** The gate turns the request away without touching the tables. *)
Definition turnedAway (m : Manager)
    (next : Context -> World -> Context * World)
    (c : Context) (w : World) : Prop :=
  exists c' w',
    Auth m next c w = (c', w') /\ unauthorized c c' /\
    users w' = users w /\ refresh_tokens w' = refresh_tokens w.

(** The session record [buildAuthResponse] writes in world [w]. *)
Definition issuedRecord (s : AuthService) (user : User) (deviceID : string)
    (w : World) : RefreshToken :=
  {| RefreshToken_ID := entropy w (2 + draws w);
     RefreshToken_UserID := User_ID user;
     RefreshToken_Token :=
       signedText (issuedClaims (User_ID user) jwt_RefreshToken
                     (refreshTTL (jwtManager s)) (advance 1 1 w))
                  (refreshSecret (jwtManager s));
     RefreshToken_DeviceID := deviceID;
     RefreshToken_UserAgent := EmptyString;
     RefreshToken_ExpiresAt := Add (clock w (2 + ticks w)) (7 * 24 * Hour);
     RefreshToken_CreatedAt := clock w (3 + ticks w) |}.

(** The pair [buildAuthResponse] returns in world [w]. *)
Definition issuedPair (s : AuthService) (user : User) (w : World)
    : AuthResponse :=
  {| AuthResponse_AccessToken :=
       signedText (issuedClaims (User_ID user) jwt_AccessToken
                     (accessTTL (jwtManager s)) w)
                  (accessSecret (jwtManager s));
     AuthResponse_RefreshToken :=
       signedText (issuedClaims (User_ID user) jwt_RefreshToken
                     (refreshTTL (jwtManager s)) (advance 1 1 w))
                  (refreshSecret (jwtManager s));
     AuthResponse_User := user |}.

(** What an operation that may issue one session leaves in the token
    table, starting from the rows [base]: either just [base], or [base]
    and after it the record issued for some user in some world. *)
Definition issuesFrom (s : AuthService) (deviceID : string)
    (base : list RefreshToken) (w' : World) : Prop :=
  refresh_tokens w' = base \/
  exists user w0,
    refresh_tokens w' = (base ++ [issuedRecord s user deviceID w0])%list.

(** The world in which a refresh call that reached the rotation issues
    the new pair: the clock was read twice (by the verification and by
    the expiry check) and the rows of the presented token are gone. *)
Definition rotated (token : string) (w : World) : World :=
  set_refresh_tokens (withoutToken token (refresh_tokens w)) (advance 2 0 w).

(** The user row [Register] writes in world [w] for a request, given the
    hash of the password. *)
Definition registeredUser (req : RegisterRequest) (passwordHash : string)
    (w : World) : User :=
  {| User_ID := entropy w (1 + draws w);
     User_Name := RegisterRequest_Name req;
     User_Email := RegisterRequest_Email req;
     User_Password := passwordHash;
     User_CreatedAt := clock w (ticks w);
     User_UpdatedAt := clock w (ticks w);
     User_DeletedAt := None |}.

(** The session of a response is on record in a world: the refresh token
    of the response is found in the token table, on a row of the user of
    the response and of the given device, and that user is a live row of
    the user table. *)
Definition sessionStored (resp : AuthResponse) (deviceID : string)
    (w : World) : Prop :=
  exists rt,
    refreshTokenRepository_FindByToken (AuthResponse_RefreshToken resp) w
      = (Ok rt, w) /\
    RefreshToken_Token rt = AuthResponse_RefreshToken resp /\
    RefreshToken_UserID rt = User_ID (AuthResponse_User resp) /\
    RefreshToken_DeviceID rt = deviceID /\
    In (AuthResponse_User resp) (users w) /\
    live (AuthResponse_User resp) = true.

(** The tables of a world keep the promises of the schema. *)
Definition wellFormed (w : World) : Prop :=
  uniqueSessions (refresh_tokens w) /\
  uniqueUsers (users w) /\
  sessionsHaveUsers (users w) (refresh_tokens w).

(** A later state of an account row: nothing of it has changed but,
    possibly, its deletion mark, and a deleted row is not live again. *)
Definition sameAccount (u u' : User) : Prop :=
  User_ID u' = User_ID u /\ User_Name u' = User_Name u /\
  User_Email u' = User_Email u /\ User_Password u' = User_Password u /\
  User_CreatedAt u' = User_CreatedAt u /\
  User_UpdatedAt u' = User_UpdatedAt u /\
  (live u' = true -> live u = true).

(** * Properties *)

(** ** The token manager *)

Lemma generate_eq (m : Manager) (userID : UUID) (tokenType : TokenType)
    (secret : string) (ttl : Duration) (w : World) :
  generate m userID tokenType secret ttl w =
  (Ok (signedText (issuedClaims userID tokenType ttl w) secret),
   advance 1 1 w).
Proof. reflexivity. Qed.

Lemma Validate_eq (claims : Claims) (w : World) :
  Validate claims w =
  (if match Claims_ExpiresAt claims with
      | Some exp => negb (Before (clock w (ticks w)) exp)
      | None => false
      end
   then Err (ErrorNew "token has invalid claims: token is expired")
   else if match Claims_NotBefore claims with
           | Some nbf => Before (clock w (ticks w)) nbf
           | None => false
           end
   then Err (ErrorNew "token has invalid claims: token is not valid yet")
   else Ok tt,
   advance 1 0 w).
Proof.
  unfold Validate, bind, time_Now, fail, ret; cbn.
  destruct (Claims_ExpiresAt claims) as [exp|];
    destruct (Claims_NotBefore claims) as [nbf|]; cbn;
    repeat match goal with |- context [if ?b then _ else _] => destruct b end;
    reflexivity.
Qed.

(** Whatever [parse] answers, it only reads the clock: the tables, the
    oracles and the entropy counter stay as they were. *)
Lemma parse_world (m : Manager) (tokenStr secret : string)
    (expectedType : TokenType) (w : World) :
  snd (parse m tokenStr secret expectedType w) = w \/
  snd (parse m tokenStr secret expectedType w) = advance 1 0 w.
Proof.
  cbv beta delta [parse ParseWithClaims bind orReturn fail ret].
  destruct (ParseUnverified tokenStr) as [token|]; [|left; reflexivity].
  destruct (negb (isHMAC (Token_Method token))); [left; reflexivity|].
  destruct (negb (Verify _ _ _ _)); [left; reflexivity|].
  right. cbv beta. rewrite Validate_eq.
  repeat (cbn; match goal with
               | |- context [if ?b then _ else _] => destruct b
               end);
    reflexivity.
Qed.

Lemma parse_Ok_inv (m : Manager) (tokenStr secret : string)
    (expectedType : TokenType) (w w' : World) (claims : Claims) :
  parse m tokenStr secret expectedType w = (Ok claims, w') ->
  exists token,
    ParseUnverified tokenStr = Some token /\
    Token_Claims token = claims /\
    Verify (Token_Method token) (Token_SigningString token)
           (Token_Signature token) secret = true /\
    Claims_TokenType claims = expectedType /\
    w' = advance 1 0 w.
Proof.
  cbv beta delta [parse ParseWithClaims bind orReturn fail ret].
  destruct (ParseUnverified tokenStr) as [token|]; [|discriminate].
  destruct (negb (isHMAC (Token_Method token))); [discriminate|].
  destruct (Verify _ _ _ _) eqn:Hv; cbn [negb]; [|discriminate].
  cbv beta. rewrite Validate_eq.
  destruct (match Claims_ExpiresAt (Token_Claims token) with
            | Some exp => negb (Before (clock w (ticks w)) exp)
            | None => false end); [discriminate|].
  destruct (match Claims_NotBefore (Token_Claims token) with
            | Some nbf => Before (clock w (ticks w)) nbf
            | None => false end); [discriminate|].
  cbn.
  destruct (String.eqb _ expectedType) eqn:Hty; cbn; [|discriminate].
  intros H; inversion H; subst.
  exists token. apply String.eqb_eq in Hty. auto.
Qed.

(** A token the manager issued, presented with the secret and the kind it
    was issued with before its expiry, is accepted with its claims. *)
Lemma parse_issued (m : Manager) (userID : UUID) (tokenType : TokenType)
    (secret : string) (ttl : Duration) (w v : World) :
  readsBack (issuedClaims userID tokenType ttl w) secret ->
  clock v (ticks v) < NewNumericDate (Add (clock w (ticks w)) ttl) ->
  parse m (signedText (issuedClaims userID tokenType ttl w) secret)
        secret tokenType v =
  (Ok (issuedClaims userID tokenType ttl w), advance 1 0 v).
Proof.
  intros (token & Hdec & Hm & Hc & Ht & Hs) Hlt.
  cbv beta delta [parse ParseWithClaims bind orReturn fail ret].
  rewrite Hdec, Hm, Ht, Hs. cbn [isHMAC negb].
  unfold Verify. cbn [isHMAC andb]. rewrite String.eqb_refl. cbn [negb].
  cbv beta. rewrite Validate_eq, Hc. cbn.
  unfold Before. apply Z.ltb_lt in Hlt. rewrite Hlt. cbn.
  rewrite String.eqb_refl. reflexivity.
Qed.

(** The same token presented for another kind is refused, whatever the
    secret and the clock. *)
Lemma parse_other_kind (m : Manager) (userID : UUID)
    (tokenType otherType : TokenType) (secret otherSecret : string)
    (ttl : Duration) (w v : World) :
  readsBack (issuedClaims userID tokenType ttl w) secret ->
  tokenType <> otherType ->
  exists err,
    fst (parse m (signedText (issuedClaims userID tokenType ttl w) secret)
               otherSecret otherType v) = Err err.
Proof.
  intros (token & Hdec & Hm & Hc & Ht & Hs) Hne.
  destruct (parse m _ otherSecret otherType v) as [[claims|err] v'] eqn:E.
  - apply parse_Ok_inv in E. destruct E as (token' & Hdec' & Hc' & _ & Hty & _).
    rewrite Hdec in Hdec'. inversion Hdec'; subst token'.
    rewrite Hc in Hc'. subst claims. cbn in Hty. contradiction.
  - exists err. reflexivity.
Qed.

(** ** The request gate *)

Lemma Cut_Some (sep : ascii) (s before after : string) :
  Cut sep s = Some (before, after) -> s = before ++ String sep after.
Proof.
  revert before. induction s as [|c rest IH]; cbn; intros before H.
  - discriminate.
  - destruct (Ascii.eqb c sep) eqn:E.
    + apply Ascii.eqb_eq in E. inversion H; subst. reflexivity.
    + destruct (Cut sep rest) as [[b a]|]; [|discriminate].
      inversion H; subst. cbn. f_equal. apply IH. reflexivity.
Qed.

Lemma Cut_None (sep : ascii) (s : string) :
  (forall before after, s <> before ++ String sep after) ->
  Cut sep s = None.
Proof.
  intros H. destruct (Cut sep s) as [[b a]|] eqn:E; [|reflexivity].
  apply Cut_Some in E. destruct (H _ _ E).
Qed.

Lemma Cut_app (sep : ascii) (scheme credential : string) :
  (forall before after, scheme <> before ++ String sep after) ->
  Cut sep (scheme ++ String sep credential) = Some (scheme, credential).
Proof.
  induction scheme as [|x rest IH]; intros H; cbn.
  - rewrite Ascii.eqb_refl. reflexivity.
  - destruct (Ascii.eqb x sep) eqn:E.
    + apply Ascii.eqb_eq in E. subst x.
      destruct (H EmptyString rest). reflexivity.
    + rewrite IH; [reflexivity|].
      intros before after ->. apply (H (String x before) after). reflexivity.
Qed.

Lemma Cut_None_inv (sep : ascii) (s : string) :
  Cut sep s = None ->
  forall before after, s <> before ++ String sep after.
Proof.
  intros Hnone before. revert s Hnone.
  induction before as [|x before IH]; intros s Hnone after ->; cbn in Hnone.
  - rewrite Ascii.eqb_refl in Hnone. discriminate.
  - destruct (Ascii.eqb x sep); [discriminate|].
    destruct (Cut sep (before ++ String sep after)) as [[b a]|] eqn:E;
      [discriminate|].
    exact (IH _ E after eq_refl).
Qed.

Lemma unauthorized_intro (c : Context) (msg : string) :
  unauthorized c (Abort (response_Unauthorized c msg)).
Proof. exists msg. repeat split. Qed.

Lemma Auth_parse_failure (m : Manager)
    (next : Context -> World -> Context * World) (c : Context) (w : World)
    (scheme credential : string) :
  Cut " " (GetHeader c "Authorization") = Some (scheme, credential) ->
  (exists err, fst (ParseAccessToken m credential w) = Err err) ->
  turnedAway m next c w.
Proof.
  intros Hcut [err Herr]. unfold turnedAway, Auth, SplitN2. rewrite Hcut.
  destruct (String.eqb _ EmptyString).
  { do 2 eexists. split; [reflexivity|]. split; [apply unauthorized_intro|].
    split; reflexivity. }
  destruct (negb (EqualFold scheme "bearer")).
  { do 2 eexists. split; [reflexivity|]. split; [apply unauthorized_intro|].
    split; reflexivity. }
  pose proof (parse_world m credential (accessSecret m) jwt_AccessToken w) as Hw.
  unfold ParseAccessToken in *.
  destruct (parse m credential (accessSecret m) jwt_AccessToken w)
    as [[claims|e] w'] eqn:E; cbn in Herr; [discriminate|].
  do 2 eexists. split; [reflexivity|]. split; [apply unauthorized_intro|].
  cbn in Hw. destruct Hw as [-> | ->]; split; reflexivity.
Qed.

(** C3. Round trip of the token manager: an access token and a refresh
    token issued for an identity are both produced, and each one, verified
    for its own kind at a reading of the clock before its expiry, is
    accepted and yields the same identity and the same kind.  The codec of
    the library is assumed to read back the two tokens it wrote. *)
Theorem verify_issue_roundtrip (m : Manager) (userID : UUID)
    (wa wr va vr : World) :
  readsBack (issuedClaims userID jwt_AccessToken (accessTTL m) wa)
            (accessSecret m) ->
  readsBack (issuedClaims userID jwt_RefreshToken (refreshTTL m) wr)
            (refreshSecret m) ->
  clock va (ticks va) < NewNumericDate (Add (clock wa (ticks wa)) (accessTTL m)) ->
  clock vr (ticks vr) < NewNumericDate (Add (clock wr (ticks wr)) (refreshTTL m)) ->
  exists access refresh ca cr,
    fst (GenerateAccessToken m userID wa) = Ok access /\
    fst (GenerateRefreshToken m userID wr) = Ok refresh /\
    fst (ParseAccessToken m access va) = Ok ca /\
    Claims_UserID ca = userID /\ Claims_TokenType ca = jwt_AccessToken /\
    fst (ParseRefreshToken m refresh vr) = Ok cr /\
    Claims_UserID cr = userID /\ Claims_TokenType cr = jwt_RefreshToken.
Proof.
  intros Ha Hr Hta Htr.
  unfold GenerateAccessToken, GenerateRefreshToken,
    ParseAccessToken, ParseRefreshToken.
  rewrite !generate_eq. do 4 eexists.
  split; [reflexivity|]. split; [reflexivity|].
  rewrite (parse_issued m _ _ _ _ wa va Ha Hta).
  rewrite (parse_issued m _ _ _ _ wr vr Hr Htr).
  repeat split.
Qed.

(** C4. Kind separation.  A token issued as an access token is refused
    when verified as a refresh token, and a token issued as a refresh token
    is refused when verified as an access token, at any reading of the
    clock.  And a request whose bearer credential carries access-shaped
    claims but a signature made with the refresh secret is turned away by
    the gate as unauthorized, the keyed hash giving different signatures
    under the two secrets for that signing string. *)
Theorem kind_separation (m : Manager) (userID : UUID) (wa wr va vr : World)
    (next : Context -> World -> Context * World) (c : Context) (w : World)
    (forged : string) (token : Token) :
  readsBack (issuedClaims userID jwt_AccessToken (accessTTL m) wa)
            (accessSecret m) ->
  readsBack (issuedClaims userID jwt_RefreshToken (refreshTTL m) wr)
            (refreshSecret m) ->
  GetHeader c "Authorization" = "Bearer " ++ forged ->
  ParseUnverified forged = Some token ->
  Claims_TokenType (Token_Claims token) = jwt_AccessToken ->
  Token_Signature token =
    hmacSign (Token_Method token) (refreshSecret m) (Token_SigningString token) ->
  hmacSign (Token_Method token) (accessSecret m) (Token_SigningString token) <>
    hmacSign (Token_Method token) (refreshSecret m) (Token_SigningString token) ->
  (exists access refresh ea er,
     fst (GenerateAccessToken m userID wa) = Ok access /\
     fst (GenerateRefreshToken m userID wr) = Ok refresh /\
     fst (ParseRefreshToken m access va) = Err ea /\
     fst (ParseAccessToken m refresh vr) = Err er) /\
  turnedAway m next c w.
Proof.
  intros Ha Hr Hhdr Hdec Hshape Hsig Hsep. split.
  - unfold GenerateAccessToken, GenerateRefreshToken,
      ParseAccessToken, ParseRefreshToken.
    rewrite !generate_eq.
    destruct (parse_other_kind m userID jwt_AccessToken jwt_RefreshToken
                (accessSecret m) (refreshSecret m) (accessTTL m) wa va Ha)
      as [ea Hea]; [discriminate|].
    destruct (parse_other_kind m userID jwt_RefreshToken jwt_AccessToken
                (refreshSecret m) (accessSecret m) (refreshTTL m) wr vr Hr)
      as [er Her]; [discriminate|].
    do 4 eexists. split; [reflexivity|]. split; [reflexivity|].
    split; eassumption.
  - apply (Auth_parse_failure m next c w "Bearer" forged).
    + rewrite Hhdr. reflexivity.
    + destruct (ParseAccessToken m forged w) as [[claims|err] w'] eqn:E.
      * unfold ParseAccessToken in E. apply parse_Ok_inv in E.
        destruct E as (token' & Hdec' & _ & Hv & _).
        rewrite Hdec in Hdec'. inversion Hdec'; subst token'.
        unfold Verify in Hv. apply andb_prop in Hv. destruct Hv as [_ Hv].
        apply String.eqb_eq in Hv. rewrite Hsig in Hv. contradiction.
      * exists err. reflexivity.
Qed.

(** C7. The request gate.  A request is turned away as unauthorized (a 401
    with the code UNAUTHORIZED, the chain aborted, nothing bound) when its
    authorization header is absent, when the header is not a scheme and a
    value separated by a space, when the scheme is not the bearer scheme,
    and when the verification of the credential as an access token fails
    for whatever reason.  Otherwise the identity of the token is bound to
    the request under the user-id key and the rest of the chain runs. *)
Theorem request_gate (m : Manager)
    (next : Context -> World -> Context * World) (c : Context) (w : World) :
  (GetHeader c "Authorization" = EmptyString -> turnedAway m next c w) /\
  ((forall scheme credential,
       GetHeader c "Authorization" <> scheme ++ " " ++ credential) ->
   turnedAway m next c w) /\
  (forall scheme credential,
     GetHeader c "Authorization" = scheme ++ " " ++ credential ->
     (forall before after, scheme <> before ++ " " ++ after) ->
     EqualFold scheme "bearer" = false ->
     turnedAway m next c w) /\
  (forall scheme credential err,
     Cut " " (GetHeader c "Authorization") = Some (scheme, credential) ->
     fst (ParseAccessToken m credential w) = Err err ->
     turnedAway m next c w) /\
  (forall scheme credential claims w',
     Cut " " (GetHeader c "Authorization") = Some (scheme, credential) ->
     EqualFold scheme "bearer" = true ->
     ParseAccessToken m credential w = (Ok claims, w') ->
     Auth m next c w = next (Set_ c userIDKey (Claims_UserID claims)) w' /\
     CurrentUserID (Set_ c userIDKey (Claims_UserID claims)) =
       Some (Claims_UserID claims)) /\
  (turnedAway m next c w \/
   exists claims w',
     Auth m next c w = next (Set_ c userIDKey (Claims_UserID claims)) w').
Proof.
  assert (Hstop : forall msg,
            exists c' w', (Abort (response_Unauthorized c msg), w) = (c', w')
                          /\ unauthorized c c' /\ users w' = users w
                          /\ refresh_tokens w' = refresh_tokens w).
  { intros msg. do 2 eexists. split; [reflexivity|].
    split; [apply unauthorized_intro|]. split; reflexivity. }
  repeat split.
  - intros H. unfold turnedAway, Auth. rewrite H. cbn. apply Hstop.
  - intros H. unfold turnedAway, Auth, SplitN2.
    rewrite (Cut_None " " _ H).
    destruct (String.eqb _ EmptyString); apply Hstop.
  - intros scheme credential H Hfirst Hscheme.
    unfold turnedAway, Auth, SplitN2.
    destruct (String.eqb _ EmptyString); [apply Hstop|].
    rewrite H.
    change (scheme ++ " " ++ credential)
      with (scheme ++ String " " credential).
    rewrite (Cut_app " " scheme credential Hfirst), Hscheme.
    cbn. apply Hstop.
  - intros scheme credential err Hcut Herr.
    apply (Auth_parse_failure m next c w scheme credential Hcut).
    exists err. exact Herr.
  - unfold Auth, SplitN2. rewrite H.
    destruct (String.eqb _ EmptyString) eqn:E.
    + apply String.eqb_eq in E. rewrite E in H. discriminate.
    + rewrite H0. cbn. rewrite H1. reflexivity.
  - unfold turnedAway at 1. unfold Auth, SplitN2.
    destruct (String.eqb _ EmptyString); [left; apply Hstop|].
    destruct (Cut " " (GetHeader c "Authorization")) as [[b a]|] eqn:E;
      [|left; apply Hstop].
    destruct (negb (EqualFold b "bearer")); [left; apply Hstop|].
    pose proof (parse_world m a (accessSecret m) jwt_AccessToken w) as Hw.
    unfold ParseAccessToken.
    destruct (parse m a (accessSecret m) jwt_AccessToken w)
      as [[claims|e] w'] eqn:E'.
    + right. exists claims, w'. reflexivity.
    + left. do 2 eexists. split; [reflexivity|].
      split; [apply unauthorized_intro|].
      cbn in Hw. destruct Hw as [-> | ->]; split; reflexivity.
Qed.

(** ** The session store *)

Lemma find_withoutToken (token : string) (rts : list RefreshToken) :
  find (hasToken token) (withoutToken token rts) = None.
Proof.
  induction rts as [|r rts IH]; cbn; [reflexivity|].
  destruct (hasToken token r) eqn:E; cbn; [exact IH|].
  rewrite E. exact IH.
Qed.

Lemma withoutToken_In (token : string) (rts : list RefreshToken)
    (r : RefreshToken) :
  In r (withoutToken token rts) <->
  In r rts /\ RefreshToken_Token r <> token.
Proof.
  unfold withoutToken. rewrite filter_In. unfold hasToken.
  destruct (String.eqb_spec (RefreshToken_Token r) token) as [Heq|Hne]; cbn.
  - split; [intros [_ H]; discriminate H | intros [_ H]; destruct (H Heq)].
  - split; intros [H _]; split; auto.
Qed.

Lemma withoutUser_In (userID : UUID) (rts : list RefreshToken)
    (r : RefreshToken) :
  In r (withoutUser userID rts) <->
  In r rts /\ RefreshToken_UserID r <> userID.
Proof.
  unfold withoutUser. rewrite filter_In. unfold ownedBy.
  destruct (N.eqb_spec (RefreshToken_UserID r) userID) as [Heq|Hne]; cbn.
  - split; [intros [_ H]; discriminate H | intros [_ H]; destruct (H Heq)].
  - split; intros [H _]; split; auto.
Qed.

Lemma filter_idem {A} (f : A -> bool) (l : list A) :
  filter f (filter f l) = filter f l.
Proof.
  induction l as [|x l IH]; cbn; [reflexivity|].
  destruct (f x) eqn:E; cbn; [rewrite E, IH|]; auto.
Qed.

Lemma filter_all {A} (f : A -> bool) (l : list A) :
  (forall x, In x l -> f x = true) -> filter f l = l.
Proof.
  induction l as [|x l IH]; cbn; intros H; [reflexivity|].
  rewrite (H x (or_introl eq_refl)), IH; auto.
Qed.

Lemma set_refresh_tokens_same (w : World) :
  set_refresh_tokens (refresh_tokens w) w = w.
Proof. destruct w; reflexivity. Qed.

Lemma find_app_new (token : string) (rts : list RefreshToken)
    (r : RefreshToken) :
  find (hasToken token) rts = None ->
  RefreshToken_Token r <> token ->
  find (hasToken token) (rts ++ [r]) = None.
Proof.
  intros Hnone Hne. induction rts as [|x rts IH]; cbn in *.
  - unfold hasToken. destruct (String.eqb_spec (RefreshToken_Token r) token);
      [contradiction|reflexivity].
  - destruct (hasToken token x); [discriminate|auto].
Qed.

(** ** The issue sub-flow *)

Lemma buildAuthResponse_eq (s : AuthService) (user : User)
    (deviceID : string) (w : World) :
  buildAuthResponse s user deviceID w =
  match insert_refresh_token (issuedRecord s user deviceID w) (advance 4 3 w) with
  | (Ok _, w') => (Ok (issuedPair s user w), w')
  | (Err e, w') =>
      (Err (ErrorfW "store refresh token"
              (ErrorfW "refreshTokenRepository.Create" e)), w')
  end.
Proof.
  cbv beta delta [buildAuthResponse GenerateAccessToken GenerateRefreshToken
                  bind orReturn ret].
  rewrite generate_eq. cbv beta iota. rewrite generate_eq.
  cbv beta iota delta [uuid_New time_Now refreshTokenRepository_Create orReturn].
  cbn [clock ticks entropy draws users refresh_tokens advance].
  change (insert_refresh_token ?r ?x) with
    (insert_refresh_token (issuedRecord s user deviceID w) (advance 4 3 w)).
  destruct (insert_refresh_token _ _) as [[[]|e] w']; reflexivity.
Qed.

Lemma insert_refresh_token_tables (t : RefreshToken) (w w' : World)
    (r : Result unit) :
  insert_refresh_token t w = (r, w') ->
  users w' = users w /\
  ((exists e, r = Err e /\ refresh_tokens w' = refresh_tokens w) \/
   (r = Ok tt /\ refresh_tokens w' = (refresh_tokens w ++ [t])%list)).
Proof.
  unfold insert_refresh_token.
  repeat match goal with
         | |- context [if ?b then _ else _] => destruct b
         end; intros H; inversion H; subst; cbn; eauto 6.
Qed.

Lemma buildAuthResponse_tables (s : AuthService) (user : User)
    (deviceID : string) (w w' : World) (r : Result AuthResponse) :
  buildAuthResponse s user deviceID w = (r, w') ->
  users w' = users w /\
  ((exists e, r = Err e /\ refresh_tokens w' = refresh_tokens w) \/
   (r = Ok (issuedPair s user w) /\
    refresh_tokens w' =
      (refresh_tokens w ++ [issuedRecord s user deviceID w])%list)).
Proof.
  rewrite buildAuthResponse_eq.
  destruct (insert_refresh_token _ _) as [r0 w0] eqn:E.
  apply insert_refresh_token_tables in E. cbn in E.
  destruct E as [Hu [(e & -> & Ht) | [-> Ht]]];
    intros H; inversion H; subst; eauto 6.
Qed.

(** ** Refresh *)

Lemma RefreshTokens_eq (s : AuthService) (req : RefreshTokenRequest)
    (w : World) :
  RefreshTokens s req w =
  match ParseRefreshToken (jwtManager s)
          (RefreshTokenRequest_RefreshToken req) w with
  | (Err _, w1) => (Err ErrTokenInvalid, w1)
  | (Ok claims, w1) =>
      match find (hasToken (RefreshTokenRequest_RefreshToken req))
                 (refresh_tokens w1) with
      | None => (Err ErrTokenInvalid, w1)
      | Some stored =>
          let w2 :=
            set_refresh_tokens
              (withoutToken (RefreshTokenRequest_RefreshToken req)
                            (refresh_tokens w1)) (advance 1 0 w1) in
          if Before (RefreshToken_ExpiresAt stored) (clock w1 (ticks w1))
          then (Err ErrTokenExpired, w2)
          else
            match find (fun u => N.eqb (User_ID u) (Claims_UserID claims)
                                 && live u)%bool (users w1) with
            | None =>
                (Err (ErrorfW "authService.RefreshTokens FindByID"
                        ErrNotFound), w2)
            | Some user =>
                buildAuthResponse s user (RefreshTokenRequest_DeviceID req) w2
            end
      end
  end.
Proof.
  cbv beta delta [RefreshTokens bind orReturn].
  destruct (ParseRefreshToken _ _ w) as [[claims|e] w1]; [|reflexivity].
  cbv beta iota delta [refreshTokenRepository_FindByToken].
  destruct (find (hasToken _) (refresh_tokens w1)) as [stored|]; [|reflexivity].
  cbv beta iota delta [time_Now].
  destruct (Before _ _); [reflexivity|].
  cbv beta iota delta [refreshTokenRepository_DeleteByToken
                       userRepository_FindByID bind orReturn].
  cbn [users set_refresh_tokens].
  destruct (find _ (users w1)); reflexivity.
Qed.

(** A refresh call that passed verification, found its record and found
    it unexpired runs the issue sub-flow in the rotated world, or stops
    there for want of the user. *)
Lemma RefreshTokens_rotation (s : AuthService) (req : RefreshTokenRequest)
    (w : World) (claims : Claims) (stored : RefreshToken) :
  fst (ParseRefreshToken (jwtManager s)
         (RefreshTokenRequest_RefreshToken req) w) = Ok claims ->
  find (hasToken (RefreshTokenRequest_RefreshToken req)) (refresh_tokens w)
    = Some stored ->
  Before (RefreshToken_ExpiresAt stored) (clock w (S (ticks w))) = false ->
  RefreshTokens s req w =
  match find (fun u => N.eqb (User_ID u) (Claims_UserID claims)
                       && live u)%bool (users w) with
  | None =>
      (Err (ErrorfW "authService.RefreshTokens FindByID" ErrNotFound),
       rotated (RefreshTokenRequest_RefreshToken req) w)
  | Some user =>
      buildAuthResponse s user (RefreshTokenRequest_DeviceID req)
        (rotated (RefreshTokenRequest_RefreshToken req) w)
  end.
Proof.
  intros Hp Hf Hb. rewrite RefreshTokens_eq.
  unfold ParseRefreshToken in *.
  destruct (parse _ _ _ _ w) as [[c|e] w1] eqn:E; cbn in Hp; [|discriminate].
  inversion Hp; subst c. apply parse_Ok_inv in E.
  destruct E as (_ & _ & _ & _ & _ & ->).
  cbn [refresh_tokens users clock ticks advance Nat.add].
  rewrite Hf. cbv zeta. rewrite Hb. reflexivity.
Qed.

(** C6. A refresh call whose token verifies and whose record is found
    with an expiry before the reading of the clock the check takes fails
    with TokenExpired; the rows of the token are deleted, every row left
    was there before (nothing is issued, nothing is created) and the user
    table is as it was. *)
Theorem refresh_expired_record (s : AuthService) (req : RefreshTokenRequest)
    (w : World) (claims : Claims) (stored : RefreshToken) :
  fst (ParseRefreshToken (jwtManager s)
         (RefreshTokenRequest_RefreshToken req) w) = Ok claims ->
  find (hasToken (RefreshTokenRequest_RefreshToken req)) (refresh_tokens w)
    = Some stored ->
  RefreshToken_ExpiresAt stored < clock w (S (ticks w)) ->
  exists w',
    RefreshTokens s req w = (Err ErrTokenExpired, w') /\
    refresh_tokens w' =
      withoutToken (RefreshTokenRequest_RefreshToken req) (refresh_tokens w) /\
    find (hasToken (RefreshTokenRequest_RefreshToken req)) (refresh_tokens w')
      = None /\
    ~ In stored (refresh_tokens w') /\
    (forall r, In r (refresh_tokens w') -> In r (refresh_tokens w)) /\
    users w' = users w.
Proof.
  intros Hp Hf Hlt. rewrite RefreshTokens_eq.
  unfold ParseRefreshToken in *.
  destruct (parse _ _ _ _ w) as [[c|e] w1] eqn:E; cbn in Hp; [|discriminate].
  inversion Hp; subst c. apply parse_Ok_inv in E.
  destruct E as (_ & _ & _ & _ & _ & ->).
  cbn [refresh_tokens users clock ticks advance Nat.add].
  rewrite Hf. cbv zeta. unfold Before.
  apply Z.ltb_lt in Hlt. rewrite Hlt.
  eexists. split; [reflexivity|]. cbn [refresh_tokens users set_refresh_tokens].
  split; [reflexivity|]. split; [apply find_withoutToken|].
  split; [|split; [|reflexivity]].
  - intros Hin. apply withoutToken_In in Hin. destruct Hin as [_ Hne].
    apply find_some in Hf. destruct Hf as [_ Hf]. unfold hasToken in Hf.
    apply String.eqb_eq in Hf. contradiction.
  - intros r Hin. apply withoutToken_In in Hin. tauto.
Qed.

(** C9. A refresh call that fails after the rotation delete (its token
    verified, its record was found and unexpired) has consumed the token
    without a replacement: the token table is the old one without the rows
    of the token, every row left was there before, the record presented is
    gone, so the table is not what it was; the error is neither
    TokenInvalid nor TokenExpired. *)
Theorem refresh_failure_consumes_token (s : AuthService)
    (req : RefreshTokenRequest) (w w' : World) (claims : Claims)
    (stored : RefreshToken) (err : error) :
  fst (ParseRefreshToken (jwtManager s)
         (RefreshTokenRequest_RefreshToken req) w) = Ok claims ->
  find (hasToken (RefreshTokenRequest_RefreshToken req)) (refresh_tokens w)
    = Some stored ->
  Before (RefreshToken_ExpiresAt stored) (clock w (S (ticks w))) = false ->
  RefreshTokens s req w = (Err err, w') ->
  refresh_tokens w' =
    withoutToken (RefreshTokenRequest_RefreshToken req) (refresh_tokens w) /\
  find (hasToken (RefreshTokenRequest_RefreshToken req)) (refresh_tokens w')
    = None /\
  (forall r, In r (refresh_tokens w') -> In r (refresh_tokens w)) /\
  refresh_tokens w' <> refresh_tokens w /\
  users w' = users w /\
  err <> ErrTokenInvalid /\ err <> ErrTokenExpired.
Proof.
  intros Hp Hf Hb Hrun.
  rewrite (RefreshTokens_rotation s req w claims stored Hp Hf Hb) in Hrun.
  assert (Hgone : forall rts,
             rts = withoutToken (RefreshTokenRequest_RefreshToken req)
                                (refresh_tokens w) ->
             find (hasToken (RefreshTokenRequest_RefreshToken req)) rts = None /\
             (forall r, In r rts -> In r (refresh_tokens w)) /\
             rts <> refresh_tokens w).
  { intros rts ->. split; [apply find_withoutToken|]. split.
    - intros r Hin. apply withoutToken_In in Hin. tauto.
    - intros Heq. pose proof (find_withoutToken
        (RefreshTokenRequest_RefreshToken req) (refresh_tokens w)) as Hn.
      rewrite Heq, Hf in Hn. discriminate. }
  destruct (find _ (users w)) as [user|].
  - rewrite buildAuthResponse_eq in Hrun.
    destruct (insert_refresh_token _ _) as [r0 w0] eqn:E.
    apply insert_refresh_token_tables in E.
    destruct E as [Hu [(e & -> & Ht) | [-> _]]]; [|discriminate].
    inversion Hrun; subst. cbn in Hu, Ht.
    destruct (Hgone _ Ht) as (H1 & H2 & H3).
    repeat split; auto; discriminate.
  - inversion Hrun; subst. cbn [refresh_tokens users rotated set_refresh_tokens advance].
    destruct (Hgone _ eq_refl) as (H1 & H2 & H3).
    repeat split; auto; discriminate.
Qed.

(** A refresh call that succeeded with a new token other than the one
    presented: the pair it returns was issued by the issue sub-flow in the
    rotated world, where the rows of the presented token are already
    deleted; the token has no row in the table the call leaves; its
    signature still verifies under the refresh secret; and a refresh call
    presenting the same token against that table, at any reading of the
    clock and from any device, fails with TokenInvalid. *)
Lemma refresh_replay_refused (s : AuthService) (req req2 : RefreshTokenRequest)
    (w w1 w2 : World) (resp : AuthResponse) :
  RefreshTokens s req w = (Ok resp, w1) ->
  AuthResponse_RefreshToken resp <> RefreshTokenRequest_RefreshToken req ->
  RefreshTokenRequest_RefreshToken req2 = RefreshTokenRequest_RefreshToken req ->
  refresh_tokens w2 = refresh_tokens w1 ->
  (exists user,
     buildAuthResponse s user (RefreshTokenRequest_DeviceID req)
       (rotated (RefreshTokenRequest_RefreshToken req) w) = (Ok resp, w1)) /\
  find (hasToken (RefreshTokenRequest_RefreshToken req))
       (refresh_tokens (rotated (RefreshTokenRequest_RefreshToken req) w))
    = None /\
  find (hasToken (RefreshTokenRequest_RefreshToken req)) (refresh_tokens w1)
    = None /\
  signatureVerifies (RefreshTokenRequest_RefreshToken req)
                    (refreshSecret (jwtManager s)) /\
  fst (RefreshTokens s req2 w2) = Err ErrTokenInvalid.
Proof.
  intros Hrun Hfresh Hsame Htable.
  assert (Hrot : find (hasToken (RefreshTokenRequest_RefreshToken req))
                   (refresh_tokens
                      (rotated (RefreshTokenRequest_RefreshToken req) w))
                 = None) by apply find_withoutToken.
  rewrite RefreshTokens_eq in Hrun. unfold ParseRefreshToken in Hrun.
  destruct (parse _ _ _ _ w) as [[claims|e] wp] eqn:E; [|discriminate].
  apply parse_Ok_inv in E. destruct E as (token & Hdec & _ & Hv & _ & ->).
  cbn [refresh_tokens users clock ticks advance Nat.add] in Hrun.
  destruct (find (hasToken _) (refresh_tokens w)) as [stored|];
    [|discriminate].
  cbv zeta in Hrun. destruct (Before _ _); [discriminate|].
  destruct (find _ (users w)) as [user|]; [|discriminate].
  change (set_refresh_tokens _ _)
    with (rotated (RefreshTokenRequest_RefreshToken req) w) in Hrun.
  assert (Hgone : find (hasToken (RefreshTokenRequest_RefreshToken req))
                       (refresh_tokens w1) = None).
  { pose proof Hrun as Ht. apply buildAuthResponse_tables in Ht.
    destruct Ht as [_ [(e & He & _) | [He Ht]]]; [discriminate|].
    rewrite Ht. apply find_app_new; [exact Hrot|].
    inversion He; subst resp. exact Hfresh. }
  split; [exists user; exact Hrun|]. split; [exact Hrot|].
  split; [exact Hgone|]. split; [exists token; auto|].
  rewrite RefreshTokens_eq, Hsame. unfold ParseRefreshToken.
  pose proof (parse_world (jwtManager s) (RefreshTokenRequest_RefreshToken req)
                (refreshSecret (jwtManager s)) jwt_RefreshToken w2) as Hw.
  destruct (parse _ _ _ _ w2) as [[claims2|e2] wp2]; [|reflexivity].
  cbn in Hw.
  assert (Hrts : refresh_tokens wp2 = refresh_tokens w1)
    by (destruct Hw as [-> | ->]; exact Htable).
  rewrite Hrts, Hgone. reflexivity.
Qed.

(** ** Logout *)

(** C8. Revocation is total and idempotent.  Logout on all devices leaves
    exactly the rows of the other identities, and logout of one device
    exactly the rows of the other tokens; both answer without error
    whatever the table holds; where no row matches, the world is left as
    it was; and running the same logout again on the world it produced
    gives the same answer and the same world. *)
Theorem logout_revocation (s : AuthService) (userID : UUID)
    (refreshToken : string) (w : World) :
  Logout s userID refreshToken true w =
    (Ok tt, set_refresh_tokens (withoutUser userID (refresh_tokens w)) w) /\
  Logout s userID refreshToken false w =
    (Ok tt, set_refresh_tokens (withoutToken refreshToken (refresh_tokens w)) w) /\
  (forall r,
     In r (refresh_tokens (snd (Logout s userID refreshToken true w))) <->
     In r (refresh_tokens w) /\ RefreshToken_UserID r <> userID) /\
  (forall r,
     In r (refresh_tokens (snd (Logout s userID refreshToken false w))) <->
     In r (refresh_tokens w) /\ RefreshToken_Token r <> refreshToken) /\
  (forall allDevices,
     fst (Logout s userID refreshToken allDevices w) = Ok tt /\
     users (snd (Logout s userID refreshToken allDevices w)) = users w /\
     Logout s userID refreshToken allDevices
       (snd (Logout s userID refreshToken allDevices w)) =
     Logout s userID refreshToken allDevices w) /\
  ((forall r, In r (refresh_tokens w) -> RefreshToken_UserID r <> userID) ->
   Logout s userID refreshToken true w = (Ok tt, w)) /\
  ((forall r, In r (refresh_tokens w) -> RefreshToken_Token r <> refreshToken) ->
   Logout s userID refreshToken false w = (Ok tt, w)).
Proof.
  split; [reflexivity|]. split; [reflexivity|].
  split; [intros r; apply withoutUser_In|].
  split; [intros r; apply withoutToken_In|].
  split; [|split].
  - intros [|]; cbn; (split; [reflexivity|]); (split; [reflexivity|]);
      unfold refreshTokenRepository_DeleteByUserID,
        refreshTokenRepository_DeleteByToken, set_refresh_tokens; cbn;
      rewrite filter_idem; reflexivity.
  - intros H. cbn. unfold refreshTokenRepository_DeleteByUserID.
    rewrite filter_all, set_refresh_tokens_same; [reflexivity|].
    intros r Hin. unfold ownedBy.
    destruct (N.eqb_spec (RefreshToken_UserID r) userID); [|reflexivity].
    destruct (H r Hin). assumption.
  - intros H. cbn. unfold refreshTokenRepository_DeleteByToken.
    rewrite filter_all, set_refresh_tokens_same; [reflexivity|].
    intros r Hin. unfold hasToken.
    destruct (String.eqb_spec (RefreshToken_Token r) refreshToken);
      [|reflexivity].
    destruct (H r Hin). assumption.
Qed.

(** ** Login *)

(** C5. A login with an email no live account has and a login with the
    email of an account but a password its hash rejects cannot be told
    apart: the service returns the same InvalidCredentials error in both
    runs and leaves the world untouched, and the handler writes the same
    401 response with the same message. *)
Theorem login_failures_indistinguishable (h : AuthHandler)
    (c1 c2 : Context) (w1 w2 : World) (req1 req2 : LoginRequest)
    (userAgent1 userAgent2 : string) (user : User) (err : error) :
  fst (userRepository_FindByEmail (LoginRequest_Email req1) w1)
    = Err ErrNotFound ->
  fst (userRepository_FindByEmail (LoginRequest_Email req2) w2) = Ok user ->
  hash_CheckPassword (LoginRequest_Password req2) (User_Password user)
    = Err err ->
  Login (authSvc h) req1 userAgent1 w1 = (Err ErrInvalidCredentials, w1) /\
  Login (authSvc h) req2 userAgent2 w2 = (Err ErrInvalidCredentials, w2) /\
  AuthHandler_Login h (BindOk req1) c1 w1 =
    (response_Unauthorized c1 "invalid email or password", w1) /\
  AuthHandler_Login h (BindOk req2) c2 w2 =
    (response_Unauthorized c2 "invalid email or password", w2) /\
  Written (fst (AuthHandler_Login h (BindOk req1) c1 w1)) =
  Written (fst (AuthHandler_Login h (BindOk req2) c2 w2)).
Proof.
  intros Habsent Hfound Hwrong.
  assert (L1 : forall ua, Login (authSvc h) req1 ua w1
                          = (Err ErrInvalidCredentials, w1)).
  { intros ua. cbv beta delta [Login bind orReturn].
    unfold userRepository_FindByEmail in *.
    destruct (find _ (users w1)); cbn in Habsent; [discriminate|].
    reflexivity. }
  assert (L2 : forall ua, Login (authSvc h) req2 ua w2
                          = (Err ErrInvalidCredentials, w2)).
  { intros ua. cbv beta delta [Login bind orReturn].
    unfold userRepository_FindByEmail in *.
    destruct (find _ (users w2)); cbn in Hfound; [|discriminate].
    inversion Hfound; subst. cbv beta iota. rewrite Hwrong. reflexivity. }
  split; [apply L1|]. split; [apply L2|].
  unfold AuthHandler_Login. rewrite L1, L2. cbn.
  repeat split.
Qed.

(** ** Session records *)

Lemma buildAuthResponse_issues (s : AuthService) (user : User)
    (deviceID : string) (w w' : World) (r : Result AuthResponse) :
  buildAuthResponse s user deviceID w = (r, w') ->
  issuesFrom s deviceID (refresh_tokens w) w'.
Proof.
  intros H. apply buildAuthResponse_tables in H.
  destruct H as [_ [(e & _ & Ht) | [_ Ht]]].
  - left. exact Ht.
  - right. exists user, w. exact Ht.
Qed.

Lemma insert_user_tokens (u : User) (w w' : World) (r : Result unit) :
  insert_user u w = (r, w') -> refresh_tokens w' = refresh_tokens w.
Proof.
  unfold insert_user.
  repeat match goal with
         | |- context [if ?b then _ else _] => destruct b
         end; intros H; inversion H; reflexivity.
Qed.

Lemma Register_issues (s : AuthService) (req : RegisterRequest)
    (w w' : World) (r : Result AuthResponse) :
  Register s req w = (r, w') ->
  issuesFrom s "register-device" (refresh_tokens w) w'.
Proof.
  cbv beta delta [Register userRepository_FindByEmail].
  destruct (find _ (users w)).
  { intros H; inversion H; left; reflexivity. }
  cbn [error_eqb negb].
  cbv beta iota delta [bind orReturn hash_Password uuid_New lift time_Now
                       userRepository_Create].
  destruct (bcryptGenerateFromPassword _ _) as [passwordHash|e].
  2:{ intros H; inversion H; left; reflexivity. }
  cbn [users refresh_tokens clock ticks entropy draws].
  destruct (insert_user _ _) as [[[]|e] w0] eqn:E;
    apply insert_user_tokens in E; cbn in E.
  - intros H. apply buildAuthResponse_issues in H. rewrite E in H. exact H.
  - intros H; inversion H; subst. left. exact E.
Qed.

Lemma Login_issues (s : AuthService) (req : LoginRequest) (userAgent : string)
    (w w' : World) (r : Result AuthResponse) :
  Login s req userAgent w = (r, w') ->
  issuesFrom s (LoginRequest_DeviceID req) (refresh_tokens w) w'.
Proof.
  cbv beta delta [Login bind orReturn userRepository_FindByEmail].
  destruct (find _ (users w)) as [user|].
  2:{ intros H; inversion H; left; reflexivity. }
  cbv beta iota. destruct (hash_CheckPassword _ _).
  - apply buildAuthResponse_issues.
  - intros H; inversion H; left; reflexivity.
Qed.

Lemma RefreshTokens_issues (s : AuthService) (req : RefreshTokenRequest)
    (w w' : World) (r : Result AuthResponse) :
  RefreshTokens s req w = (r, w') ->
  refresh_tokens w' = refresh_tokens w \/
  issuesFrom s (RefreshTokenRequest_DeviceID req)
    (withoutToken (RefreshTokenRequest_RefreshToken req) (refresh_tokens w)) w'.
Proof.
  rewrite RefreshTokens_eq. unfold ParseRefreshToken.
  pose proof (parse_world (jwtManager s) (RefreshTokenRequest_RefreshToken req)
                (refreshSecret (jwtManager s)) jwt_RefreshToken w) as Hw.
  destruct (parse _ _ _ _ w) as [[claims|e] w1]; cbn in Hw.
  2:{ intros H; inversion H; subst. left.
      destruct Hw as [-> | ->]; reflexivity. }
  assert (Hrts : refresh_tokens w1 = refresh_tokens w)
    by (destruct Hw as [-> | ->]; reflexivity).
  destruct (find (hasToken _) (refresh_tokens w1)).
  2:{ intros H; inversion H; subst. left. exact Hrts. }
  cbv zeta. rewrite Hrts. destruct (Before _ _).
  { intros H; inversion H; subst. right. left. reflexivity. }
  destruct (find _ (users w1)).
  - intros H. right. apply buildAuthResponse_issues in H. exact H.
  - intros H; inversion H; subst. right. left. reflexivity.
Qed.

Lemma issuesFrom_new (s : AuthService) (deviceID : string)
    (base : list RefreshToken) (w' : World) (rt : RefreshToken) :
  issuesFrom s deviceID base w' ->
  In rt (refresh_tokens w') ->
  In rt base \/ exists user w0, rt = issuedRecord s user deviceID w0.
Proof.
  intros [Ht | (user & w0 & Ht)] Hin; rewrite Ht in Hin.
  - left. exact Hin.
  - apply in_app_or in Hin. destruct Hin as [Hin | [<- | []]].
    + left. exact Hin.
    + right. exists user, w0. reflexivity.
Qed.

(** C10. Every session record that Register, Login or Refresh adds to the
    token table has the empty string as its user agent, and the user agent
    handed to Login has no influence on what Login does. *)
Theorem session_user_agent_empty (s : AuthService) (w : World) :
  (forall req r w' rt,
     Register s req w = (r, w') ->
     In rt (refresh_tokens w') -> ~ In rt (refresh_tokens w) ->
     RefreshToken_UserAgent rt = EmptyString) /\
  (forall req userAgent r w' rt,
     Login s req userAgent w = (r, w') ->
     In rt (refresh_tokens w') -> ~ In rt (refresh_tokens w) ->
     RefreshToken_UserAgent rt = EmptyString) /\
  (forall req r w' rt,
     RefreshTokens s req w = (r, w') ->
     In rt (refresh_tokens w') -> ~ In rt (refresh_tokens w) ->
     RefreshToken_UserAgent rt = EmptyString) /\
  (forall req userAgent userAgent',
     Login s req userAgent w = Login s req userAgent' w).
Proof.
  assert (Hnew : forall deviceID base w' rt,
             issuesFrom s deviceID base w' ->
             (forall x, In x base -> In x (refresh_tokens w)) ->
             In rt (refresh_tokens w') -> ~ In rt (refresh_tokens w) ->
             RefreshToken_UserAgent rt = EmptyString).
  { intros deviceID base w' rt Hiss Hbase Hin Hnot.
    destruct (issuesFrom_new s deviceID base w' rt Hiss Hin)
      as [Hold | (user & w0 & ->)].
    - destruct (Hnot (Hbase _ Hold)).
    - reflexivity. }
  split; [|split; [|split]].
  - intros req r w' rt H. apply Register_issues in H.
    apply (Hnew _ _ _ _ H). auto.
  - intros req userAgent r w' rt H. apply Login_issues in H.
    apply (Hnew _ _ _ _ H). auto.
  - intros req r w' rt H Hin Hnot. apply RefreshTokens_issues in H.
    destruct H as [Ht | H].
    + rewrite Ht in Hin. contradiction.
    + apply (Hnew _ _ _ _ H); auto.
      intros x Hx. apply withoutToken_In in Hx. tauto.
  - reflexivity.
Qed.

(** ** More on the token manager *)

Lemma Truncate_Second_bounds (t : Time) :
  NewNumericDate t <= t /\ t - Second < NewNumericDate t.
Proof.
  unfold NewNumericDate, Truncate, Second.
  pose proof (Z.div_mod t 1000000000 ltac:(lia)) as Hdm.
  pose proof (Z.mod_pos_bound t 1000000000 ltac:(lia)) as Hb.
  lia.
Qed.

Lemma unexpired_spec (claims : Claims) (now : Time) :
  match Claims_ExpiresAt claims with
  | Some exp => negb (Before now exp)
  | None => false
  end = false <->
  (forall exp, Claims_ExpiresAt claims = Some exp -> now < exp).
Proof.
  unfold Before. destruct (Claims_ExpiresAt claims) as [exp|].
  - destruct (Z.ltb_spec now exp) as [Hlt|Hge]; cbn; split.
    + intros _ x Hx. inversion Hx; subst. exact Hlt.
    + reflexivity.
    + discriminate.
    + intros Hall. specialize (Hall exp eq_refl). lia.
  - split; [intros _ x Hx; discriminate Hx | reflexivity].
Qed.

Lemma started_spec (claims : Claims) (now : Time) :
  match Claims_NotBefore claims with
  | Some nbf => Before now nbf
  | None => false
  end = false <->
  (forall nbf, Claims_NotBefore claims = Some nbf -> nbf <= now).
Proof.
  unfold Before. destruct (Claims_NotBefore claims) as [nbf|].
  - destruct (Z.ltb_spec now nbf) as [Hlt|Hge]; split.
    + discriminate.
    + intros Hall. specialize (Hall nbf eq_refl). lia.
    + intros _ x Hx. inversion Hx; subst. exact Hge.
    + reflexivity.
  - split; [intros _ x Hx; discriminate Hx | reflexivity].
Qed.

Lemma parse_Ok_iff (m : Manager) (tokenStr secret : string)
    (expectedType : TokenType) (w : World) (claims : Claims) :
  fst (parse m tokenStr secret expectedType w) = Ok claims <->
  exists token,
    ParseUnverified tokenStr = Some token /\
    Token_Claims token = claims /\
    isHMAC (Token_Method token) = true /\
    hmacSign (Token_Method token) secret (Token_SigningString token)
      = Token_Signature token /\
    (forall exp, Claims_ExpiresAt claims = Some exp ->
                 clock w (ticks w) < exp) /\
    (forall nbf, Claims_NotBefore claims = Some nbf ->
                 nbf <= clock w (ticks w)) /\
    Claims_TokenType claims = expectedType.
Proof.
  cbv beta delta [parse ParseWithClaims bind orReturn fail ret].
  destruct (ParseUnverified tokenStr) as [token|].
  2:{ split; [discriminate|]. intros (t & Hd & _). discriminate. }
  unfold Verify.
  destruct (isHMAC (Token_Method token)) eqn:Hm; cbn [negb andb].
  2:{ split; [discriminate|].
      intros (t & Hd & _ & Hh & _). inversion Hd; subst t. congruence. }
  destruct (String.eqb_spec
              (hmacSign (Token_Method token) secret (Token_SigningString token))
              (Token_Signature token)) as [Hs|Hs]; cbn [negb].
  2:{ split; [discriminate|].
      intros (t & Hd & _ & _ & Hh & _). inversion Hd; subst t. contradiction. }
  cbv beta. rewrite Validate_eq.
  pose proof (unexpired_spec (Token_Claims token) (clock w (ticks w))) as Hexp.
  pose proof (started_spec (Token_Claims token) (clock w (ticks w))) as Hnbf.
  destruct (match Claims_ExpiresAt (Token_Claims token) with
            | Some exp => negb (Before (clock w (ticks w)) exp)
            | None => false end).
  { cbn. split; [discriminate|].
    intros (t & Hd & Hc & _ & _ & Hx & _). inversion Hd; subst t; subst claims.
    apply Hexp in Hx. discriminate Hx. }
  destruct (match Claims_NotBefore (Token_Claims token) with
            | Some nbf => Before (clock w (ticks w)) nbf
            | None => false end).
  { cbn. split; [discriminate|].
    intros (t & Hd & Hc & _ & _ & _ & Hx & _). inversion Hd; subst t; subst claims.
    apply Hnbf in Hx. discriminate Hx. }
  cbn.
  destruct (String.eqb_spec (Claims_TokenType (Token_Claims token))
                            expectedType) as [Ht|Ht]; cbn.
  - split.
    + intros Hok. inversion Hok; subst claims. exists token.
      repeat split; auto.
      * apply Hexp. reflexivity.
      * apply Hnbf. reflexivity.
    + intros (t & Hd & Hc & _). inversion Hd; subst t; subst claims.
      reflexivity.
  - split; [discriminate|].
    intros (t & Hd & Hc & _ & _ & _ & _ & Hty).
    inversion Hd; subst t; subst claims. contradiction.
Qed.

(** X1. What [parse] accepts: a token text is accepted with claims
    exactly when it decodes to a token with those claims whose method is of
    the HMAC family, whose signature is the keyed hash of its signing
    string under the secret, whose expiry (if any) is after the reading of
    the clock, whose not-before (if any) is not after it, and whose kind is
    the expected one.  Accepting, it has read the clock once and changed
    nothing else; refusing, it has changed neither table. *)
Theorem parse_accepts_iff (m : Manager) (tokenStr secret : string)
    (expectedType : TokenType) (w : World) (claims : Claims) :
  (fst (parse m tokenStr secret expectedType w) = Ok claims <->
   exists token,
     ParseUnverified tokenStr = Some token /\
     Token_Claims token = claims /\
     isHMAC (Token_Method token) = true /\
     hmacSign (Token_Method token) secret (Token_SigningString token)
       = Token_Signature token /\
     (forall exp, Claims_ExpiresAt claims = Some exp ->
                  clock w (ticks w) < exp) /\
     (forall nbf, Claims_NotBefore claims = Some nbf ->
                  nbf <= clock w (ticks w)) /\
     Claims_TokenType claims = expectedType) /\
  (fst (parse m tokenStr secret expectedType w) = Ok claims ->
   snd (parse m tokenStr secret expectedType w) = advance 1 0 w) /\
  users (snd (parse m tokenStr secret expectedType w)) = users w /\
  refresh_tokens (snd (parse m tokenStr secret expectedType w))
    = refresh_tokens w.
Proof.
  split; [apply parse_Ok_iff|]. split.
  - intros Hok.
    destruct (parse m tokenStr secret expectedType w) as [r w1] eqn:E.
    cbn in Hok. subst r. apply parse_Ok_inv in E.
    destruct E as (_ & _ & _ & _ & _ & ->). reflexivity.
  - destruct (parse_world m tokenStr secret expectedType w) as [-> | ->];
      split; reflexivity.
Qed.

(** X2. Algorithm confusion: a token whose header names a method outside
    the HMAC family is refused as an access token and as a refresh token
    without its signature or the clock being looked at, and a request that
    carries it as a bearer credential is turned away. *)
Theorem parse_rejects_non_hmac (m : Manager)
    (next : Context -> World -> Context * World) (c : Context) (w : World)
    (tokenStr : string) (token : Token) :
  ParseUnverified tokenStr = Some token ->
  isHMAC (Token_Method token) = false ->
  GetHeader c "Authorization" = "Bearer " ++ tokenStr ->
  (exists err, ParseAccessToken m tokenStr w = (Err err, w)) /\
  (exists err, ParseRefreshToken m tokenStr w = (Err err, w)) /\
  turnedAway m next c w.
Proof.
  intros Hdec Hm Hhdr.
  assert (Hp : forall secret ty,
             exists err, parse m tokenStr secret ty w = (Err err, w)).
  { intros secret ty.
    cbv beta delta [parse ParseWithClaims bind orReturn fail ret].
    rewrite Hdec, Hm. cbn. eexists. reflexivity. }
  split; [apply Hp|]. split; [apply Hp|].
  apply (Auth_parse_failure m next c w "Bearer" tokenStr).
  - rewrite Hhdr. reflexivity.
  - destruct (Hp (accessSecret m) jwt_AccessToken) as [err Herr].
    exists err. unfold ParseAccessToken. rewrite Herr. reflexivity.
Qed.

(** X3. The lifetime of an issued token.  A token issued with lifetime
    [ttl] at the reading [now] is accepted for its own kind exactly at the
    readings before [now + ttl] cut to the second: never at or after
    [now + ttl], always up to a second before it. *)
Theorem issued_token_lifetime (m : Manager) (userID : UUID)
    (tokenType : TokenType) (secret : string) (ttl : Duration)
    (w v : World) :
  readsBack (issuedClaims userID tokenType ttl w) secret ->
  let issued := signedText (issuedClaims userID tokenType ttl w) secret in
  let now := clock w (ticks w) in
  (fst (parse m issued secret tokenType v)
     = Ok (issuedClaims userID tokenType ttl w) <->
   clock v (ticks v) < NewNumericDate (Add now ttl)) /\
  (Add now ttl <= clock v (ticks v) ->
   exists err, fst (parse m issued secret tokenType v) = Err err) /\
  (clock v (ticks v) <= Add now ttl - Second ->
   fst (parse m issued secret tokenType v)
     = Ok (issuedClaims userID tokenType ttl w)).
Proof.
  intros Hrb issued now.
  pose proof (Truncate_Second_bounds (Add now ttl)) as [Hle Hgt].
  assert (Hiff : fst (parse m issued secret tokenType v)
                   = Ok (issuedClaims userID tokenType ttl w) <->
                 clock v (ticks v) < NewNumericDate (Add now ttl)).
  { split.
    - intros H. apply parse_Ok_iff in H.
      destruct H as (t & _ & _ & _ & _ & Hexp & _).
      apply Hexp. reflexivity.
    - intros H. unfold issued.
      rewrite (parse_issued m userID tokenType secret ttl w v Hrb H).
      reflexivity. }
  split; [exact Hiff|]. split.
  - intros Hlate.
    destruct (fst (parse m issued secret tokenType v)) as [c0|err] eqn:E.
    + apply parse_Ok_iff in E.
      destruct E as (t & Hdec & Hc & _ & _ & Hexp & _).
      destruct Hrb as (t' & Hdec' & _ & Hc' & _).
      unfold issued in Hdec. rewrite Hdec' in Hdec.
      inversion Hdec; subst t'. rewrite Hc' in Hc. subst c0.
      specialize (Hexp _ eq_refl). fold now in Hexp. lia.
    + exists err. reflexivity.
  - intros Hearly. apply Hiff. lia.
Qed.

Lemma parse_clock_only (m : Manager) (tokenStr secret : string)
    (expectedType : TokenType) (w w' : World) :
  clock w' (ticks w') = clock w (ticks w) ->
  fst (parse m tokenStr secret expectedType w')
    = fst (parse m tokenStr secret expectedType w).
Proof.
  intros Hclock.
  cbv beta delta [parse ParseWithClaims bind orReturn fail ret].
  destruct (ParseUnverified tokenStr) as [token|]; [|reflexivity].
  destruct (negb (isHMAC (Token_Method token))); [reflexivity|].
  destruct (negb (Verify _ _ _ _)); [reflexivity|].
  cbv beta. rewrite !Validate_eq, Hclock.
  destruct (match Claims_ExpiresAt (Token_Claims token) with
            | Some exp => negb (Before (clock w (ticks w)) exp)
            | None => false end); [reflexivity|].
  destruct (match Claims_NotBefore (Token_Claims token) with
            | Some nbf => Before (clock w (ticks w)) nbf
            | None => false end); [reflexivity|].
  cbn. destruct (negb (String.eqb _ expectedType)); reflexivity.
Qed.

Lemma Auth_admits (m : Manager)
    (next : Context -> World -> Context * World) (c : Context) (w : World)
    (scheme credential : string) (claims : Claims) :
  Cut " " (GetHeader c "Authorization") = Some (scheme, credential) ->
  EqualFold scheme "bearer" = true ->
  fst (ParseAccessToken m credential w) = Ok claims ->
  Auth m next c w =
    next (Set_ c userIDKey (Claims_UserID claims)) (advance 1 0 w).
Proof.
  intros Hcut Hscheme Hp. unfold Auth, SplitN2. rewrite Hcut.
  destruct (String.eqb _ EmptyString) eqn:E.
  { apply String.eqb_eq in E. rewrite E in Hcut. discriminate. }
  rewrite Hscheme. cbn [negb]. unfold ParseAccessToken in *.
  destruct (parse m credential (accessSecret m) jwt_AccessToken w)
    as [[c0|e] w1] eqn:Ep; cbn in Hp; [|discriminate].
  inversion Hp; subst c0. apply parse_Ok_inv in Ep.
  destruct Ep as (_ & _ & _ & _ & _ & ->). reflexivity.
Qed.

(** X4. The gate consults neither table.  A bearer credential the gate
    admits in one world is admitted, with the same identity, in every
    world whose clock gives the same reading; in particular it is still
    admitted after a logout, on one device or on all, has deleted the
    sessions: revoking sessions does not revoke access tokens. *)
Theorem access_token_outlives_sessions (m : Manager) (s : AuthService)
    (next : Context -> World -> Context * World) (c : Context) (w w' : World)
    (scheme credential : string) (claims : Claims)
    (userID : UUID) (refreshToken : string) (allDevices : bool) :
  Cut " " (GetHeader c "Authorization") = Some (scheme, credential) ->
  EqualFold scheme "bearer" = true ->
  fst (ParseAccessToken m credential w) = Ok claims ->
  clock w' (ticks w') = clock w (ticks w) ->
  Auth m next c w' =
    next (Set_ c userIDKey (Claims_UserID claims)) (advance 1 0 w') /\
  Auth m next c (snd (Logout s userID refreshToken allDevices w)) =
    next (Set_ c userIDKey (Claims_UserID claims))
         (advance 1 0 (snd (Logout s userID refreshToken allDevices w))).
Proof.
  intros Hcut Hscheme Hp Hclock.
  assert (Hany : forall v, clock v (ticks v) = clock w (ticks w) ->
                           Auth m next c v =
                           next (Set_ c userIDKey (Claims_UserID claims))
                                (advance 1 0 v)).
  { intros v Hv. apply (Auth_admits m next c v scheme credential claims Hcut Hscheme).
    unfold ParseAccessToken in *.
    rewrite (parse_clock_only m credential (accessSecret m) jwt_AccessToken
               w v Hv). exact Hp. }
  split; [apply Hany; exact Hclock|].
  apply Hany. destruct allDevices; reflexivity.
Qed.

(** ** The sweep *)

Lemma find_filter_kept {A} (f keep : A -> bool) (l : list A) (x : A) :
  find f l = Some x -> keep x = true -> find f (filter keep l) = Some x.
Proof.
  induction l as [|y l IH]; cbn; [discriminate|].
  destruct (f y) eqn:Ef.
  - intros Hx Hk. inversion Hx; subst y. rewrite Hk. cbn. rewrite Ef.
    reflexivity.
  - intros Hx Hk. destruct (keep y); cbn; [rewrite Ef|]; auto.
Qed.

Lemma find_none_iff {A} (f : A -> bool) (l : list A) :
  find f l = None <-> (forall x, In x l -> f x = false).
Proof.
  induction l as [|y l IH]; cbn.
  - split; [intros _ x []|reflexivity].
  - destruct (f y) eqn:Ef; split.
    + discriminate.
    + intros H. rewrite (H y (or_introl eq_refl)) in Ef. discriminate.
    + intros H x [<-|Hin]; [exact Ef|apply IH; assumption].
    + intros H. apply IH. intros x Hin. apply H. right. exact Hin.
Qed.

(** A refresh call whose token has no row fails with TokenInvalid and
    leaves the tables alone. *)
Lemma refresh_unknown_token (s : AuthService) (req : RefreshTokenRequest)
    (w : World) :
  find (hasToken (RefreshTokenRequest_RefreshToken req)) (refresh_tokens w)
    = None ->
  fst (RefreshTokens s req w) = Err ErrTokenInvalid /\
  refresh_tokens (snd (RefreshTokens s req w)) = refresh_tokens w /\
  users (snd (RefreshTokens s req w)) = users w.
Proof.
  intros Hnone. rewrite RefreshTokens_eq. unfold ParseRefreshToken.
  pose proof (parse_world (jwtManager s) (RefreshTokenRequest_RefreshToken req)
                (refreshSecret (jwtManager s)) jwt_RefreshToken w) as Hw.
  destruct (parse _ _ _ _ w) as [[claims|e] w1]; cbn in Hw.
  - assert (Hrts : refresh_tokens w1 = refresh_tokens w)
      by (destruct Hw as [-> | ->]; reflexivity).
    rewrite Hrts, Hnone. cbn.
    destruct Hw as [-> | ->]; repeat split.
  - cbn. destruct Hw as [-> | ->]; repeat split.
Qed.

(** X5. The sweep removes the expired sessions and nothing else: it
    answers without error, leaves the user table alone, keeps exactly the
    sessions whose expiry is not before the reading of the clock it takes,
    in their order, and a token whose record is unexpired at that reading
    is found after the sweep as it was before. *)
Theorem sweep_removes_only_expired (w : World) :
  fst (refreshTokenRepository_DeleteExpired w) = Ok tt /\
  users (snd (refreshTokenRepository_DeleteExpired w)) = users w /\
  (forall r,
     In r (refresh_tokens (snd (refreshTokenRepository_DeleteExpired w))) <->
     In r (refresh_tokens w) /\ clock w (ticks w) <= RefreshToken_ExpiresAt r) /\
  (forall token stored,
     find (hasToken token) (refresh_tokens w) = Some stored ->
     clock w (ticks w) <= RefreshToken_ExpiresAt stored ->
     find (hasToken token)
          (refresh_tokens (snd (refreshTokenRepository_DeleteExpired w)))
       = Some stored) /\
  (forall token,
     find (hasToken token) (refresh_tokens w) = None ->
     find (hasToken token)
          (refresh_tokens (snd (refreshTokenRepository_DeleteExpired w)))
       = None).
Proof.
  split; [reflexivity|]. split; [reflexivity|]. cbn. split; [|split].
  - intros r. rewrite filter_In.
    destruct (Z.ltb_spec (RefreshToken_ExpiresAt r) (clock w (ticks w)));
      cbn; split; intros [Hin Hc]; split; auto; try lia; discriminate.
  - intros token stored Hf Hlive. apply find_filter_kept; [exact Hf|].
    destruct (Z.ltb_spec (RefreshToken_ExpiresAt stored) (clock w (ticks w)));
      [lia|reflexivity].
  - intros token Hnone. apply find_none_iff. intros x Hin.
    apply filter_In in Hin. destruct Hin as [Hin _].
    revert x Hin. apply find_none_iff. exact Hnone.
Qed.

(** X6. The sweep is invisible to a client.  For a token whose record has
    expired, the refresh call answers TokenExpired while the record is
    there and TokenInvalid once the sweep has removed it, and the refresh
    handler writes the same 401 response in both cases. *)
Theorem refresh_handler_hides_the_sweep (h : AuthHandler) (c : Context)
    (req : RefreshTokenRequest) (w : World) (claims : Claims)
    (stored : RefreshToken) :
  fst (ParseRefreshToken (jwtManager (authSvc h))
         (RefreshTokenRequest_RefreshToken req) w) = Ok claims ->
  find (hasToken (RefreshTokenRequest_RefreshToken req)) (refresh_tokens w)
    = Some stored ->
  RefreshToken_ExpiresAt stored < clock w (S (ticks w)) ->
  (forall r, In r (refresh_tokens w) ->
             hasToken (RefreshTokenRequest_RefreshToken req) r = true ->
             RefreshToken_ExpiresAt r < clock w (ticks w)) ->
  fst (RefreshTokens (authSvc h) req w) = Err ErrTokenExpired /\
  fst (RefreshTokens (authSvc h) req
         (snd (refreshTokenRepository_DeleteExpired w))) = Err ErrTokenInvalid /\
  fst (AuthHandler_RefreshToken h (BindOk req) c w) =
    response_Unauthorized c "invalid or expired refresh token" /\
  fst (AuthHandler_RefreshToken h (BindOk req) c
         (snd (refreshTokenRepository_DeleteExpired w))) =
    response_Unauthorized c "invalid or expired refresh token".
Proof.
  intros Hp Hf Hlt Hall.
  assert (Hexp : fst (RefreshTokens (authSvc h) req w) = Err ErrTokenExpired).
  { rewrite RefreshTokens_eq. unfold ParseRefreshToken in *.
    destruct (parse _ _ _ _ w) as [[c0|e] w1] eqn:E; cbn in Hp; [|discriminate].
    apply parse_Ok_inv in E. destruct E as (_ & _ & _ & _ & _ & ->).
    cbn [refresh_tokens users clock ticks advance Nat.add].
    rewrite Hf. cbv zeta. unfold Before.
    apply Z.ltb_lt in Hlt. rewrite Hlt. reflexivity. }
  assert (Hinv : fst (RefreshTokens (authSvc h) req
                        (snd (refreshTokenRepository_DeleteExpired w)))
                 = Err ErrTokenInvalid).
  { apply refresh_unknown_token. apply find_none_iff. cbn.
    intros x Hin. apply filter_In in Hin. destruct Hin as [Hin Hkeep].
    destruct (hasToken _ x) eqn:Ht; [|reflexivity].
    specialize (Hall x Hin Ht). apply Z.ltb_lt in Hall.
    rewrite Hall in Hkeep. discriminate. }
  split; [exact Hexp|]. split; [exact Hinv|].
  unfold AuthHandler_RefreshToken.
  destruct (RefreshTokens (authSvc h) req w) as [r1 w1].
  destruct (RefreshTokens (authSvc h) req
              (snd (refreshTokenRepository_DeleteExpired w))) as [r2 w2].
  cbn in Hexp, Hinv. subst r1 r2. split; reflexivity.
Qed.

(** X7. A logged-out session cannot be refreshed.  After a logout of one
    device with a token, and after a logout of all devices of the identity
    that owns every row of the token, a refresh call presenting the token
    fails with TokenInvalid, whatever the token's signature and expiry. *)
Theorem logout_then_refresh (s : AuthService) (userID : UUID)
    (allDevices : bool) (req : RefreshTokenRequest) (w : World) :
  (allDevices = true ->
   forall r, In r (refresh_tokens w) ->
             hasToken (RefreshTokenRequest_RefreshToken req) r = true ->
             RefreshToken_UserID r = userID) ->
  fst (RefreshTokens s req
         (snd (Logout s userID (RefreshTokenRequest_RefreshToken req)
                 allDevices w))) = Err ErrTokenInvalid.
Proof.
  intros Hown. apply refresh_unknown_token.
  destruct allDevices; cbn.
  - apply find_none_iff. intros x Hin. apply filter_In in Hin.
    destruct Hin as [Hin Hkeep].
    destruct (hasToken _ x) eqn:Ht; [|reflexivity].
    specialize (Hown eq_refl x Hin Ht). unfold ownedBy in Hkeep.
    rewrite Hown, N.eqb_refl in Hkeep. discriminate.
  - apply find_withoutToken.
Qed.

(** ** What a successful call leaves *)

Lemma existsb_false {A} (f : A -> bool) (l : list A) :
  existsb f l = false -> forall x, In x l -> f x = false.
Proof.
  intros H x Hin. destruct (f x) eqn:E; [|reflexivity].
  assert (existsb f l = true) by (apply existsb_exists; eauto).
  congruence.
Qed.

Lemma insert_refresh_token_Ok (t : RefreshToken) (w w' : World) :
  insert_refresh_token t w = (Ok tt, w') ->
  tooLong 255 (RefreshToken_DeviceID t) = false /\
  (forall r, In r (refresh_tokens w) ->
             RefreshToken_ID r <> RefreshToken_ID t /\
             RefreshToken_Token r <> RefreshToken_Token t) /\
  (exists u, In u (users w) /\ User_ID u = RefreshToken_UserID t) /\
  w' = set_refresh_tokens (refresh_tokens w ++ [t]) w.
Proof.
  unfold insert_refresh_token.
  destruct (tooLong 255 (RefreshToken_DeviceID t)); [discriminate|].
  destruct (existsb _ (refresh_tokens w)) eqn:Edup; [discriminate|].
  destruct (existsb _ (users w)) eqn:Efk; cbn [negb]; [|discriminate].
  intros H; inversion H; subst. split; [reflexivity|]. split; [|split].
  - intros r Hin. pose proof (existsb_false _ _ Edup r Hin) as Hr.
    cbn in Hr. apply orb_false_iff in Hr. destruct Hr as [Hid Htok].
    apply N.eqb_neq in Hid. apply String.eqb_neq in Htok. auto.
  - apply existsb_exists in Efk. destruct Efk as (u & Hin & Hu).
    apply N.eqb_eq in Hu. eauto.
  - reflexivity.
Qed.

Lemma buildAuthResponse_Ok_inv (s : AuthService) (user : User)
    (deviceID : string) (w w' : World) (resp : AuthResponse) :
  buildAuthResponse s user deviceID w = (Ok resp, w') ->
  resp = issuedPair s user w /\
  w' = set_refresh_tokens
         (refresh_tokens w ++ [issuedRecord s user deviceID w])
         (advance 4 3 w) /\
  (forall r, In r (refresh_tokens w) ->
             RefreshToken_ID r <> RefreshToken_ID (issuedRecord s user deviceID w) /\
             RefreshToken_Token r <> AuthResponse_RefreshToken resp) /\
  (exists u, In u (users w) /\ User_ID u = User_ID user) /\
  tooLong 255 deviceID = false.
Proof.
  rewrite buildAuthResponse_eq.
  destruct (insert_refresh_token _ _) as [[[]|e] w0] eqn:E; [|discriminate].
  apply insert_refresh_token_Ok in E.
  destruct E as (Hfit & Hfresh & Hfk & ->).
  intros H; inversion H; subst. repeat split; auto; apply Hfresh; auto.
Qed.

Lemma insert_user_Ok (u : User) (w w' : World) :
  insert_user u w = (Ok tt, w') ->
  (forall x, In x (users w) ->
             User_ID x <> User_ID u /\ User_Email x <> User_Email u) /\
  w' = set_users (users w ++ [u]) w.
Proof.
  unfold insert_user.
  destruct (_ || _ || _)%bool; [discriminate|].
  destruct (existsb _ (users w)) eqn:Edup; [discriminate|].
  intros H; inversion H; subst. split; [|reflexivity].
  intros x Hin. pose proof (existsb_false _ _ Edup x Hin) as Hx.
  cbn in Hx. apply orb_false_iff in Hx. destruct Hx as [Hid Hem].
  apply N.eqb_neq in Hid. apply String.eqb_neq in Hem. auto.
Qed.

Lemma Login_Ok_inv (s : AuthService) (req : LoginRequest)
    (userAgent : string) (w w' : World) (resp : AuthResponse) :
  Login s req userAgent w = (Ok resp, w') ->
  exists user,
    find (fun u => String.eqb (User_Email u) (LoginRequest_Email req)
                   && live u)%bool (users w) = Some user /\
    hash_CheckPassword (LoginRequest_Password req) (User_Password user)
      = Ok tt /\
    buildAuthResponse s user (LoginRequest_DeviceID req) w = (Ok resp, w').
Proof.
  cbv beta delta [Login bind orReturn userRepository_FindByEmail].
  destruct (find _ (users w)) as [user|]; [|discriminate].
  cbv beta iota.
  destruct (hash_CheckPassword _ _) as [[]|e] eqn:E; [|discriminate].
  intros H. exists user. auto.
Qed.

Lemma Register_Ok_inv (s : AuthService) (req : RegisterRequest)
    (w w' : World) (resp : AuthResponse) :
  Register s req w = (Ok resp, w') ->
  find (fun u => String.eqb (User_Email u) (RegisterRequest_Email req)
                 && live u)%bool (users w) = None /\
  exists passwordHash,
    bcryptGenerateFromPassword (RegisterRequest_Password req)
      (entropy w (draws w)) = Ok passwordHash /\
    (forall x, In x (users w) ->
       User_ID x <> User_ID (registeredUser req passwordHash w) /\
       User_Email x <> RegisterRequest_Email req) /\
    buildAuthResponse s (registeredUser req passwordHash w) "register-device"
      (set_users (users w ++ [registeredUser req passwordHash w])
                 (advance 1 2 w)) = (Ok resp, w').
Proof.
  cbv beta delta [Register userRepository_FindByEmail].
  destruct (find _ (users w)); [discriminate|].
  cbn [error_eqb negb].
  cbv beta iota delta [bind orReturn hash_Password uuid_New lift time_Now
                       userRepository_Create].
  destruct (bcryptGenerateFromPassword _ _) as [passwordHash|e]; [|discriminate].
  cbn [users refresh_tokens clock ticks entropy draws].
  destruct (insert_user _ _) as [[[]|e] w0] eqn:E; [|discriminate].
  apply insert_user_Ok in E. destruct E as [Hfresh ->].
  intros H. split; [reflexivity|]. exists passwordHash.
  split; [reflexivity|]. split; [exact Hfresh|]. exact H.
Qed.

Lemma RefreshTokens_Ok_inv (s : AuthService) (req : RefreshTokenRequest)
    (w w' : World) (resp : AuthResponse) :
  RefreshTokens s req w = (Ok resp, w') ->
  exists claims stored user,
    fst (ParseRefreshToken (jwtManager s)
           (RefreshTokenRequest_RefreshToken req) w) = Ok claims /\
    find (hasToken (RefreshTokenRequest_RefreshToken req)) (refresh_tokens w)
      = Some stored /\
    Before (RefreshToken_ExpiresAt stored) (clock w (S (ticks w))) = false /\
    find (fun u => N.eqb (User_ID u) (Claims_UserID claims) && live u)%bool
         (users w) = Some user /\
    buildAuthResponse s user (RefreshTokenRequest_DeviceID req)
      (rotated (RefreshTokenRequest_RefreshToken req) w) = (Ok resp, w').
Proof.
  intros Hrun. rewrite RefreshTokens_eq in Hrun.
  unfold ParseRefreshToken in *.
  destruct (parse _ _ _ _ w) as [[claims|e] wp] eqn:E; [|discriminate].
  apply parse_Ok_inv in E. destruct E as (_ & _ & _ & _ & _ & ->).
  cbn [refresh_tokens users clock ticks advance Nat.add] in Hrun.
  destruct (find (hasToken _) (refresh_tokens w)) as [stored|];
    [|discriminate].
  cbv zeta in Hrun. destruct (Before _ _) eqn:Eb; [discriminate|].
  destruct (find _ (users w)) as [user|] eqn:Eu; [|discriminate].
  exists claims, stored, user. repeat split; auto.
Qed.

Lemma find_app_last (token : string) (rts : list RefreshToken)
    (r : RefreshToken) :
  (forall x, In x rts -> RefreshToken_Token x <> token) ->
  RefreshToken_Token r = token ->
  find (hasToken token) (rts ++ [r]) = Some r.
Proof.
  intros Hold Hr. induction rts as [|x rts IH]; cbn.
  - unfold hasToken. rewrite Hr, String.eqb_refl. reflexivity.
  - unfold hasToken at 1.
    destruct (String.eqb_spec (RefreshToken_Token x) token) as [E|E].
    + destruct (Hold x (or_introl eq_refl) E).
    + apply IH. intros y Hy. apply Hold. right. exact Hy.
Qed.

Lemma find_live_user (f : User -> bool) (us : list User) (u : User) :
  find (fun x => f x && live x)%bool us = Some u ->
  In u us /\ f u = true /\ live u = true.
Proof.
  intros H. apply find_some in H. destruct H as [Hin Hb].
  apply andb_prop in Hb. tauto.
Qed.

Lemma buildAuthResponse_stores (s : AuthService) (user : User)
    (deviceID : string) (w w' : World) (resp : AuthResponse) :
  buildAuthResponse s user deviceID w = (Ok resp, w') ->
  In user (users w) -> live user = true ->
  sessionStored resp deviceID w'.
Proof.
  intros H Hin Hlive. apply buildAuthResponse_Ok_inv in H.
  destruct H as (-> & -> & Hfresh & _ & _).
  exists (issuedRecord s user deviceID w).
  unfold refreshTokenRepository_FindByToken. cbn.
  rewrite (find_app_last _ _ (issuedRecord s user deviceID w)).
  - repeat split; auto.
  - intros x Hx. apply (Hfresh x Hx).
  - reflexivity.
Qed.

(** X8. A session that was handed out is on record.  When Register, Login
    or Refresh succeed, the refresh token of the response is found in the
    token table of the world they leave, on a row owned by the user of the
    response and carrying the device of the request (the fixed register
    device for Register); that user is a live row, with the email of the
    request for Register and Login. *)
Theorem issued_session_is_stored (s : AuthService) (w w' : World)
    (resp : AuthResponse) :
  (forall req,
     Register s req w = (Ok resp, w') ->
     sessionStored resp "register-device" w' /\
     User_Email (AuthResponse_User resp) = RegisterRequest_Email req /\
     User_Name (AuthResponse_User resp) = RegisterRequest_Name req /\
     ~ In (AuthResponse_User resp) (users w)) /\
  (forall req userAgent,
     Login s req userAgent w = (Ok resp, w') ->
     sessionStored resp (LoginRequest_DeviceID req) w' /\
     User_Email (AuthResponse_User resp) = LoginRequest_Email req /\
     In (AuthResponse_User resp) (users w)) /\
  (forall req,
     RefreshTokens s req w = (Ok resp, w') ->
     sessionStored resp (RefreshTokenRequest_DeviceID req) w' /\
     In (AuthResponse_User resp) (users w)).
Proof.
  split; [|split].
  - intros req H. apply Register_Ok_inv in H.
    destruct H as (_ & passwordHash & _ & Hfresh & H).
    pose proof H as Hinv. apply buildAuthResponse_Ok_inv in Hinv.
    destruct Hinv as (-> & _).
    split; [|split; [reflexivity|split; [reflexivity|]]].
    + apply (buildAuthResponse_stores _ _ _ _ _ _ H); [|reflexivity].
      cbn. apply in_or_app. right. left. reflexivity.
    + cbn. intros Hin. destruct (Hfresh _ Hin) as [Hid _]. apply Hid.
      reflexivity.
  - intros req userAgent H. apply Login_Ok_inv in H.
    destruct H as (user & Hf & _ & H). apply find_live_user in Hf.
    destruct Hf as (Hin & Hem & Hlive). apply String.eqb_eq in Hem.
    pose proof H as Hinv. apply buildAuthResponse_Ok_inv in Hinv.
    destruct Hinv as (-> & _).
    split; [|split; [exact Hem|exact Hin]].
    apply (buildAuthResponse_stores _ _ _ _ _ _ H); assumption.
  - intros req H. apply RefreshTokens_Ok_inv in H.
    destruct H as (claims & stored & user & _ & _ & _ & Hf & H).
    apply find_live_user in Hf. destruct Hf as (Hin & _ & Hlive).
    pose proof H as Hinv. apply buildAuthResponse_Ok_inv in Hinv.
    destruct Hinv as (-> & _).
    split; [|exact Hin].
    apply (buildAuthResponse_stores _ _ _ _ _ _ H); assumption.
Qed.

Lemma withoutToken_length (token : string) (rts : list RefreshToken)
    (stored : RefreshToken) :
  NoDup (map RefreshToken_Token rts) ->
  find (hasToken token) rts = Some stored ->
  S (List.length (withoutToken token rts)) = List.length rts.
Proof.
  induction rts as [|x rts IH]; cbn; [discriminate|].
  intros Hnd Hf. inversion Hnd as [|? ? Hnotin Hnd']; subst.
  destruct (hasToken token x) eqn:E; cbn.
  - f_equal. unfold withoutToken. apply f_equal. apply filter_all.
    intros y Hy. unfold hasToken in *. apply String.eqb_eq in E.
    destruct (String.eqb_spec (RefreshToken_Token y) token) as [Ey|Ey];
      [|reflexivity].
    exfalso. apply Hnotin. rewrite E, <- Ey. apply in_map. exact Hy.
  - f_equal. apply IH; assumption.
Qed.

(** X9. What a successful refresh does to the tables.  The token table it
    leaves is the old one without the rows of the presented token, followed
    by one new row; the new row and the returned user carry the subject of
    the token's claims, and the new row carries the device the caller
    supplied; the user table is unchanged; and when tokens are unique in
    the table, the number of sessions is what it was. *)
Theorem refresh_rotates (s : AuthService) (req : RefreshTokenRequest)
    (w w' : World) (resp : AuthResponse) :
  RefreshTokens s req w = (Ok resp, w') ->
  exists claims rt,
    fst (ParseRefreshToken (jwtManager s)
           (RefreshTokenRequest_RefreshToken req) w) = Ok claims /\
    refresh_tokens w' =
      (withoutToken (RefreshTokenRequest_RefreshToken req) (refresh_tokens w)
       ++ [rt])%list /\
    RefreshToken_Token rt = AuthResponse_RefreshToken resp /\
    RefreshToken_UserID rt = Claims_UserID claims /\
    User_ID (AuthResponse_User resp) = Claims_UserID claims /\
    RefreshToken_DeviceID rt = RefreshTokenRequest_DeviceID req /\
    users w' = users w /\
    (NoDup (map RefreshToken_Token (refresh_tokens w)) ->
     List.length (refresh_tokens w') = List.length (refresh_tokens w)).
Proof.
  intros H. apply RefreshTokens_Ok_inv in H.
  destruct H as (claims & stored & user & Hp & Hf & _ & Hu & H).
  apply find_live_user in Hu. destruct Hu as (_ & Hid & _).
  apply N.eqb_eq in Hid.
  apply buildAuthResponse_Ok_inv in H. destruct H as (-> & -> & _).
  exists claims,
    (issuedRecord s user (RefreshTokenRequest_DeviceID req)
       (rotated (RefreshTokenRequest_RefreshToken req) w)).
  cbn. repeat split; auto.
  intros Hnd. rewrite length_app. cbn.
  rewrite <- (withoutToken_length _ _ _ Hnd Hf). lia.
Qed.

(** ** Refresh calls one after the other, and at once *)

(** Six statements bring a call to its return, with the result and the
    world of [RefreshTokens]: the statements are those of the call. *)
Lemma RefreshTokens_steps_alone (s : AuthService) (req : RefreshTokenRequest)
    (w : World) :
  RefreshTokens_steps 6 s req AtVerify w =
  (Returned (fst (RefreshTokens s req w)), snd (RefreshTokens s req w)).
Proof.
  cbv beta iota delta [RefreshTokens_steps RefreshTokens_step proceed
                       RefreshTokens bind orReturn discard fail].
  destruct (ParseRefreshToken _ _ w) as [[claims|e] w1]; [|reflexivity].
  destruct (refreshTokenRepository_FindByToken _ w1) as [[stored|e] w2];
    [|reflexivity].
  cbv beta iota delta [time_Now].
  destruct (Before _ _).
  - cbv beta iota delta [refreshTokenRepository_DeleteByToken].
    reflexivity.
  - cbv beta iota delta [refreshTokenRepository_DeleteByToken].
    destruct (userRepository_FindByID _ _) as [[user|e] w3]; [|reflexivity].
    destruct (buildAuthResponse _ _ _ _) as [[resp|e] w4]; reflexivity.
Qed.

Lemma RefreshTokens_interleaved_first (s : AuthService)
    (req1 req2 : RefreshTokenRequest) (n : nat) (rest : list Turn)
    (call1 call2 : RefreshCall) (w : World) :
  RefreshTokens_interleaved s req1 req2 (repeat Former n ++ rest)%list
    call1 call2 w =
  RefreshTokens_interleaved s req1 req2 rest
    (fst (RefreshTokens_steps n s req1 call1 w)) call2
    (snd (RefreshTokens_steps n s req1 call1 w)).
Proof.
  revert call1 w. induction n as [|n IH]; intros call1 w; [reflexivity|].
  cbn [repeat app RefreshTokens_interleaved RefreshTokens_steps].
  destruct (RefreshTokens_step s req1 call1 w) as [call1' w']. apply IH.
Qed.

Lemma RefreshTokens_interleaved_second (s : AuthService)
    (req1 req2 : RefreshTokenRequest) (n : nat) (rest : list Turn)
    (call1 call2 : RefreshCall) (w : World) :
  RefreshTokens_interleaved s req1 req2 (repeat Latter n ++ rest)%list
    call1 call2 w =
  RefreshTokens_interleaved s req1 req2 rest call1
    (fst (RefreshTokens_steps n s req2 call2 w))
    (snd (RefreshTokens_steps n s req2 call2 w)).
Proof.
  revert call2 w. induction n as [|n IH]; intros call2 w; [reflexivity|].
  cbn [repeat app RefreshTokens_interleaved RefreshTokens_steps].
  destruct (RefreshTokens_step s req2 call2 w) as [call2' w']. apply IH.
Qed.

(** Two calls in turn are the two calls of [RefreshTokens], the second in
    the world the first left. *)
Lemma RefreshTokens_in_turn (s : AuthService)
    (req1 req2 : RefreshTokenRequest) (w : World) :
  RefreshTokens_interleaved s req1 req2 exInTurn AtVerify AtVerify w =
  ((Returned (fst (RefreshTokens s req1 w)),
    Returned (fst (RefreshTokens s req2 (snd (RefreshTokens s req1 w))))),
   snd (RefreshTokens s req2 (snd (RefreshTokens s req1 w)))).
Proof.
  change exInTurn with (repeat Former 6 ++ repeat Latter 6 ++ [])%list.
  rewrite RefreshTokens_interleaved_first, RefreshTokens_steps_alone.
  cbn [fst snd].
  rewrite RefreshTokens_interleaved_second, RefreshTokens_steps_alone.
  reflexivity.
Qed.

(** C1, for calls that do not overlap.  Refresh tokens are single-use
    between calls that follow one another.  When a refresh call succeeds,
    the new refresh token is not the one presented, provided the codec
    reads the new token back and the random id drawn for it is not the id
    of the presented token; the pair was issued by the issue sub-flow in
    the rotated world, where the rows of the presented token are already
    deleted; the token has no row in the table the call leaves; its
    signature still verifies under the refresh secret; a refresh call
    presenting the same token against that table, at any reading of the
    clock and from any device, fails with TokenInvalid; and so does the
    second of two calls run in turn on the same token. *)
Theorem refresh_single_use (s : AuthService) (req req2 : RefreshTokenRequest)
    (w w1 w2 : World) (resp : AuthResponse) (claims : Claims) :
  RefreshTokens s req w = (Ok resp, w1) ->
  fst (ParseRefreshToken (jwtManager s)
         (RefreshTokenRequest_RefreshToken req) w) = Ok claims ->
  readsBack
    (issuedClaims (Claims_UserID claims) jwt_RefreshToken
       (refreshTTL (jwtManager s))
       (advance 1 1 (rotated (RefreshTokenRequest_RefreshToken req) w)))
    (refreshSecret (jwtManager s)) ->
  Claims_ID claims <> uuid_String (entropy w (S (draws w))) ->
  RefreshTokenRequest_RefreshToken req2 = RefreshTokenRequest_RefreshToken req ->
  refresh_tokens w2 = refresh_tokens w1 ->
  AuthResponse_RefreshToken resp <> RefreshTokenRequest_RefreshToken req /\
  (exists user,
     buildAuthResponse s user (RefreshTokenRequest_DeviceID req)
       (rotated (RefreshTokenRequest_RefreshToken req) w) = (Ok resp, w1)) /\
  find (hasToken (RefreshTokenRequest_RefreshToken req))
       (refresh_tokens (rotated (RefreshTokenRequest_RefreshToken req) w))
    = None /\
  find (hasToken (RefreshTokenRequest_RefreshToken req)) (refresh_tokens w1)
    = None /\
  signatureVerifies (RefreshTokenRequest_RefreshToken req)
                    (refreshSecret (jwtManager s)) /\
  fst (RefreshTokens s req2 w2) = Err ErrTokenInvalid /\
  fst (RefreshTokens_interleaved s req req2 exInTurn AtVerify AtVerify w) =
    (Returned (Ok resp), Returned (Err ErrTokenInvalid)).
Proof.
  intros Hrun Hp Hrb Hid Hsame Htable.
  assert (Hfresh : AuthResponse_RefreshToken resp
                   <> RefreshTokenRequest_RefreshToken req).
  { destruct (RefreshTokens_Ok_inv s req w w1 resp Hrun)
      as (claims' & stored & user & Hp' & _ & _ & Hu & Hb).
    rewrite Hp in Hp'. inversion Hp'; subst claims'.
    apply find_live_user in Hu. destruct Hu as (_ & Hu & _).
    apply N.eqb_eq in Hu.
    apply buildAuthResponse_Ok_inv in Hb. destruct Hb as (-> & _).
    cbn [AuthResponse_RefreshToken issuedPair]. rewrite Hu. intros Heq.
    destruct Hrb as (token' & Hdec' & _ & Hc' & _).
    unfold ParseRefreshToken in Hp.
    apply (proj1 (parse_Ok_iff (jwtManager s) _ _ _ w claims)) in Hp.
    destruct Hp as (token & Hdec & Hc & _).
    rewrite Heq, Hdec in Hdec'. inversion Hdec'; subst token'.
    rewrite Hc in Hc'. apply Hid. rewrite Hc'. reflexivity. }
  split; [exact Hfresh|].
  destruct (refresh_replay_refused s req req2 w w1 w2 resp
              Hrun Hfresh Hsame Htable) as (H1 & H2 & H3 & H4 & H5).
  repeat (split; [assumption|]).
  rewrite RefreshTokens_in_turn, Hrun. cbn [fst snd].
  destruct (refresh_replay_refused s req req2 w w1 w1 resp
              Hrun Hfresh Hsame eq_refl) as (_ & _ & _ & _ & H6).
  rewrite H6. reflexivity.
Qed.

(** ** The promises of the schema *)

Lemma NoDup_map_filter {A B} (f : A -> B) (keep : A -> bool) (l : list A) :
  NoDup (map f l) -> NoDup (map f (filter keep l)).
Proof.
  induction l as [|x l IH]; cbn; intros H; [constructor|].
  inversion H as [|? ? Hnotin Hnd]; subst.
  destruct (keep x); cbn; [constructor|]; auto.
  intros Hin. apply Hnotin. apply in_map_iff in Hin.
  destruct Hin as (y & Hy & Hin). apply filter_In in Hin.
  rewrite <- Hy. apply in_map. tauto.
Qed.

Lemma NoDup_map_snoc {A B} (f : A -> B) (l : list A) (x : A) :
  NoDup (map f l) -> (forall y, In y l -> f y <> f x) ->
  NoDup (map f (l ++ [x])).
Proof.
  intros Hnd Hfresh. rewrite map_app. cbn.
  apply NoDup_app; [exact Hnd | repeat constructor; intros [] |].
  intros b Hb [<- | []]. apply in_map_iff in Hb.
  destruct Hb as (y & Hy & Hin). apply (Hfresh y Hin). exact Hy.
Qed.

Lemma wellFormed_filter (w : World) (keep : RefreshToken -> bool)
    (w' : World) :
  wellFormed w -> users w' = users w ->
  refresh_tokens w' = filter keep (refresh_tokens w) ->
  wellFormed w'.
Proof.
  intros ([Hid Htok] & Hus & Hfk) Hu Ht. unfold wellFormed.
  rewrite Hu, Ht. split; [split|split]; auto using NoDup_map_filter.
  intros r Hin. apply filter_In in Hin. apply Hfk. tauto.
Qed.

Lemma wellFormed_session (w : World) (rt : RefreshToken) (w' : World) :
  wellFormed w -> users w' = users w ->
  refresh_tokens w' = (refresh_tokens w ++ [rt])%list ->
  (forall r, In r (refresh_tokens w) ->
             RefreshToken_ID r <> RefreshToken_ID rt /\
             RefreshToken_Token r <> RefreshToken_Token rt) ->
  (exists u, In u (users w) /\ User_ID u = RefreshToken_UserID rt) ->
  wellFormed w'.
Proof.
  intros ([Hid Htok] & Hus & Hfk) Hu Ht Hfresh Howner. unfold wellFormed.
  rewrite Hu, Ht. split; [split|split]; auto.
  - apply NoDup_map_snoc; [exact Hid|]. intros y Hy. apply (Hfresh y Hy).
  - apply NoDup_map_snoc; [exact Htok|]. intros y Hy. apply (Hfresh y Hy).
  - intros r Hin. apply in_app_or in Hin.
    destruct Hin as [Hin | [<- | []]]; auto.
Qed.

Lemma wellFormed_same (w w' : World) :
  wellFormed w -> users w' = users w ->
  refresh_tokens w' = refresh_tokens w -> wellFormed w'.
Proof. unfold wellFormed. intros H -> ->. exact H. Qed.

Lemma buildAuthResponse_wellFormed (s : AuthService) (user : User)
    (deviceID : string) (w : World) :
  wellFormed w ->
  wellFormed (snd (buildAuthResponse s user deviceID w)).
Proof.
  intros Hwf.
  destruct (buildAuthResponse s user deviceID w) as [[resp|e] w'] eqn:E; cbn.
  - rewrite buildAuthResponse_eq in E.
    destruct (insert_refresh_token _ _) as [[[]|e] w0] eqn:Ei; [|discriminate].
    inversion E; subst. apply insert_refresh_token_Ok in Ei.
    destruct Ei as (_ & Hfresh & Hfk & ->).
    apply (wellFormed_session w (issuedRecord s user deviceID w));
      auto; reflexivity.
  - apply buildAuthResponse_tables in E.
    destruct E as [Hu [(e' & _ & Ht) | [He _]]]; [|discriminate].
    apply (wellFormed_same w); assumption.
Qed.

Lemma Login_wellFormed (s : AuthService) (req : LoginRequest)
    (userAgent : string) (w : World) :
  wellFormed w -> wellFormed (snd (Login s req userAgent w)).
Proof.
  intros Hwf. cbv beta delta [Login bind orReturn userRepository_FindByEmail].
  destruct (find _ (users w)) as [user|]; [|exact Hwf].
  cbv beta iota. destruct (hash_CheckPassword _ _); [|exact Hwf].
  apply buildAuthResponse_wellFormed. exact Hwf.
Qed.

Lemma RefreshTokens_wellFormed (s : AuthService) (req : RefreshTokenRequest)
    (w : World) :
  wellFormed w -> wellFormed (snd (RefreshTokens s req w)).
Proof.
  intros Hwf. rewrite RefreshTokens_eq. unfold ParseRefreshToken.
  pose proof (parse_world (jwtManager s) (RefreshTokenRequest_RefreshToken req)
                (refreshSecret (jwtManager s)) jwt_RefreshToken w) as Hw.
  destruct (parse _ _ _ _ w) as [[claims|e] w1]; cbn in Hw.
  2:{ cbn. destruct Hw as [-> | ->]; exact Hwf. }
  assert (Hwf1 : wellFormed w1) by (destruct Hw as [-> | ->]; exact Hwf).
  destruct (find (hasToken _) (refresh_tokens w1)); [|exact Hwf1].
  cbv zeta.
  assert (Hwf2 : wellFormed
                   (set_refresh_tokens
                      (withoutToken (RefreshTokenRequest_RefreshToken req)
                         (refresh_tokens w1)) (advance 1 0 w1)))
    by (apply (wellFormed_filter w1
                 (fun r => negb (hasToken
                                   (RefreshTokenRequest_RefreshToken req) r)));
        [exact Hwf1 | reflexivity | reflexivity]).
  destruct (Before _ _); [exact Hwf2|].
  destruct (find _ (users w1)); [|exact Hwf2].
  apply buildAuthResponse_wellFormed. exact Hwf2.
Qed.

Lemma Register_wellFormed (s : AuthService) (req : RegisterRequest)
    (w : World) :
  wellFormed w -> wellFormed (snd (Register s req w)).
Proof.
  intros Hwf. cbv beta delta [Register userRepository_FindByEmail].
  destruct (find _ (users w)); [exact Hwf|].
  cbn [error_eqb negb].
  cbv beta iota delta [bind orReturn hash_Password uuid_New lift time_Now
                       userRepository_Create].
  destruct (bcryptGenerateFromPassword _ _) as [passwordHash|e];
    [|exact Hwf].
  cbn [users refresh_tokens clock ticks entropy draws].
  destruct (insert_user _ _) as [[[]|e] w0] eqn:E.
  - apply insert_user_Ok in E. destruct E as [Hfresh ->].
    apply buildAuthResponse_wellFormed.
    destruct Hwf as (Hs & [Hid Hem] & Hfk). cbn in Hfresh.
    split; [exact Hs|]. split; [split|].
    + apply NoDup_map_snoc; [exact Hid|]. intros y Hy. apply (Hfresh y Hy).
    + apply NoDup_map_snoc; [exact Hem|]. intros y Hy. apply (Hfresh y Hy).
    + intros r Hin. destruct (Hfk r Hin) as (u & Hu & Hid').
      exists u. split; [|exact Hid']. cbn. apply in_or_app. left. exact Hu.
  - cbn. pose proof (insert_user_tokens _ _ _ _ E) as Ht.
    unfold insert_user in E.
    repeat match type of E with
           | context [if ?b then _ else _] => destruct b
           end; inversion E; subst; exact Hwf.
Qed.

Lemma userRepository_Delete_wellFormed (id : UUID) (w : World) :
  wellFormed w -> wellFormed (snd (userRepository_Delete id w)).
Proof.
  intros (Hs & [Hid Hem] & Hfk). unfold wellFormed. cbn.
  split; [exact Hs|].
  assert (Hids : forall us : list User,
            map User_ID
              (map (fun u => if (N.eqb (User_ID u) id && live u)%bool
                             then {| User_ID := User_ID u;
                                     User_Name := User_Name u;
                                     User_Email := User_Email u;
                                     User_Password := User_Password u;
                                     User_CreatedAt := User_CreatedAt u;
                                     User_UpdatedAt := User_UpdatedAt u;
                                     User_DeletedAt :=
                                       Some (clock w (ticks w)) |}
                             else u) us) = map User_ID us).
  { intros us. rewrite map_map. apply map_ext. intros u.
    destruct (_ && _)%bool; reflexivity. }
  assert (Hems : forall us : list User,
            map User_Email
              (map (fun u => if (N.eqb (User_ID u) id && live u)%bool
                             then {| User_ID := User_ID u;
                                     User_Name := User_Name u;
                                     User_Email := User_Email u;
                                     User_Password := User_Password u;
                                     User_CreatedAt := User_CreatedAt u;
                                     User_UpdatedAt := User_UpdatedAt u;
                                     User_DeletedAt :=
                                       Some (clock w (ticks w)) |}
                             else u) us) = map User_Email us).
  { intros us. rewrite map_map. apply map_ext. intros u.
    destruct (_ && _)%bool; reflexivity. }
  split; [split|].
  - rewrite Hids. exact Hid.
  - rewrite Hems. exact Hem.
  - intros r Hin. destruct (Hfk r Hin) as (u & Hu & Hid').
    eexists. split; [apply in_map; exact Hu|].
    destruct (_ && _)%bool; exact Hid'.
Qed.

Lemma step_wellFormed (s : AuthService) (call : Call) (w : World) :
  wellFormed w -> wellFormed (step s call w).
Proof.
  intros Hwf. destruct call as [req|req ua|req|uid tok all| |id]; cbn [step].
  - apply Register_wellFormed. exact Hwf.
  - apply Login_wellFormed. exact Hwf.
  - apply RefreshTokens_wellFormed. exact Hwf.
  - destruct all; cbn;
      [ apply (wellFormed_filter w (fun r => negb (ownedBy uid r)))
      | apply (wellFormed_filter w (fun r => negb (hasToken tok r))) ];
      auto.
  - apply (wellFormed_filter w
             (fun r => negb (RefreshToken_ExpiresAt r <? clock w (ticks w))));
      auto.
  - apply userRepository_Delete_wellFormed. exact Hwf.
Qed.

(** X10. The promises of the schema are kept.  Whatever sequence of
    register, login, refresh, logout, sweep and account-deletion calls
    runs, from tables where session ids and tokens are unique, user ids and
    emails are unique and every session belongs to a user row, the tables
    it leaves have the same three properties.  So at most one session
    exists for a refresh token, and a lookup by token is unambiguous. *)
Theorem schema_promises_kept (s : AuthService) (calls : list Call)
    (w : World) :
  wellFormed w ->
  wellFormed (run s calls w) /\
  (forall token r r',
     In r (refresh_tokens (run s calls w)) ->
     In r' (refresh_tokens (run s calls w)) ->
     RefreshToken_Token r = token -> RefreshToken_Token r' = token ->
     r = r').
Proof.
  intros Hwf.
  assert (Hrun : wellFormed (run s calls w)).
  { revert w Hwf. induction calls as [|call calls IH]; intros w Hwf; cbn.
    - exact Hwf.
    - apply IH. apply step_wellFormed. exact Hwf. }
  split; [exact Hrun|].
  destruct Hrun as ([_ Htok] & _ & _).
  generalize dependent (refresh_tokens (run s calls w)).
  intros l Htok token r r' Hr Hr' Ht Ht'.
  induction l as [|x l IH]; [destruct Hr|].
  cbn in Htok. inversion Htok as [|? ? Hnotin Hnd]; subst.
  destruct Hr as [<- | Hr]; destruct Hr' as [<- | Hr']; auto.
  - exfalso. apply Hnotin. rewrite <- Ht'. apply in_map. exact Hr'.
  - exfalso. apply Hnotin. rewrite Ht'. apply in_map. exact Hr.
Qed.

(** ** Accounts *)

Lemma Register_tables_on_failure (s : AuthService) (req : RegisterRequest)
    (w : World) (u : User) :
  In u (users w) -> User_Email u = RegisterRequest_Email req ->
  (exists err, fst (Register s req w) = Err err) /\
  users (snd (Register s req w)) = users w /\
  refresh_tokens (snd (Register s req w)) = refresh_tokens w.
Proof.
  intros Hin Hemail. cbv beta delta [Register userRepository_FindByEmail].
  destruct (find _ (users w)); [cbn; eauto|].
  cbn [error_eqb negb].
  cbv beta iota delta [bind orReturn hash_Password uuid_New lift time_Now
                       userRepository_Create].
  destruct (bcryptGenerateFromPassword _ _) as [passwordHash|e];
    [|cbn; eauto].
  cbn [users refresh_tokens clock ticks entropy draws].
  destruct (insert_user _ _) as [[[]|e] w0] eqn:E.
  - apply insert_user_Ok in E. destruct E as [Hfresh _].
    destruct (Hfresh u Hin) as [_ Hne]. destruct (Hne Hemail).
  - cbn. split; [eauto|]. unfold insert_user in E.
    repeat match type of E with
           | context [if ?b then _ else _] => destruct b
           end; inversion E; subst; split; reflexivity.
Qed.

(** X12. An email is registered once.  When a row of the user table, live
    or soft-deleted, carries the email of a registration request, Register
    fails and leaves both tables as they were, and the handler never
    answers 201; when the row is live, the error is AlreadyExists, nothing
    at all is consumed, and the handler answers 409 with the message
    "email already registered". *)
Theorem register_email_taken (h : AuthHandler) (c : Context)
    (req : RegisterRequest) (w : World) (u : User) :
  In u (users w) -> User_Email u = RegisterRequest_Email req ->
  (exists err, fst (Register (authSvc h) req w) = Err err) /\
  users (snd (Register (authSvc h) req w)) = users w /\
  refresh_tokens (snd (Register (authSvc h) req w)) = refresh_tokens w /\
  (forall resp,
     fst (AuthHandler_Register h (BindOk req) c w) <> response_Created c resp) /\
  (live u = true ->
   Register (authSvc h) req w = (Err ErrAlreadyExists, w) /\
   AuthHandler_Register h (BindOk req) c w =
     (response_Conflict c "email already registered", w)).
Proof.
  intros Hin Hemail.
  destruct (Register_tables_on_failure (authSvc h) req w u Hin Hemail)
    as ([err Herr] & Hu & Ht).
  split; [eauto|]. split; [exact Hu|]. split; [exact Ht|]. split.
  - intros resp. unfold AuthHandler_Register.
    destruct (Register (authSvc h) req w) as [[r|e] w']; cbn in Herr;
      [discriminate|].
    destruct (errors_Is e ErrAlreadyExists); cbn; intros H;
      apply (f_equal Written) in H; discriminate H.
  - intros Hlive.
    assert (Hrun : Register (authSvc h) req w = (Err ErrAlreadyExists, w)).
    { cbv beta delta [Register userRepository_FindByEmail].
      destruct (find _ (users w)) eqn:Ef; [reflexivity|].
      exfalso. pose proof (proj1 (find_none_iff _ _) Ef u Hin) as Hu'.
      cbn in Hu'. rewrite Hemail, String.eqb_refl, Hlive in Hu'.
      discriminate. }
    split; [exact Hrun|]. unfold AuthHandler_Register. rewrite Hrun.
    reflexivity.
Qed.

Lemma find_app_none {A} (f : A -> bool) (l : list A) (x : A) :
  find f l = None -> f x = true -> find f (l ++ [x]) = Some x.
Proof.
  intros Hnone Hx. induction l as [|y l IH]; cbn in *.
  - rewrite Hx. reflexivity.
  - destruct (f y); [discriminate|auto].
Qed.

Lemma buildAuthResponse_not_credentials (s : AuthService) (user : User)
    (deviceID : string) (w : World) :
  fst (buildAuthResponse s user deviceID w) <> Err ErrInvalidCredentials.
Proof.
  rewrite buildAuthResponse_eq.
  destruct (insert_refresh_token _ _) as [[[]|e] w0]; cbn; discriminate.
Qed.

(** X13. Register, then log in.  After a successful registration, a login
    with the registered email runs the issue sub-flow for the registered
    user when bcrypt accepts the password against the stored hash, so it
    is not refused for its credentials; and it is refused with
    InvalidCredentials, leaving the world alone, when bcrypt rejects the
    password. *)
Theorem register_then_login (s : AuthService) (req : RegisterRequest)
    (w w' : World) (resp : AuthResponse) (login : LoginRequest)
    (userAgent : string) :
  Register s req w = (Ok resp, w') ->
  LoginRequest_Email login = RegisterRequest_Email req ->
  fst (userRepository_FindByEmail (RegisterRequest_Email req) w')
    = Ok (AuthResponse_User resp) /\
  (hash_CheckPassword (LoginRequest_Password login)
     (User_Password (AuthResponse_User resp)) = Ok tt ->
   Login s login userAgent w' =
     buildAuthResponse s (AuthResponse_User resp)
       (LoginRequest_DeviceID login) w' /\
   fst (Login s login userAgent w') <> Err ErrInvalidCredentials) /\
  (forall err,
     hash_CheckPassword (LoginRequest_Password login)
       (User_Password (AuthResponse_User resp)) = Err err ->
     Login s login userAgent w' = (Err ErrInvalidCredentials, w')).
Proof.
  intros Hreg Hemail. apply Register_Ok_inv in Hreg.
  destruct Hreg as (Hnone & passwordHash & _ & _ & Hbuild).
  apply buildAuthResponse_Ok_inv in Hbuild.
  destruct Hbuild as (-> & -> & _).
  assert (Hfind : find (fun u => String.eqb (User_Email u)
                                   (RegisterRequest_Email req) && live u)%bool
                    (users w ++ [registeredUser req passwordHash w])
                  = Some (registeredUser req passwordHash w)).
  { apply find_app_none; [exact Hnone|]. cbn.
    rewrite String.eqb_refl. reflexivity. }
  split; [|split].
  - unfold userRepository_FindByEmail. cbn [users set_users advance
      set_refresh_tokens]. rewrite Hfind. reflexivity.
  - intros Hok.
    assert (Hlogin : Login s login userAgent
                       (set_refresh_tokens
                          (refresh_tokens
                             (set_users
                                (users w ++ [registeredUser req passwordHash w])
                                (advance 1 2 w)) ++
                           [issuedRecord s (registeredUser req passwordHash w)
                              "register-device"
                              (set_users
                                 (users w ++ [registeredUser req passwordHash w])
                                 (advance 1 2 w))])
                          (advance 4 3
                             (set_users
                                (users w ++ [registeredUser req passwordHash w])
                                (advance 1 2 w)))) =
                     buildAuthResponse s (registeredUser req passwordHash w)
                       (LoginRequest_DeviceID login)
                       (set_refresh_tokens
                          (refresh_tokens
                             (set_users
                                (users w ++ [registeredUser req passwordHash w])
                                (advance 1 2 w)) ++
                           [issuedRecord s (registeredUser req passwordHash w)
                              "register-device"
                              (set_users
                                 (users w ++ [registeredUser req passwordHash w])
                                 (advance 1 2 w))])
                          (advance 4 3
                             (set_users
                                (users w ++ [registeredUser req passwordHash w])
                                (advance 1 2 w))))).
    { cbv beta delta [Login bind orReturn userRepository_FindByEmail].
      cbn [users set_users advance set_refresh_tokens].
      rewrite Hemail, Hfind. cbv beta iota.
      cbn [AuthResponse_User issuedPair] in Hok. rewrite Hok. reflexivity. }
    split; [exact Hlogin|]. rewrite Hlogin.
    apply buildAuthResponse_not_credentials.
  - intros err Herr.
    cbv beta delta [Login bind orReturn userRepository_FindByEmail].
    cbn [users set_users advance set_refresh_tokens].
    rewrite Hemail, Hfind. cbv beta iota.
    cbn [AuthResponse_User issuedPair] in Herr. rewrite Herr. reflexivity.
Qed.

Lemma deleted_has_no_live_row (id : UUID) (w : World) (u : User) :
  In u (users (snd (userRepository_Delete id w))) ->
  User_ID u = id -> live u = false.
Proof.
  cbn. intros Hin Hid. apply in_map_iff in Hin.
  destruct Hin as (x & Hx & _).
  destruct (N.eqb (User_ID x) id && live x)%bool eqn:E.
  - subst u. reflexivity.
  - subst u. rewrite Hid, N.eqb_refl in E. exact E.
Qed.

(** X14. A deleted account gets no new tokens.  After the soft delete of
    an account, whatever it answered, a lookup of the id finds nothing,
    deleting again answers NotFound, the sessions are all still in the
    token table, and no login and no refresh call returns the user with
    that id.  The delete itself answers without error exactly when a live
    row has the id. *)
Theorem deleted_account_gets_no_tokens (s : AuthService) (id : UUID)
    (w : World) :
  let w' := snd (userRepository_Delete id w) in
  (fst (userRepository_Delete id w) = Ok tt <->
   exists u, In u (users w) /\ User_ID u = id /\ live u = true) /\
  fst (userRepository_FindByID id w') = Err ErrNotFound /\
  fst (userRepository_Delete id w') = Err ErrNotFound /\
  refresh_tokens w' = refresh_tokens w /\
  List.length (users w') = List.length (users w) /\
  (forall req userAgent resp w'',
     Login s req userAgent w' = (Ok resp, w'') ->
     User_ID (AuthResponse_User resp) <> id) /\
  (forall req resp w'',
     RefreshTokens s req w' = (Ok resp, w'') ->
     User_ID (AuthResponse_User resp) <> id).
Proof.
  intros w'.
  assert (Hdead : forall u, In u (users w') -> User_ID u = id -> live u = false)
    by (intros u; apply deleted_has_no_live_row).
  assert (Hnone : find (fun u => N.eqb (User_ID u) id && live u)%bool
                    (users w') = None).
  { apply find_none_iff. intros u Hin.
    destruct (N.eqb_spec (User_ID u) id) as [E|E]; [|reflexivity].
    rewrite (Hdead u Hin E). reflexivity. }
  split; [|split; [|split; [|split; [|split; [|split]]]]].
  - cbn. split.
    + intros H.
      destruct (filter (fun u => (N.eqb (User_ID u) id && live u)%bool)
                  (users w)) as [|u l] eqn:E; [discriminate|].
      assert (Hin : In u (filter (fun u => (N.eqb (User_ID u) id && live u)%bool)
                            (users w))) by (rewrite E; left; reflexivity).
      apply filter_In in Hin. destruct Hin as [Hin Hb].
      apply andb_prop in Hb. destruct Hb as [Hid Hl].
      apply N.eqb_eq in Hid. eauto.
    + intros (u & Hin & Hid & Hl).
      assert (Hf : In u (filter (fun u => (N.eqb (User_ID u) id && live u)%bool)
                           (users w))).
      { apply filter_In. split; [exact Hin|].
        rewrite Hid, N.eqb_refl, Hl. reflexivity. }
      destruct (filter _ (users w)); [destruct Hf|reflexivity].
  - unfold userRepository_FindByID. rewrite Hnone. reflexivity.
  - unfold userRepository_Delete. cbn [fst].
    replace (filter _ (users w')) with (@nil User); [reflexivity|].
    symmetry. destruct (filter _ (users w')) as [|u l] eqn:E; [reflexivity|].
    assert (Hin : In u (u :: l)) by (left; reflexivity).
    rewrite <- E in Hin. apply filter_In in Hin. destruct Hin as [Hin Hb].
    rewrite (proj1 (find_none_iff _ _) Hnone u Hin) in Hb. discriminate.
  - reflexivity.
  - cbn. apply length_map.
  - intros req userAgent resp w'' H. apply Login_Ok_inv in H.
    destruct H as (user & Hf & _ & H).
    apply buildAuthResponse_Ok_inv in H. destruct H as (-> & _).
    apply find_live_user in Hf. destruct Hf as (Hin & _ & Hlive).
    cbn. intros Hid. rewrite (Hdead user Hin Hid) in Hlive. discriminate.
  - intros req resp w'' H. apply RefreshTokens_Ok_inv in H.
    destruct H as (claims & stored & user & _ & _ & _ & Hf & H).
    apply buildAuthResponse_Ok_inv in H. destruct H as (-> & _).
    apply find_live_user in Hf. destruct Hf as (Hin & _ & Hlive).
    cbn. intros Hid. rewrite (Hdead user Hin Hid) in Hlive. discriminate.
Qed.

(** ** The refresh endpoint *)

Lemma response_shapes_differ (c : Context) (resp : AuthResponse)
    (msg : string) :
  response_OK c resp <> response_Unauthorized c msg /\
  response_InternalError c <> response_Unauthorized c msg /\
  response_OK c resp <> response_InternalError c.
Proof.
  repeat split; intros H; apply (f_equal Written) in H; discriminate H.
Qed.

Lemma insert_refresh_token_Err (t : RefreshToken) (w w' : World)
    (e : error) :
  insert_refresh_token t w = (Err e, w') ->
  (exists code, e = PqError code) /\ w' = w.
Proof.
  unfold insert_refresh_token.
  repeat match goal with
         | |- context [if ?b then _ else _] => destruct b
         end; intros H; inversion H; subst;
    (split; [eexists; reflexivity | reflexivity]).
Qed.

Lemma RefreshTokens_Err_cases (s : AuthService) (req : RefreshTokenRequest)
    (w w' : World) (e : error) :
  RefreshTokens s req w = (Err e, w') ->
  (e = ErrTokenInvalid /\
   ((exists err, fst (ParseRefreshToken (jwtManager s)
                        (RefreshTokenRequest_RefreshToken req) w) = Err err) \/
    find (hasToken (RefreshTokenRequest_RefreshToken req)) (refresh_tokens w)
      = None)) \/
  (e = ErrTokenExpired /\
   exists stored,
     find (hasToken (RefreshTokenRequest_RefreshToken req)) (refresh_tokens w)
       = Some stored /\
     RefreshToken_ExpiresAt stored < clock w (S (ticks w))) \/
  ((errors_Is e ErrTokenInvalid || errors_Is e ErrTokenExpired)%bool = false /\
   (exists claims, fst (ParseRefreshToken (jwtManager s)
                          (RefreshTokenRequest_RefreshToken req) w) = Ok claims) /\
   (exists stored,
      find (hasToken (RefreshTokenRequest_RefreshToken req)) (refresh_tokens w)
        = Some stored /\
      clock w (S (ticks w)) <= RefreshToken_ExpiresAt stored) /\
   find (hasToken (RefreshTokenRequest_RefreshToken req)) (refresh_tokens w')
     = None).
Proof.
  rewrite RefreshTokens_eq. unfold ParseRefreshToken.
  destruct (parse _ _ _ _ w) as [[claims|e0] w1] eqn:E.
  2:{ intros H; inversion H; subst. left. split; [reflexivity|].
      left. exists e0. reflexivity. }
  apply parse_Ok_inv in E. destruct E as (_ & _ & _ & _ & _ & ->).
  cbn [refresh_tokens users clock ticks advance Nat.add fst].
  destruct (find (hasToken _) (refresh_tokens w)) as [stored|] eqn:Ef.
  2:{ intros H; inversion H; subst. left. split; [reflexivity|].
      right. reflexivity. }
  cbv zeta. unfold Before.
  destruct (Z.ltb_spec (RefreshToken_ExpiresAt stored) (clock w (S (ticks w))))
    as [Hexp|Hlive].
  { intros H; inversion H; subst. right. left. split; [reflexivity|]. eauto. }
  intros H. right. right.
  destruct (find _ (users w)) as [user|].
  - rewrite buildAuthResponse_eq in H.
    destruct (insert_refresh_token _ _) as [[[]|e1] w0] eqn:Ei;
      [discriminate|].
    apply insert_refresh_token_Err in Ei. destruct Ei as [[code ->] ->].
    inversion H; subst. cbn. repeat split; eauto.
    apply find_withoutToken.
  - inversion H; subst. cbn. repeat split; eauto.
    apply find_withoutToken.
Qed.

(** X15. The answers of the refresh endpoint.  For a decoded request the
    handler writes one of three responses: 200 with the pair the service
    returned, the fixed 401 "invalid or expired refresh token", or the
    fixed 500.  It writes the 401 exactly when the token fails
    verification, or has no session record, or its record has expired at
    the reading of the clock the check takes; a 500 means the call failed
    after the rotation, and then the presented token has no record left. *)
Theorem refresh_handler_responses (h : AuthHandler) (c : Context)
    (req : RefreshTokenRequest) (w : World) :
  ((exists resp,
      fst (RefreshTokens (authSvc h) req w) = Ok resp /\
      fst (AuthHandler_RefreshToken h (BindOk req) c w) = response_OK c resp) \/
   fst (AuthHandler_RefreshToken h (BindOk req) c w) =
     response_Unauthorized c "invalid or expired refresh token" \/
   fst (AuthHandler_RefreshToken h (BindOk req) c w) =
     response_InternalError c) /\
  (fst (AuthHandler_RefreshToken h (BindOk req) c w) =
     response_Unauthorized c "invalid or expired refresh token" <->
   (exists err,
      fst (ParseRefreshToken (jwtManager (authSvc h))
             (RefreshTokenRequest_RefreshToken req) w) = Err err) \/
   find (hasToken (RefreshTokenRequest_RefreshToken req)) (refresh_tokens w)
     = None \/
   (exists stored,
      find (hasToken (RefreshTokenRequest_RefreshToken req)) (refresh_tokens w)
        = Some stored /\
      RefreshToken_ExpiresAt stored < clock w (S (ticks w)))) /\
  (fst (AuthHandler_RefreshToken h (BindOk req) c w) =
     response_InternalError c ->
   find (hasToken (RefreshTokenRequest_RefreshToken req))
        (refresh_tokens (snd (AuthHandler_RefreshToken h (BindOk req) c w)))
     = None).
Proof.
  unfold AuthHandler_RefreshToken.
  destruct (RefreshTokens (authSvc h) req w) as [[resp|e] w'] eqn:Erun.
  - cbn [fst snd]. split; [left; eauto|].
    apply RefreshTokens_Ok_inv in Erun.
    destruct Erun as (claims & stored & user & Hp & Hf & Hb & _).
    unfold Before in Hb. apply Z.ltb_ge in Hb.
    destruct (response_shapes_differ c resp "invalid or expired refresh token")
      as (Hd1 & _ & Hd3).
    split; [split|].
    + intros H. destruct (Hd1 H).
    + intros [[err H] | [H | (x & H & Hx)]]; exfalso.
      * rewrite Hp in H. discriminate.
      * rewrite Hf in H. discriminate.
      * rewrite Hf in H. inversion H; subst x. lia.
    + intros H. destruct (Hd3 H).
  - apply RefreshTokens_Err_cases in Erun.
    destruct (response_shapes_differ c
                {| AuthResponse_AccessToken := EmptyString;
                   AuthResponse_RefreshToken := EmptyString;
                   AuthResponse_User :=
                     {| User_ID := 0%N; User_Name := EmptyString;
                        User_Email := EmptyString;
                        User_Password := EmptyString;
                        User_CreatedAt := 0; User_UpdatedAt := 0;
                        User_DeletedAt := None |} |}
                "invalid or expired refresh token") as (_ & Hd2 & _).
    destruct Erun as [[-> Hwhy] | [[-> Hwhy] | (His & [claims Hp] & Hst & Hgone)]].
    + cbn. split; [right; left; reflexivity|]. split.
      * split; [intros _|reflexivity].
        destruct Hwhy as [H | H]; [left|right; left]; exact H.
      * intros H. symmetry in H. destruct (Hd2 H).
    + cbn. split; [right; left; reflexivity|]. split.
      * split; [intros _|reflexivity]. right. right. exact Hwhy.
      * intros H. symmetry in H. destruct (Hd2 H).
    + rewrite His. cbn [fst snd]. split; [right; right; reflexivity|]. split.
      * split; [intros H; destruct (Hd2 H)|].
        destruct Hst as (stored & Hf & Hlive).
        intros [[err H] | [H | (x & H & Hx)]]; exfalso.
        -- rewrite Hp in H. discriminate.
        -- rewrite Hf in H. discriminate.
        -- rewrite Hf in H. inversion H; subst x. lia.
      * intros _. exact Hgone.
Qed.

(** ** Pagination *)

Lemma int64_small (z : Z) :
  -9223372036854775808 <= z < 9223372036854775808 -> int64 z = z.
Proof.
  intros H. unfold int64. rewrite Z.mod_small; lia.
Qed.

Lemma parseDigits_nonneg (s : string) (acc n : Z) :
  parseDigits s acc = Some n -> 0 <= acc -> 0 <= n.
Proof.
  revert acc. induction s as [|c s IH]; cbn; intros acc H Hacc.
  - inversion H; subst. exact Hacc.
  - destruct (isDigit c) eqn:Ed; [|discriminate].
    apply (IH _ H). unfold isDigit in Ed. apply andb_prop in Ed.
    destruct Ed as [Hlo _]. apply Nat.leb_le in Hlo. lia.
Qed.

Lemma Atoi_range (s : string) (v : Z) :
  Atoi s = Some v -> -9223372036854775808 <= v < 9223372036854775808.
Proof.
  unfold Atoi. destruct s as [|c rest]; [discriminate|].
  set (body := if (Ascii.eqb c "+" || Ascii.eqb c "-")%bool
               then rest else String c rest).
  destruct body as [|b body'] eqn:Eb; [discriminate|].
  destruct (parseDigits (String b body') 0) as [un|] eqn:Ep; [|discriminate].
  pose proof (parseDigits_nonneg _ _ _ Ep ltac:(lia)) as Hun.
  destruct (Ascii.eqb c "-").
  - destruct (Z.leb_spec un 9223372036854775808) as [Hb|Hb]; [|discriminate].
    intros Hv; inversion Hv; subst. lia.
  - destruct (Z.ltb_spec un 9223372036854775808) as [Hb|Hb]; [|discriminate].
    intros Hv; inversion Hv; subst. lia.
Qed.

Lemma parseInt_range (s : string) (fallback : Z) :
  -9223372036854775808 <= fallback < 9223372036854775808 ->
  -9223372036854775808 <= parseInt s fallback < 9223372036854775808.
Proof.
  intros Hf. unfold parseInt. destruct (String.eqb s EmptyString); [exact Hf|].
  destruct (Atoi s) as [v|] eqn:E; [|exact Hf].
  apply (Atoi_range s v E).
Qed.

(** X16. Pagination parameters are always usable.  Whatever the query
    holds, the page is at least 1, the limit is between 1 and 100, a
    parameter that is absent or is not a decimal integer in the range of
    [int] falls back to its default, and a division by the limit never
    panics.  Up to page 92233720368547758 the offset is exactly
    [(page - 1) * limit], hence not negative; beyond, the product may wrap. *)
Theorem pagination_params_bounds (query : string -> string) :
  1 <= Params_Page (FromContext query) < 9223372036854775808 /\
  1 <= Params_Limit (FromContext query) <= 100 /\
  (Atoi (query "page") = None -> Params_Page (FromContext query) = 1) /\
  (Atoi (query "limit") = None -> Params_Limit (FromContext query) = 20) /\
  (Params_Page (FromContext query) <= 92233720368547758 ->
   Params_Offset (FromContext query) =
     (Params_Page (FromContext query) - 1) * Params_Limit (FromContext query) /\
   0 <= Params_Offset (FromContext query)) /\
  (forall total,
     OKPaginated (Params_Page (FromContext query))
       (Params_Limit (FromContext query)) total <> None).
Proof.
  unfold FromContext. cbn [Params_Page Params_Limit Params_Offset].
  pose proof (parseInt_range (query "page") DefaultPage
                ltac:(unfold DefaultPage; lia)) as Hp.
  pose proof (parseInt_range (query "limit") DefaultLimit
                ltac:(unfold DefaultLimit; lia)) as Hl.
  set (page := if parseInt (query "page") DefaultPage <? 1
               then DefaultPage else parseInt (query "page") DefaultPage).
  set (limit := if ((parseInt (query "limit") DefaultLimit <? 1)
                    || (MaxLimit <? parseInt (query "limit") DefaultLimit))%bool
                then DefaultLimit
                else parseInt (query "limit") DefaultLimit).
  assert (Hpage : 1 <= page < 9223372036854775808).
  { subst page. unfold DefaultPage in *.
    destruct (Z.ltb_spec (parseInt (query "page") 1) 1); lia. }
  assert (Hlimit : 1 <= limit <= 100).
  { subst limit. unfold DefaultLimit, MaxLimit in *.
    destruct (Z.ltb_spec (parseInt (query "limit") 20) 1); cbn; [lia|].
    destruct (Z.ltb_spec 100 (parseInt (query "limit") 20)); lia. }
  split; [exact Hpage|]. split; [exact Hlimit|].
  split; [|split; [|split]].
  - intros Hnone. subst page. unfold parseInt. rewrite Hnone.
    destruct (String.eqb _ _); reflexivity.
  - intros Hnone. subst limit. unfold parseInt. rewrite Hnone.
    destruct (String.eqb _ _); reflexivity.
  - intros Hsmall. rewrite (int64_small (page - 1)) by lia.
    rewrite int64_small by nia. split; [reflexivity|nia].
  - intros total. unfold OKPaginated.
    destruct (Z.eqb_spec limit 0); [lia|discriminate].
Qed.

(** X17. The page count is the ceiling of total over limit.  For a limit
    of at least 1 and a total between 0 and the largest [int], the
    metadata is produced, echoes page, limit and total, and its page count
    [n] is the least with [total <= n * limit]; a limit of 0 makes the
    division panic. *)
Theorem total_pages_is_ceiling (page limit total : Z) :
  1 <= limit -> 0 <= total < 9223372036854775808 ->
  OKPaginated page 0 total = None /\
  exists meta,
    OKPaginated page limit total = Some meta /\
    Meta_Page meta = page /\ Meta_Limit meta = limit /\
    Meta_TotalItems meta = total /\
    total <= Meta_TotalPages meta * limit < total + limit.
Proof.
  intros Hlimit Htotal. split; [reflexivity|].
  unfold OKPaginated. destruct (Z.eqb_spec limit 0); [lia|].
  rewrite Z.quot_div_nonneg, Z.rem_mod_nonneg by lia.
  pose proof (Z.div_mod total limit ltac:(lia)) as Hdm.
  pose proof (Z.mod_pos_bound total limit ltac:(lia)) as Hmod.
  assert (Hq : 0 <= total / limit <= total).
  { split; [apply Z.div_pos; lia|]. apply Z.div_le_upper_bound; nia. }
  rewrite (int64_small (total / limit)) by lia.
  destruct (Z.eqb_spec (total mod limit) 0) as [Hz|Hnz]; cbn [negb].
  - eexists. split; [reflexivity|]. cbn. repeat split; nia.
  - rewrite int64_small by nia.
    eexists. split; [reflexivity|]. cbn. repeat split; nia.
Qed.

(** ** Accounts over a history *)

Lemma sameAccount_refl (u : User) : sameAccount u u.
Proof. repeat split; auto. Qed.

Lemma sameAccount_trans (u v x : User) :
  sameAccount u v -> sameAccount v x -> sameAccount u x.
Proof.
  intros (a1 & a2 & a3 & a4 & a5 & a6 & a7) (b1 & b2 & b3 & b4 & b5 & b6 & b7).
  repeat split; [etransitivity; eassumption ..|auto].
Qed.

Lemma Forall2_sameAccount_refl (us : list User) : Forall2 sameAccount us us.
Proof. induction us; constructor; auto using sameAccount_refl. Qed.

Lemma Forall2_sameAccount_trans (a b c : list User) :
  Forall2 sameAccount a b -> Forall2 sameAccount b c -> Forall2 sameAccount a c.
Proof.
  intros Hab. revert c. induction Hab as [|x y a b Hxy Hab IH]; intros c Hbc.
  - inversion Hbc; constructor.
  - inversion Hbc as [|? z ? c' Hyz Hbc']; subst. constructor.
    + apply (sameAccount_trans x y z); assumption.
    + apply IH. assumption.
Qed.

Lemma buildAuthResponse_users (s : AuthService) (user : User)
    (deviceID : string) (w : World) :
  users (snd (buildAuthResponse s user deviceID w)) = users w.
Proof.
  destruct (buildAuthResponse s user deviceID w) as [r w'] eqn:E.
  apply buildAuthResponse_tables in E. destruct E as [Hu _]. exact Hu.
Qed.

Lemma Login_users (s : AuthService) (req : LoginRequest) (userAgent : string)
    (w : World) :
  users (snd (Login s req userAgent w)) = users w.
Proof.
  cbv beta delta [Login bind orReturn userRepository_FindByEmail].
  destruct (find _ (users w)) as [user|]; [|reflexivity].
  cbv beta iota. destruct (hash_CheckPassword _ _); [|reflexivity].
  apply buildAuthResponse_users.
Qed.

Lemma RefreshTokens_users (s : AuthService) (req : RefreshTokenRequest)
    (w : World) :
  users (snd (RefreshTokens s req w)) = users w.
Proof.
  rewrite RefreshTokens_eq. unfold ParseRefreshToken.
  pose proof (parse_world (jwtManager s) (RefreshTokenRequest_RefreshToken req)
                (refreshSecret (jwtManager s)) jwt_RefreshToken w) as Hw.
  destruct (parse _ _ _ _ w) as [[claims|e] w1]; cbn in Hw.
  2:{ cbn. destruct Hw as [-> | ->]; reflexivity. }
  assert (Hu : users w1 = users w) by (destruct Hw as [-> | ->]; reflexivity).
  destruct (find (hasToken _) (refresh_tokens w1)); [|exact Hu].
  cbv zeta. destruct (Before _ _); [exact Hu|].
  destruct (find _ (users w1)); [|exact Hu].
  rewrite buildAuthResponse_users. exact Hu.
Qed.

Lemma Register_users (s : AuthService) (req : RegisterRequest) (w : World) :
  users (snd (Register s req w)) = users w \/
  exists u, users (snd (Register s req w)) = (users w ++ [u])%list.
Proof.
  cbv beta delta [Register userRepository_FindByEmail].
  destruct (find _ (users w)); [left; reflexivity|].
  cbn [error_eqb negb].
  cbv beta iota delta [bind orReturn hash_Password uuid_New lift time_Now
                       userRepository_Create].
  destruct (bcryptGenerateFromPassword _ _) as [passwordHash|e];
    [|left; reflexivity].
  cbn [users refresh_tokens clock ticks entropy draws].
  destruct (insert_user _ _) as [[[]|e] w0] eqn:E.
  - apply insert_user_Ok in E. destruct E as [_ ->].
    right. eexists. rewrite buildAuthResponse_users. reflexivity.
  - left. cbn. unfold insert_user in E.
    repeat match type of E with
           | context [if ?b then _ else _] => destruct b
           end; inversion E; subst; reflexivity.
Qed.

Lemma step_accounts (s : AuthService) (call : Call) (w : World) :
  exists kept added,
    users (step s call w) = (kept ++ added)%list /\
    Forall2 sameAccount (users w) kept.
Proof.
  assert (Hsame : forall w', users w' = users w ->
            exists kept added,
              users w' = (kept ++ added)%list /\
              Forall2 sameAccount (users w) kept).
  { intros w' ->. exists (users w), []. rewrite app_nil_r.
    split; [reflexivity|apply Forall2_sameAccount_refl]. }
  destruct call as [req|req ua|req|uid tok all| |id]; cbn [step].
  - destruct (Register_users s req w) as [H | [u H]]; [apply Hsame; exact H|].
    exists (users w), [u]. split; [exact H|apply Forall2_sameAccount_refl].
  - apply Hsame. apply Login_users.
  - apply Hsame. apply RefreshTokens_users.
  - apply Hsame. destruct all; reflexivity.
  - apply Hsame. reflexivity.
  - cbn. eexists. exists []. rewrite app_nil_r. split; [reflexivity|].
    clear Hsame. generalize (clock w (ticks w)). generalize (users w).
    intros us now. induction us as [|u us IH]; cbn; constructor; [|exact IH].
    destruct (N.eqb (User_ID u) id && live u)%bool eqn:E.
    + repeat split; auto. discriminate.
    + apply sameAccount_refl.
Qed.

(** X11. Accounts are kept.  Whatever sequence of calls runs, the user
    table it leaves begins with the rows it started from, in their order,
    each with the id, name, email, password hash and timestamps it had;
    a row that was deleted is not live again; rows are only added after
    them.  No call removes an account or changes its credentials. *)
Theorem accounts_are_kept (s : AuthService) (calls : list Call) (w : World) :
  exists kept added,
    users (run s calls w) = (kept ++ added)%list /\
    Forall2 sameAccount (users w) kept.
Proof.
  revert w. induction calls as [|call calls IH]; intros w; cbn [run].
  - exists (users w), []. rewrite app_nil_r.
    split; [reflexivity|apply Forall2_sameAccount_refl].
  - destruct (step_accounts s call w) as (k1 & a1 & H1 & F1).
    destruct (IH (step s call w)) as (k2 & a2 & H2 & F2).
    rewrite H1 in F2. apply Forall2_app_inv_l in F2.
    destruct F2 as (k2a & k2b & Fa & Fb & ->).
    exists k2a, (k2b ++ a2)%list. split.
    + rewrite H2, app_assoc. reflexivity.
    + apply (Forall2_sameAccount_trans _ k1); assumption.
Qed.

(** What the issue sub-flow stamps: the record it stores expires seven
    days after the third reading of the clock, whatever the configured
    refresh lifetime, while the token it signs expires that lifetime after
    the second reading, cut to the second. *)
Lemma buildAuthResponse_expiries (s : AuthService) (user : User)
    (deviceID : string) (w w' : World) (resp : AuthResponse) :
  buildAuthResponse s user deviceID w = (Ok resp, w') ->
  exists rt claims,
    refresh_tokens w' = (refresh_tokens w ++ [rt])%list /\
    RefreshToken_Token rt = AuthResponse_RefreshToken resp /\
    AuthResponse_RefreshToken resp =
      signedText claims (refreshSecret (jwtManager s)) /\
    RefreshToken_ExpiresAt rt = Add (clock w (2 + ticks w)) (7 * 24 * Hour) /\
    Claims_ExpiresAt claims =
      Some (NewNumericDate (Add (clock w (1 + ticks w))
                                (refreshTTL (jwtManager s)))).
Proof.
  intros H. apply buildAuthResponse_tables in H.
  destruct H as [_ [(e & He & _) | [He Ht]]]; [discriminate|].
  inversion He; subst resp.
  exists (issuedRecord s user deviceID w),
    (issuedClaims (User_ID user) jwt_RefreshToken
       (refreshTTL (jwtManager s)) (advance 1 1 w)).
  repeat split. exact Ht.
Qed.

End TokenLifecycle.

(** * The model on the concrete worlds *)

Lemma pair_of_fst {A B} (p : A * B) (a : A) : fst p = a -> p = (a, snd p).
Proof. intros <-. destruct p; reflexivity. Qed.

(** The registration of Ann in the empty world yields her two tokens and
    the tables of [exRegistered]. *)
Example register_reaches_exRegistered :
  let run := Register refHmacSign refSigningString
               refBcryptGenerateFromPassword exService exRegister exEmpty in
  fst run = Ok {| AuthResponse_AccessToken := exAccessToken;
                  AuthResponse_RefreshToken := exRefreshToken;
                  AuthResponse_User := exAnn |} /\
  users (snd run) = users exRegistered /\
  refresh_tokens (snd run) = refresh_tokens exRegistered /\
  ticks (snd run) = ticks exRegistered /\
  draws (snd run) = draws exRegistered.
Proof. vm_compute. repeat split. Qed.

Ltac by_computation := vm_compute; reflexivity.

Ltac reads_back :=
  eexists; split; [by_computation|];
  split; [reflexivity|]; split; [reflexivity|]; split; reflexivity.

(** The round trip on the tokens issued to Ann in the empty world and
    verified after her registration. *)
Lemma verify_issue_roundtrip_witness :
  readsBack refHmacSign refSigningString refParseUnverified
    (issuedClaims 1001%N jwt_AccessToken (accessTTL exManager) exEmpty)
    (accessSecret exManager) /\
  readsBack refHmacSign refSigningString refParseUnverified
    (issuedClaims 1001%N jwt_RefreshToken (refreshTTL exManager) exEmpty)
    (refreshSecret exManager) /\
  exists access refresh ca cr,
    fst (GenerateAccessToken refHmacSign refSigningString exManager 1001%N
           exEmpty) = Ok access /\
    fst (GenerateRefreshToken refHmacSign refSigningString exManager 1001%N
           exEmpty) = Ok refresh /\
    fst (ParseAccessToken refHmacSign refParseUnverified exManager access
           exRegistered) = Ok ca /\
    Claims_UserID ca = 1001%N /\ Claims_TokenType ca = jwt_AccessToken /\
    fst (ParseRefreshToken refHmacSign refParseUnverified exManager refresh
           exRegistered) = Ok cr /\
    Claims_UserID cr = 1001%N /\ Claims_TokenType cr = jwt_RefreshToken.
Proof.
  assert (Ha : readsBack refHmacSign refSigningString refParseUnverified
                 (issuedClaims 1001%N jwt_AccessToken (accessTTL exManager)
                    exEmpty) (accessSecret exManager)) by reads_back.
  assert (Hr : readsBack refHmacSign refSigningString refParseUnverified
                 (issuedClaims 1001%N jwt_RefreshToken (refreshTTL exManager)
                    exEmpty) (refreshSecret exManager)) by reads_back.
  split; [exact Ha|]. split; [exact Hr|].
  apply (verify_issue_roundtrip refHmacSign refSigningString
           refParseUnverified exManager 1001%N exEmpty exEmpty
           exRegistered exRegistered Ha Hr); by_computation.
Defined.

(** Kind separation on the tokens of Ann, and the gate on a request that
    carries the forged credential. *)
Lemma kind_separation_witness :
  refParseUnverified exForged =
    Some {| Token_Method := HS256; Token_Claims := exAccessClaims;
            Token_SigningString := refSigningString HS256 exAccessClaims;
            Token_Signature :=
              refHmacSign HS256 "refresh-secret"
                (refSigningString HS256 exAccessClaims);
            Token_Valid := false |} /\
  refHmacSign HS256 "access-secret" (refSigningString HS256 exAccessClaims) <>
    refHmacSign HS256 "refresh-secret" (refSigningString HS256 exAccessClaims) /\
  (exists access refresh ea er,
     fst (GenerateAccessToken refHmacSign refSigningString exManager 1001%N
            exEmpty) = Ok access /\
     fst (GenerateRefreshToken refHmacSign refSigningString exManager 1001%N
            exEmpty) = Ok refresh /\
     fst (ParseRefreshToken refHmacSign refParseUnverified exManager access
            exRegistered) = Err ea /\
     fst (ParseAccessToken refHmacSign refParseUnverified exManager refresh
            exRegistered) = Err er) /\
  turnedAway refHmacSign refParseUnverified exManager exNext
    (exRequest ("Bearer " ++ exForged)) exRegistered.
Proof.
  assert (Hdec : refParseUnverified exForged =
    Some {| Token_Method := HS256; Token_Claims := exAccessClaims;
            Token_SigningString := refSigningString HS256 exAccessClaims;
            Token_Signature :=
              refHmacSign HS256 "refresh-secret"
                (refSigningString HS256 exAccessClaims);
            Token_Valid := false |}) by by_computation.
  assert (Hsep : refHmacSign HS256 "access-secret"
                   (refSigningString HS256 exAccessClaims) <>
                 refHmacSign HS256 "refresh-secret"
                   (refSigningString HS256 exAccessClaims))
    by (apply String.eqb_neq; by_computation).
  split; [exact Hdec|]. split; [exact Hsep|].
  apply (kind_separation refHmacSign refSigningString refParseUnverified
           exManager 1001%N exEmpty exEmpty exRegistered exRegistered
           exNext (exRequest ("Bearer " ++ exForged)) exRegistered exForged
           _ ltac:(reads_back) ltac:(reads_back) eq_refl Hdec eq_refl eq_refl
           Hsep).
Defined.

(** The gate on three requests: no header, a basic scheme, and the access
    token of Ann. *)
Lemma request_gate_witness :
  turnedAway refHmacSign refParseUnverified exManager exNext
    (exRequest EmptyString) exRegistered /\
  turnedAway refHmacSign refParseUnverified exManager exNext
    (exRequest "Basic dXNlcjpwYXNz") exRegistered /\
  fst (Auth refHmacSign refParseUnverified exManager exNext
         (exRequest ("bearer " ++ exAccessToken)) exRegistered) =
  Set_ (exRequest ("bearer " ++ exAccessToken)) userIDKey 1001%N.
Proof.
  split; [|split].
  - apply (proj1 (request_gate refHmacSign refParseUnverified exManager exNext
                    (exRequest EmptyString) exRegistered)).
    reflexivity.
  - apply (proj1 (proj2 (proj2
             (request_gate refHmacSign refParseUnverified exManager exNext
                (exRequest "Basic dXNlcjpwYXNz") exRegistered)))
           "Basic" "dXNlcjpwYXNz").
    + reflexivity.
    + apply (Cut_None_inv " " "Basic"). reflexivity.
    + reflexivity.
  - destruct (proj1 (proj2 (proj2 (proj2 (proj2
               (request_gate refHmacSign refParseUnverified exManager exNext
                  (exRequest ("bearer " ++ exAccessToken)) exRegistered)))))
               "bearer" exAccessToken exAccessClaims
               (snd (ParseAccessToken refHmacSign refParseUnverified
                       exManager exAccessToken exRegistered))) as [H _].
    + by_computation.
    + reflexivity.
    + apply pair_of_fst. by_computation.
    + rewrite H. reflexivity.
Defined.

(** Ann refreshes her session once, then presents the same token again. *)
Lemma refresh_single_use_witness :
  exists resp w1,
    RefreshTokens refHmacSign refSigningString refParseUnverified
      exService exRefresh exRegistered = (Ok resp, w1) /\
    fst (ParseRefreshToken refHmacSign refParseUnverified exManager
           exRefreshToken exRegistered) = Ok exRefreshClaims /\
    Claims_ID exRefreshClaims
      <> uuid_String (entropy exRegistered (S (draws exRegistered))) /\
    AuthResponse_RefreshToken resp <> exRefreshToken /\
    find (hasToken exRefreshToken) (refresh_tokens w1) = None /\
    signatureVerifies refHmacSign refParseUnverified exRefreshToken
      "refresh-secret" /\
    fst (RefreshTokens refHmacSign refSigningString refParseUnverified
           exService exRefreshTablet w1) = Err ErrTokenInvalid /\
    fst (RefreshTokens_interleaved refHmacSign refSigningString
           refParseUnverified exService exRefresh exRefreshTablet exInTurn
           AtVerify AtVerify exRegistered) =
      (Returned (Ok resp), Returned (Err ErrTokenInvalid)).
Proof.
  eexists. eexists.
  assert (Hrun : RefreshTokens refHmacSign refSigningString
                   refParseUnverified exService exRefresh exRegistered =
                 (Ok _, snd (RefreshTokens refHmacSign refSigningString
                               refParseUnverified exService exRefresh
                               exRegistered)))
    by (apply pair_of_fst; by_computation).
  assert (Hp : fst (ParseRefreshToken refHmacSign refParseUnverified
                      exManager exRefreshToken exRegistered)
               = Ok exRefreshClaims) by by_computation.
  assert (Hrb : readsBack refHmacSign refSigningString refParseUnverified
                  (issuedClaims (Claims_UserID exRefreshClaims)
                     jwt_RefreshToken (refreshTTL exManager)
                     (advance 1 1 (rotated exRefreshToken exRegistered)))
                  (refreshSecret exManager)) by reads_back.
  assert (Hid : Claims_ID exRefreshClaims
                <> uuid_String (entropy exRegistered (S (draws exRegistered))))
    by (apply String.eqb_neq; by_computation).
  split; [exact Hrun|]. split; [exact Hp|]. split; [exact Hid|].
  pose proof (refresh_single_use refHmacSign refSigningString
                refParseUnverified exService exRefresh exRefreshTablet
                exRegistered _ _ _ exRefreshClaims
                Hrun Hp Hrb Hid eq_refl eq_refl)
    as (H1 & _ & _ & H4 & H5 & H6 & H7).
  split; [exact H1|]. split; [exact H4|]. split; [exact H5|].
  split; [exact H6|]. exact H7.
Defined.

(** Single use fails between calls that overlap.  Ann's token is presented
    from her phone and from her tablet at once: both calls verify it and
    find its record before either deletes it.  The call of the phone
    consumes the token and succeeds; the call of the tablet, presenting
    the same token, whose record the first call has deleted, succeeds
    too, where single use asks for TokenInvalid.  One token has yielded
    two pairs and two sessions. *)
Lemma refresh_overlapping_calls_both_succeed :
  exists resp1 resp2,
    fst (RefreshTokens_interleaved refHmacSign refSigningString
           refParseUnverified exService exRefresh exRefreshTablet exOverlap
           AtVerify AtVerify exRegistered) =
      (Returned (Ok resp1), Returned (Ok resp2)) /\
    RefreshTokenRequest_RefreshToken exRefreshTablet =
      RefreshTokenRequest_RefreshToken exRefresh /\
    Returned (Ok resp2) <> Returned (Err ErrTokenInvalid) /\
    AuthResponse_RefreshToken resp1 <> AuthResponse_RefreshToken resp2 /\
    map RefreshToken_Token
        (refresh_tokens
           (snd (RefreshTokens_interleaved refHmacSign refSigningString
                   refParseUnverified exService exRefresh exRefreshTablet
                   exOverlap AtVerify AtVerify exRegistered))) =
      [AuthResponse_RefreshToken resp1; AuthResponse_RefreshToken resp2] /\
    map RefreshToken_DeviceID
        (refresh_tokens
           (snd (RefreshTokens_interleaved refHmacSign refSigningString
                   refParseUnverified exService exRefresh exRefreshTablet
                   exOverlap AtVerify AtVerify exRegistered))) =
      ["phone"; "tablet"].
Proof.
  eexists. eexists.
  split; [by_computation|]. split; [reflexivity|].
  split; [discriminate|].
  split; [apply String.eqb_neq; by_computation|].
  split; by_computation.
Qed.

(** Eight days after her registration with the thirty-day service, Ann
    presents a token that still verifies while its record has expired. *)
Lemma refresh_expired_record_witness :
  fst (ParseRefreshToken refHmacSign refParseUnverified exLongManager
         exLongToken exStale) = Ok exLongClaims /\
  find (hasToken exLongToken) (refresh_tokens exStale) = Some exLongSession /\
  RefreshToken_ExpiresAt exLongSession < clock exStale (S (ticks exStale)) /\
  exists w',
    RefreshTokens refHmacSign refSigningString refParseUnverified
      exLongService exLongRefresh exStale = (Err ErrTokenExpired, w') /\
    refresh_tokens w' = [].
Proof.
  assert (Hp : fst (ParseRefreshToken refHmacSign refParseUnverified
                      exLongManager exLongToken exStale) = Ok exLongClaims)
    by by_computation.
  assert (Hf : find (hasToken exLongToken) (refresh_tokens exStale)
               = Some exLongSession) by by_computation.
  assert (Hlt : RefreshToken_ExpiresAt exLongSession
                < clock exStale (S (ticks exStale))) by by_computation.
  split; [exact Hp|]. split; [exact Hf|]. split; [exact Hlt|].
  destruct (refresh_expired_record refHmacSign refSigningString
              refParseUnverified exLongService exLongRefresh exStale
              exLongClaims exLongSession Hp Hf Hlt)
    as (w' & Hrun & Ht & _).
  exists w'. split; [exact Hrun|]. rewrite Ht. by_computation.
Defined.

(** Two refresh calls that fail after the rotation delete: the account of
    the token's subject is gone, and the device id does not fit its column.
    Both leave the token table empty. *)
Lemma refresh_failure_consumes_token_witness :
  (fst (RefreshTokens refHmacSign refSigningString refParseUnverified
          exService exRefresh exDeparted) =
     Err (ErrorfW "authService.RefreshTokens FindByID" ErrNotFound) /\
   refresh_tokens exDeparted = [exSession] /\
   refresh_tokens (snd (RefreshTokens refHmacSign refSigningString
                          refParseUnverified exService exRefresh exDeparted))
     = []) /\
  (fst (RefreshTokens refHmacSign refSigningString refParseUnverified
          exService exOversized exRegistered) =
     Err (ErrorfW "store refresh token"
            (ErrorfW "refreshTokenRepository.Create"
               string_data_right_truncation)) /\
   refresh_tokens exRegistered = [exSession] /\
   refresh_tokens (snd (RefreshTokens refHmacSign refSigningString
                          refParseUnverified exService exOversized
                          exRegistered))
     = []).
Proof.
  split.
  - assert (Hrun : RefreshTokens refHmacSign refSigningString
                     refParseUnverified exService exRefresh exDeparted =
                   (Err (ErrorfW "authService.RefreshTokens FindByID"
                           ErrNotFound),
                    snd (RefreshTokens refHmacSign refSigningString
                           refParseUnverified exService exRefresh exDeparted)))
      by (apply pair_of_fst; by_computation).
    split; [rewrite Hrun at 1; reflexivity|]. split; [reflexivity|].
    destruct (refresh_failure_consumes_token refHmacSign refSigningString
                refParseUnverified exService exRefresh exDeparted _
                exRefreshClaims exSession _
                ltac:(by_computation) ltac:(by_computation)
                ltac:(by_computation) Hrun) as (Ht & _).
    rewrite Ht. by_computation.
  - assert (Hrun : RefreshTokens refHmacSign refSigningString
                     refParseUnverified exService exOversized exRegistered =
                   (Err (ErrorfW "store refresh token"
                           (ErrorfW "refreshTokenRepository.Create"
                              string_data_right_truncation)),
                    snd (RefreshTokens refHmacSign refSigningString
                           refParseUnverified exService exOversized
                           exRegistered)))
      by (apply pair_of_fst; by_computation).
    split; [rewrite Hrun at 1; reflexivity|]. split; [reflexivity|].
    destruct (refresh_failure_consumes_token refHmacSign refSigningString
                refParseUnverified exService exOversized exRegistered _
                exRefreshClaims exSession _
                ltac:(by_computation) ltac:(by_computation)
                ltac:(by_computation) Hrun) as (Ht & _).
    rewrite Ht. by_computation.
Defined.

(** Logging out with a token that has no record, and logging out an
    identity that has no session, leave the world of Ann as it is. *)
Lemma logout_revocation_witness :
  Logout exService 1001%N "no-such-token" false exRegistered
    = (Ok tt, exRegistered) /\
  Logout exService 2002%N exRefreshToken true exRegistered
    = (Ok tt, exRegistered) /\
  refresh_tokens (snd (Logout exService 1001%N "no-such-token" true
                         exRegistered)) = [].
Proof.
  split; [|split].
  - apply (proj2 (proj2 (proj2 (proj2 (proj2 (proj2
             (logout_revocation exService 1001%N "no-such-token"
                exRegistered))))))).
    intros r [<- | []]. apply String.eqb_neq. by_computation.
  - apply (proj1 (proj2 (proj2 (proj2 (proj2 (proj2
             (logout_revocation exService 2002%N exRefreshToken
                exRegistered))))))).
    intros r [<- | []]. apply N.eqb_neq. by_computation.
  - rewrite (proj1 (logout_revocation exService 1001%N "no-such-token"
                      exRegistered)).
    by_computation.
Defined.

(** A login for an unknown email and a login of Ann with a wrong password. *)
Lemma login_failures_indistinguishable_witness :
  fst (userRepository_FindByEmail "nobody@x.com" exRegistered)
    = Err ErrNotFound /\
  fst (userRepository_FindByEmail "a@x.com" exRegistered) = Ok exAnn /\
  Login refHmacSign refSigningString refBcryptCompareHashAndPassword
    exService exNobody "curl/8" exRegistered
    = (Err ErrInvalidCredentials, exRegistered) /\
  Login refHmacSign refSigningString refBcryptCompareHashAndPassword
    exService exWrongPassword "Mozilla/5.0" exRegistered
    = (Err ErrInvalidCredentials, exRegistered) /\
  Written (fst (AuthHandler_Login refHmacSign refSigningString
                  refBcryptCompareHashAndPassword exHandler (BindOk exNobody)
                  (exRequest EmptyString) exRegistered)) =
  Written (fst (AuthHandler_Login refHmacSign refSigningString
                  refBcryptCompareHashAndPassword exHandler
                  (BindOk exWrongPassword)
                  (exRequest EmptyString) exRegistered)).
Proof.
  assert (Habsent : fst (userRepository_FindByEmail
                           (LoginRequest_Email exNobody) exRegistered)
                    = Err ErrNotFound) by by_computation.
  assert (Hfound : fst (userRepository_FindByEmail
                          (LoginRequest_Email exWrongPassword) exRegistered)
                   = Ok exAnn) by by_computation.
  destruct (login_failures_indistinguishable refHmacSign refSigningString
              refBcryptCompareHashAndPassword exHandler
              (exRequest EmptyString) (exRequest EmptyString)
              exRegistered exRegistered exNobody exWrongPassword
              "curl/8" "Mozilla/5.0" exAnn
              (ErrorNew
                 "crypto/bcrypt: hashedPassword is not the hash of the given password")
              Habsent Hfound ltac:(by_computation))
    as (L1 & L2 & _ & _ & Hsame).
  split; [exact Habsent|]. split; [exact Hfound|].
  split; [exact L1|]. split; [exact L2|]. exact Hsame.
Defined.

(** The record a login of Ann adds carries no user agent, though the
    request came with one. *)
Lemma session_user_agent_empty_witness :
  exists rt,
    refresh_tokens
      (snd (Login refHmacSign refSigningString
              refBcryptCompareHashAndPassword exService exLogin
              "Mozilla/5.0" exRegistered)) = [exSession; rt] /\
    refresh_tokens exRegistered = [exSession] /\
    RefreshToken_DeviceID rt = "laptop" /\
    RefreshToken_UserAgent rt = EmptyString.
Proof.
  eexists.
  assert (Ht : refresh_tokens
                 (snd (Login refHmacSign refSigningString
                         refBcryptCompareHashAndPassword exService exLogin
                         "Mozilla/5.0" exRegistered)) = [exSession; _])
    by by_computation.
  split; [exact Ht|]. split; [reflexivity|]. split; [reflexivity|].
  apply (proj1 (proj2
           (session_user_agent_empty refHmacSign refSigningString
              refParseUnverified refBcryptGenerateFromPassword
              refBcryptCompareHashAndPassword exService exRegistered))
         exLogin "Mozilla/5.0" _ _ _
         (pair_of_fst _ _ eq_refl)).
  - rewrite Ht. right. left. reflexivity.
  - intros [H | []]. apply (f_equal RefreshToken_ID) in H. discriminate H.
Defined.

(** C2. With a refresh lifetime configured to one hour and the clock
    standing at 1 700 000 000 s, a login of Ann stores a record that
    expires seven days later, while the refresh token it signs expires one
    hour later: the two expiries do not derive from the same value, and
    the record's is not now plus the configured lifetime. *)
Theorem session_expiry_ignores_configured_ttl :
  exists resp w' rt claims,
    Login refHmacSign refSigningString refBcryptCompareHashAndPassword
      exShortService exLogin "Mozilla/5.0" exFrozen = (Ok resp, w') /\
    refreshTTL (jwtManager exShortService) = 1 * Hour /\
    refresh_tokens w' = [rt] /\
    RefreshToken_Token rt = AuthResponse_RefreshToken resp /\
    fst (ParseRefreshToken refHmacSign refParseUnverified exShortManager
           (AuthResponse_RefreshToken resp) w') = Ok claims /\
    Claims_ExpiresAt claims = Some (exStart + 1 * Hour) /\
    RefreshToken_ExpiresAt rt = exStart + 7 * 24 * Hour /\
    RefreshToken_ExpiresAt rt <>
      exStart + refreshTTL (jwtManager exShortService).
Proof.
  do 4 eexists.
  split; [apply pair_of_fst; by_computation|].
  split; [reflexivity|].
  split; [by_computation|].
  split; [reflexivity|].
  split; [by_computation|].
  split; [reflexivity|].
  split; [reflexivity|].
  apply Z.eqb_neq. by_computation.
Qed.

(** ** The further properties on the concrete worlds *)

(** The gate on a request whose token claims the method "none". *)
Lemma parse_rejects_non_hmac_witness :
  refParseUnverified exUnsigned =
    Some {| Token_Method := NonHMAC "none"; Token_Claims := exAccessClaims;
            Token_SigningString :=
              refSigningString (NonHMAC "none") exAccessClaims;
            Token_Signature := EmptyString; Token_Valid := false |} /\
  (exists err,
     ParseAccessToken refHmacSign refParseUnverified exManager exUnsigned
       exRegistered = (Err err, exRegistered)) /\
  turnedAway refHmacSign refParseUnverified exManager exNext
    (exRequest ("Bearer " ++ exUnsigned)) exRegistered.
Proof.
  assert (Hdec : refParseUnverified exUnsigned =
    Some {| Token_Method := NonHMAC "none"; Token_Claims := exAccessClaims;
            Token_SigningString :=
              refSigningString (NonHMAC "none") exAccessClaims;
            Token_Signature := EmptyString; Token_Valid := false |})
    by by_computation.
  split; [exact Hdec|].
  destruct (parse_rejects_non_hmac refHmacSign refParseUnverified exManager
              exNext (exRequest ("Bearer " ++ exUnsigned)) exRegistered
              exUnsigned _ Hdec eq_refl eq_refl) as (Ha & _ & Hgate).
  split; [exact Ha|exact Hgate].
Defined.

(** The refresh token of Ann, issued in the empty world, verified after
    her registration. *)
Lemma issued_token_lifetime_witness :
  readsBack refHmacSign refSigningString refParseUnverified
    (issuedClaims 1001%N jwt_RefreshToken (refreshTTL exManager) exEmpty)
    "refresh-secret" /\
  fst (parse refHmacSign refParseUnverified exManager
         (signedText refHmacSign refSigningString
            (issuedClaims 1001%N jwt_RefreshToken (refreshTTL exManager)
               exEmpty) "refresh-secret")
         "refresh-secret" jwt_RefreshToken exRegistered)
    = Ok (issuedClaims 1001%N jwt_RefreshToken (refreshTTL exManager) exEmpty) /\
  exists err,
    fst (parse refHmacSign refParseUnverified exManager
           (signedText refHmacSign refSigningString
              (issuedClaims 1001%N jwt_RefreshToken (refreshTTL exManager)
                 exEmpty) "refresh-secret")
           "refresh-secret" jwt_RefreshToken exStale) = Err err.
Proof.
  assert (Hr : readsBack refHmacSign refSigningString refParseUnverified
                 (issuedClaims 1001%N jwt_RefreshToken (refreshTTL exManager)
                    exEmpty) "refresh-secret") by reads_back.
  split; [exact Hr|]. split.
  - apply (proj2 (proj2
             (issued_token_lifetime refHmacSign refSigningString
                refParseUnverified exManager 1001%N jwt_RefreshToken
                "refresh-secret" (refreshTTL exManager) exEmpty exRegistered
                Hr))).
    vm_compute. discriminate.
  - apply (proj1 (proj2
             (issued_token_lifetime refHmacSign refSigningString
                refParseUnverified exManager 1001%N jwt_RefreshToken
                "refresh-secret" (refreshTTL exManager) exEmpty exStale
                Hr))).
    vm_compute. discriminate.
Defined.

(** The access token of Ann at the gate after she logged out everywhere. *)
Lemma access_token_outlives_sessions_witness :
  refresh_tokens (snd (Logout exService 1001%N EmptyString true exRegistered))
    = [] /\
  Auth refHmacSign refParseUnverified exManager exNext
    (exRequest ("Bearer " ++ exAccessToken))
    (snd (Logout exService 1001%N EmptyString true exRegistered)) =
  (Set_ (exRequest ("Bearer " ++ exAccessToken)) userIDKey 1001%N,
   advance 1 0 (snd (Logout exService 1001%N EmptyString true exRegistered))).
Proof.
  split; [by_computation|].
  exact (proj2
           (access_token_outlives_sessions refHmacSign refParseUnverified
              exManager exService exNext
              (exRequest ("Bearer " ++ exAccessToken)) exRegistered
              exRegistered "Bearer" exAccessToken exAccessClaims 1001%N
              EmptyString true eq_refl eq_refl ltac:(by_computation) eq_refl)).
Defined.

(** The expired session of Ann, refreshed before and after the sweep. *)
Lemma refresh_handler_hides_the_sweep_witness :
  refresh_tokens (snd (refreshTokenRepository_DeleteExpired exStale)) = [] /\
  fst (RefreshTokens refHmacSign refSigningString refParseUnverified
         exLongService exLongRefresh exStale) = Err ErrTokenExpired /\
  fst (RefreshTokens refHmacSign refSigningString refParseUnverified
         exLongService exLongRefresh
         (snd (refreshTokenRepository_DeleteExpired exStale)))
    = Err ErrTokenInvalid /\
  fst (AuthHandler_RefreshToken refHmacSign refSigningString
         refParseUnverified exLongHandler (BindOk exLongRefresh)
         (exRequest EmptyString) exStale) =
  fst (AuthHandler_RefreshToken refHmacSign refSigningString
         refParseUnverified exLongHandler (BindOk exLongRefresh)
         (exRequest EmptyString)
         (snd (refreshTokenRepository_DeleteExpired exStale))).
Proof.
  split; [by_computation|].
  destruct (refresh_handler_hides_the_sweep refHmacSign refSigningString
              refParseUnverified exLongHandler (exRequest EmptyString)
              exLongRefresh exStale exLongClaims exLongSession
              ltac:(by_computation) ltac:(by_computation)
              ltac:(by_computation))
    as (H1 & H2 & H3 & H4).
  - intros r [<- | []] _. by_computation.
  - split; [exact H1|]. split; [exact H2|]. rewrite H3, H4. reflexivity.
Defined.

(** Ann logs out everywhere, then her refresh token is presented. *)
Lemma logout_then_refresh_witness :
  fst (RefreshTokens refHmacSign refSigningString refParseUnverified
         exService exRefresh
         (snd (Logout exService 1001%N exRefreshToken true exRegistered)))
    = Err ErrTokenInvalid.
Proof.
  apply (logout_then_refresh refHmacSign refSigningString refParseUnverified
           exService 1001%N true exRefresh exRegistered).
  intros _ r [<- | []] _. reflexivity.
Defined.

(** A login of Ann leaves its session on record for her laptop. *)
Lemma issued_session_is_stored_witness :
  exists resp,
    fst (Login refHmacSign refSigningString refBcryptCompareHashAndPassword
           exService exLogin "Mozilla/5.0" exRegistered) = Ok resp /\
    sessionStored resp "laptop"
      (snd (Login refHmacSign refSigningString
              refBcryptCompareHashAndPassword exService exLogin
              "Mozilla/5.0" exRegistered)).
Proof.
  eexists.
  assert (Hrun : Login refHmacSign refSigningString
                   refBcryptCompareHashAndPassword exService exLogin
                   "Mozilla/5.0" exRegistered =
                 (Ok _, snd (Login refHmacSign refSigningString
                               refBcryptCompareHashAndPassword exService
                               exLogin "Mozilla/5.0" exRegistered)))
    by (apply pair_of_fst; by_computation).
  split; [rewrite Hrun at 1; reflexivity|].
  exact (proj1 (proj1 (proj2
           (issued_session_is_stored refHmacSign refSigningString
              refParseUnverified refBcryptGenerateFromPassword
              refBcryptCompareHashAndPassword exService exRegistered _ _))
           exLogin "Mozilla/5.0" Hrun)).
Defined.

(** Ann refreshes from her phone: one session before, one after, now of
    the phone. *)
Lemma refresh_rotates_witness :
  exists rt,
    refresh_tokens
      (snd (RefreshTokens refHmacSign refSigningString refParseUnverified
              exService exRefresh exRegistered)) = [rt] /\
    RefreshToken_UserID rt = 1001%N /\
    RefreshToken_DeviceID rt = "phone".
Proof.
  destruct (refresh_rotates refHmacSign refSigningString refParseUnverified
              exService exRefresh exRegistered _ _
              (pair_of_fst _ _ eq_refl))
    as (claims & rt & Hp & Ht & _ & Hu & _ & Hd & _).
  exists rt. split; [rewrite Ht; by_computation|]. split.
  - rewrite Hu. assert (Hc : Ok claims = Ok exRefreshClaims)
      by (rewrite <- Hp; by_computation).
    inversion Hc. reflexivity.
  - rewrite Hd. reflexivity.
Defined.

(** A history from the empty world: Ann registers, logs in, refreshes,
    logs out everywhere; the sweep runs; her account is deleted. *)
Lemma schema_promises_kept_witness :
  wellFormed exEmpty /\
  wellFormed
    (run refHmacSign refSigningString refParseUnverified
       refBcryptGenerateFromPassword refBcryptCompareHashAndPassword
       exService
       [CallRegister exRegister; CallLogin exLogin "Mozilla/5.0";
        CallRefresh exRefresh; CallLogout 1001%N EmptyString true;
        CallSweep; CallDeleteUser 1001%N]
       exEmpty).
Proof.
  assert (Hwf : wellFormed exEmpty).
  { repeat split; try constructor. intros r []. }
  split; [exact Hwf|].
  exact (proj1
           (schema_promises_kept refHmacSign refSigningString
              refParseUnverified refBcryptGenerateFromPassword
              refBcryptCompareHashAndPassword exService _ exEmpty Hwf)).
Defined.

(** Registering the email of Ann again. *)
Lemma register_email_taken_witness :
  In exAnn (users exRegistered) /\
  AuthHandler_Register refHmacSign refSigningString
    refBcryptGenerateFromPassword exHandler (BindOk exRegister)
    (exRequest EmptyString) exRegistered =
  (response_Conflict (exRequest EmptyString) "email already registered",
   exRegistered).
Proof.
  assert (Hin : In exAnn (users exRegistered)) by (left; reflexivity).
  split; [exact Hin|].
  exact (proj2 (proj2 (proj2 (proj2 (proj2
           (register_email_taken refHmacSign refSigningString
              refBcryptGenerateFromPassword exHandler (exRequest EmptyString)
              exRegister exRegistered exAnn Hin eq_refl))))
           eq_refl)).
Defined.

(** Ann registers in the empty world and logs in: once with her password,
    once with a wrong one. *)
Lemma register_then_login_witness :
  exists resp w',
    Register refHmacSign refSigningString refBcryptGenerateFromPassword
      exService exRegister exEmpty = (Ok resp, w') /\
    fst (userRepository_FindByEmail "a@x.com" w') = Ok (AuthResponse_User resp) /\
    fst (Login refHmacSign refSigningString refBcryptCompareHashAndPassword
           exService exLogin "Mozilla/5.0" w') <> Err ErrInvalidCredentials /\
    Login refHmacSign refSigningString refBcryptCompareHashAndPassword
      exService exWrongPassword "Mozilla/5.0" w'
      = (Err ErrInvalidCredentials, w').
Proof.
  eexists. eexists.
  assert (Hrun : Register refHmacSign refSigningString
                   refBcryptGenerateFromPassword exService exRegister exEmpty =
                 (Ok _, snd (Register refHmacSign refSigningString
                               refBcryptGenerateFromPassword exService
                               exRegister exEmpty)))
    by (apply pair_of_fst; by_computation).
  split; [exact Hrun|].
  destruct (register_then_login refHmacSign refSigningString
              refBcryptGenerateFromPassword refBcryptCompareHashAndPassword
              exService exRegister exEmpty _ _ exLogin "Mozilla/5.0"
              Hrun eq_refl) as (Hfind & Hok & _).
  destruct (register_then_login refHmacSign refSigningString
              refBcryptGenerateFromPassword refBcryptCompareHashAndPassword
              exService exRegister exEmpty _ _ exWrongPassword "Mozilla/5.0"
              Hrun eq_refl) as (_ & _ & Hbad).
  split; [exact Hfind|]. split.
  - apply Hok. by_computation.
  - eapply Hbad. by_computation.
Defined.

(** Forty-one items in pages of twenty make three pages. *)
Lemma total_pages_is_ceiling_witness :
  OKPaginated 1 20 41 =
    Some {| Meta_Page := 1; Meta_Limit := 20; Meta_TotalItems := 41;
            Meta_TotalPages := 3 |} /\
  exists meta,
    OKPaginated 1 20 41 = Some meta /\
    41 <= Meta_TotalPages meta * 20 < 41 + 20.
Proof.
  split; [reflexivity|].
  destruct (total_pages_is_ceiling 1 20 41 ltac:(lia) ltac:(lia))
    as (_ & meta & Hm & _ & _ & _ & Hb).
  exists meta. split; [exact Hm|exact Hb].
Defined.
